(** * StringZilla CPython binding ([python/lib.c]): a shallow embedding

    The binding exposes two object types, [MemoryMappedFile] and [Str], and
    the module-level [find].  The C code is embedded here function by
    function: machine integers are [Z] with the 64-bit wrap-around written
    out, the interpreter's objects live in a heap indexed by object
    references, raw memory is a read-only map from addresses to bytes, and
    operating-system calls act on an explicit table of descriptors and
    mappings. *)

From Stdlib Require Import ZArith Lia Bool String.
From Stdlib.Strings Require Import Byte.
From stdpp Require Import base list.

Local Open Scope Z_scope.

(** * Part I: the program *)

(** ** Machine integers: [size_t] and [ssize_t] on a 64-bit target *)

Module Int64.

Definition modulus : Z := 2 ^ 64.
Definition SSIZE_MAX : Z := 2 ^ 63 - 1.
Definition SSIZE_MIN : Z := - 2 ^ 63.

(** Conversion of an integer value to [size_t]. *)
Definition to_size_t (z : Z) : Z := z mod modulus.

(** Conversion of an integer value to [ssize_t] (two's complement). *)
Definition to_ssize_t (z : Z) : Z := (z + 2 ^ 63) mod modulus - 2 ^ 63.

Definition is_size_t (z : Z) : Prop := 0 <= z < modulus.
Definition is_ssize_t (z : Z) : Prop := SSIZE_MIN <= z <= SSIZE_MAX.

End Int64.

Import Int64.

(** [PY_SSIZE_T_MAX] and [PY_SSIZE_T_MIN] of the interpreter. *)
Definition PY_SSIZE_T_MAX : Z := SSIZE_MAX.
Definition PY_SSIZE_T_MIN : Z := SSIZE_MIN.

(** ** Forward declarations: memory, the two structs, interpreter objects *)

(** Raw memory is only ever read by the binding: an address holds a byte.
    [NULL] is address [0]. *)
Definition memory : Type := Z -> byte.

Definition NULL : Z := 0.

(** The bytes of the range [(p, len)]. *)
Definition load (mem : memory) (p len : Z) : list byte :=
  map (fun i : nat => mem (p + Z.of_nat i)) (seq 0 (Z.to_nat len)).

(** An object reference ([PyObject *]) is an index into the object heap. *)
Abbreviation objref := nat (only parsing).

(** [struct MemoryMappedFile], POSIX build. *)
Module MemoryMappedFile.
Record t : Type := Build {
  file_descriptor : Z;
  start : Z;
  length : Z
}.
End MemoryMappedFile.

(** [struct Str]: [parent] is [None] for a [NULL] pointer. *)
Module Str.
Record t : Type := Build {
  parent : option objref;
  start : Z;
  length : Z
}.
End Str.

(** What an object of the interpreter holds, as far as the binding looks
    into it.  A native [str] carries the address and size of its UTF-8
    buffer, a [bytes] object the address and size of its payload; a Python
    [int] and the fields of a [slice] object are unbounded integers. *)
Inductive PyBody : Type :=
| PyUnicode (utf8 size : Z)
| PyBytes (buffer size : Z)
| PyStr (s : Str.t)
| PyFile (f : MemoryMappedFile.t)
| PyLong (v : Z)
| PySlice (start stop step : option Z)
| PyNone
| PyOther.

Record PyObject : Type := {
  ob_refcnt : Z;
  ob_body : PyBody
}.

Abbreviation heap := (list PyObject) (only parsing).

(** Exception types raised through [PyErr_SetString]. *)
Inductive PyExc : Type :=
| PyExc_TypeError
| PyExc_IndexError
| PyExc_RuntimeError.

(** Outcome of a function returning [PyObject *].  [Propagated] is a [NULL]
    return after a callee of the interpreter has already set the exception;
    [PyUnicode_FromStringAndSize bs] is the call of that interpreter
    function on the bytes [bs]: the native text it decodes from them as
    UTF-8, or its failure ([NULL] with [UnicodeDecodeError]) when they are
    not valid UTF-8, as for a lone byte of 0x80 or above or a range cut
    inside a multi-byte character; which of the two is the interpreter's
    matter and is not decided here.  [PyUnicode_FromString text] is the text
    built from a C literal. *)
Inductive PyResult : Type :=
| Raise (exc : PyExc) (message : string)
| Propagated
| PyUnicode_FromStringAndSize (bs : list byte)
| PyUnicode_FromString (text : string)
| PyLong_FromSize_t (v : Z)
| PyBool_FromLong (b : bool)
| Py_NotImplemented
| Return (r : objref).

(** Outcome of a function returning [int]: [IntRaise] and [IntPropagated]
    both stand for [-1] with an exception set. *)
Inductive IntResult : Type :=
| IntRaise (exc : PyExc) (message : string)
| IntPropagated
| IntReturn (v : Z).

(** *** Interpreter API used by the binding *)

(** [PyLong_AsSsize_t]: the value when it fits, otherwise [-1] (the error
    indicator it sets is never inspected by the binding). *)
Definition PyLong_AsSsize_t (o : PyBody) : Z :=
  match o with
  | PyLong v => if (SSIZE_MIN <=? v) && (v <=? SSIZE_MAX) then v else -1
  | _ => -1
  end.

(** Whether [PyLong_AsSsize_t] leaves an exception set: [TypeError] for an
    object that is not an [int], [OverflowError] for an [int] that does not
    fit.  The binding never looks at it nor clears it, so a caller that goes
    on returns its result with that exception pending, which the result
    types above do not show; statements about results are made where this is
    [false]. *)
Definition PyLong_AsSsize_t_error (o : PyBody) : bool :=
  match o with
  | PyLong v => negb ((SSIZE_MIN <=? v) && (v <=? SSIZE_MAX))
  | _ => true
  end.

(** [_PyEval_SliceIndex] on an integer: saturates to the [Py_ssize_t] range. *)
Definition PyEval_SliceIndex (v : Z) : Z :=
  Z.max PY_SSIZE_T_MIN (Z.min PY_SSIZE_T_MAX v).

(** [PySlice_Unpack]: [None] when the step is zero ([ValueError] set). *)
Definition PySlice_Unpack (kstart kstop kstep : option Z) : option (Z * Z * Z) :=
  match (match kstep with
         | None => Some 1
         | Some v =>
             let step := PyEval_SliceIndex v in
             if step =? 0 then None
             else Some (if step <? - PY_SSIZE_T_MAX then - PY_SSIZE_T_MAX else step)
         end) with
  | None => None
  | Some step =>
      let start :=
        match kstart with
        | None => if step <? 0 then PY_SSIZE_T_MAX else 0
        | Some v => PyEval_SliceIndex v
        end in
      let stop :=
        match kstop with
        | None => if step <? 0 then PY_SSIZE_T_MIN else PY_SSIZE_T_MAX
        | Some v => PyEval_SliceIndex v
        end in
      Some (start, stop, step)
  end.

(** [PySlice_AdjustIndices]: clips [start] and [stop] in place and returns
    the slice length.  The clipped [start] may remain above [stop]. *)
Definition PySlice_AdjustIndices (length start stop step : Z) : Z * Z * Z :=
  let clip (i : Z) : Z :=
    if i <? 0 then
      let i := i + length in
      if i <? 0 then (if step <? 0 then -1 else 0) else i
    else if i >=? length then (if step <? 0 then length - 1 else length)
    else i in
  let start := clip start in
  let stop := clip stop in
  let slicelength :=
    if step <? 0 then
      (if stop <? start then (start - stop - 1) / (- step) + 1 else 0)
    else
      (if start <? stop then (stop - start - 1) / step + 1 else 0) in
  (start, stop, slicelength).

(** Object allocation ([tp_alloc], [PyObject_New]): a fresh reference with
    reference count one. *)
Definition alloc (h : heap) (b : PyBody) : heap * objref :=
  (h ++ [ {| ob_refcnt := 1; ob_body := b |} ], List.length h).

Definition Py_INCREF (h : heap) (r : objref) : heap :=
  alter (fun o => {| ob_refcnt := ob_refcnt o + 1; ob_body := ob_body o |}) r h.

Definition set_body (h : heap) (r : objref) (b : PyBody) : heap :=
  alter (fun o => {| ob_refcnt := ob_refcnt o; ob_body := b |}) r h.

(** ** Helpers *)

(** [slice]: the statements of the C function in order.  [start += length]
    mixes [ssize_t] and [size_t]; the sum is formed modulo [2^64] and read
    back as [ssize_t].  The two results are stored through [size_t]
    pointers. *)
Definition slice (length start end_ : Z) : Z * Z :=
  (* Normalize negative indices *)
  let start := if start <? 0 then to_ssize_t (start + length) else start in
  let end_ := if end_ <? 0 then to_ssize_t (end_ + length) else end_ in
  (* Clamp indices to a valid range *)
  let start := if start <? 0 then 0 else start in
  let end_ := if end_ <? 0 then 0 else end_ in
  let start := if start >? to_ssize_t length then to_ssize_t length else start in
  let end_ := if end_ >? to_ssize_t length then to_ssize_t length else end_ in
  (* Ensure start <= end *)
  let start := if start >? end_ then end_ else start in
  (to_size_t start, to_size_t (to_ssize_t (end_ - start))).

(** The Slice Normalizer as the specification words it, over unbounded
    integers: add [length] to a negative index, clamp to [[0, length]],
    force [start = end] when [start > end]. *)
Module SliceSpec.

Definition adjust (length i : Z) : Z := if i <? 0 then i + length else i.

Definition clamp (length i : Z) : Z := Z.max 0 (Z.min length i).

Definition normalize (length start end_ : Z) : Z * Z :=
  let s := clamp length (adjust length start) in
  let e := clamp length (adjust length end_) in
  let s := if s >? e then e else s in
  (s, e - s).

End SliceSpec.

(** [export_string_like]: [Some (start, length)] for a return of [1],
    [None] for [0].  The [bytes] branch cannot fail on a [bytes] object. *)
Definition export_string_like (object : PyBody) : option (Z * Z) :=
  match object with
  | PyUnicode utf8 signed_length => Some (utf8, to_size_t signed_length)
  | PyBytes buffer signed_length => Some (buffer, to_size_t signed_length)
  | PyStr str => Some (Str.start str, Str.length str)
  | PyFile file => Some (MemoryMappedFile.start file, MemoryMappedFile.length file)
  | _ => None
  end.

(** ** The search and hash kernels of [stringzilla.h] *)

Record strzl_haystack_t : Type := { haystack_ptr : Z; haystack_len : Z }.

Record strzl_needle_t : Type := {
  needle_ptr : Z;
  needle_len : Z;
  anomaly_offset : Z
}.

(** The header is not part of the binding; a kernel is any function of this
    shape.  The binding is embedded over an arbitrary one. *)
Definition find_kernel : Type := memory -> strzl_haystack_t -> strzl_needle_t -> Z.

Definition hash_kernel : Type := memory -> Z -> Z -> Z.

(** Modelled from the spec: [substring_find], absent from the sources, returns
    an index in [[0, haystack.length]] and [haystack.length] is the
    "not found" sentinel. *)
Definition find_kernel_contract (find_substr : find_kernel) : Prop :=
  forall mem haystack needle,
    0 <= haystack_len haystack ->
    0 <= find_substr mem haystack needle <= haystack_len haystack.

(** Modelled from the spec: [content_hash], absent from the sources, is a
    deterministic, pure function of the bytes of the range. *)
Definition hash_kernel_contract (content_hash : hash_kernel) : Prop :=
  forall mem1 p1 mem2 p2 len,
    load mem1 p1 len = load mem2 p2 len ->
    content_hash mem1 p1 len = content_hash mem2 p2 len.

(** Does [needle] occur at the head of [haystack]? *)
Fixpoint starts_with (haystack needle : list byte) : bool :=
  match needle, haystack with
  | [], _ => true
  | _ :: _, [] => false
  | n :: needle', x :: haystack' =>
      if Byte.eqb n x then starts_with haystack' needle' else false
  end.

(** Position of the first occurrence of [needle] in [haystack], counted from
    [pos]; the position one past the end when there is none. *)
Fixpoint first_occurrence (haystack needle : list byte) (pos : Z) : Z :=
  if starts_with haystack needle then pos
  else match haystack with
       | [] => pos
       | _ :: haystack' => first_occurrence haystack' needle (pos + 1)
       end.

(** Modelled from the spec: [substring_find] as the first match position in
    the haystack range, or the haystack length when the needle does not
    occur; an empty needle is found at position 0. *)
Definition naive_find_substr : find_kernel :=
  fun mem haystack needle =>
    first_occurrence
      (load mem (haystack_ptr haystack) (haystack_len haystack))
      (load mem (needle_ptr needle) (needle_len needle)) 0.

(** Modelled from the spec: a [content_hash] for running the binding on
    concrete inputs, a 32-bit multiplicative fold of the bytes. *)
Definition fold_hash : hash_kernel :=
  fun mem p len =>
    fold_left (fun acc b => (acc * 31 + Z.of_N (Byte.to_N b)) mod 2 ^ 32)
              (load mem p len) 0.

(** ** Global functions *)

Section GlobalFunctions.

Variable strzl_neon_find_substr : find_kernel.

(** [str_find_vectorcall]: [args] are the positional arguments. *)
Definition str_find_vectorcall (mem : memory) (args : list PyBody) : PyResult :=
  (* Check the number of arguments and types *)
  let nargs := Z.of_nat (List.length args) in
  if (nargs <? 2) || (nargs >? 4) then Raise PyExc_TypeError "Invalid arguments"
  else
    (* Parse the haystack. *)
    match export_string_like (nth 0 args PyOther) with
    | None => Raise PyExc_TypeError "First argument (haystack) must be string-like"
    | Some (haystack_ptr0, haystack_len0) =>
        (* Parse the needle. *)
        match export_string_like (nth 1 args PyOther) with
        | None => Raise PyExc_TypeError "Second argument (needle) must be string-like"
        | Some (needle_ptr0, needle_len0) =>
            let needle := {| needle_ptr := needle_ptr0; needle_len := needle_len0;
                             anomaly_offset := 0 |} in
            (* Limit the haystack range. *)
            let start := if nargs >? 2 then PyLong_AsSsize_t (nth 2 args PyOther) else 0 in
            let end_ := if nargs >? 3 then PyLong_AsSsize_t (nth 3 args PyOther)
                        else PY_SSIZE_T_MAX in
            let '(normalized_offset, normalized_length) :=
              slice haystack_len0 start end_ in
            let haystack := {| haystack_ptr := haystack_ptr0 + normalized_offset;
                               haystack_len := normalized_length |} in
            let position := strzl_neon_find_substr mem haystack needle in
            PyLong_FromSize_t position
        end
    end.

End GlobalFunctions.

(** ** MemoryMappingFile, POSIX build *)

(** The operating system as the binding sees it: the table of open
    descriptors, the live mappings [(address, length)], and the log of
    the calls made so far (latest last). *)
Inductive syscall : Type :=
| call_open (path : string) (ret : Z)
| call_fstat (fd : Z) (ok : bool)
| call_mmap (len fd : Z) (ret : Z)
| call_munmap (addr len : Z)
| call_close (fd : Z).

Record os_state : Type := {
  open_fds : list Z;
  mappings : list (Z * Z);
  calls : list syscall
}.

(** What the system answers during one attempt to map a file: the
    descriptor [open] hands out ([-1] on failure), the size [fstat] reports
    ([None] when it fails) and the address [mmap] picks ([None] for
    [MAP_FAILED]). *)
Record os_outcome : Type := {
  open_result : Z;
  fstat_result : option Z;
  mmap_result : option Z
}.

Definition MAP_FAILED : Z := -1.

Definition is_open (os : os_state) (fd : Z) : bool :=
  existsb (Z.eqb fd) (open_fds os).

Definition sys_open (env : os_outcome) (os : os_state) (path : string) : os_state * Z :=
  let fd := if open_result env <? 0 then -1 else open_result env in
  ({| open_fds := if fd <? 0 then open_fds os else fd :: open_fds os;
      mappings := mappings os;
      calls := calls os ++ [call_open path fd] |}, fd).

(** [fstat] fails with [EBADF] on a descriptor that is not open. *)
Definition sys_fstat (env : os_outcome) (os : os_state) (fd : Z) : os_state * option Z :=
  let st := if is_open os fd then fstat_result env else None in
  ({| open_fds := open_fds os; mappings := mappings os;
      calls := calls os ++ [call_fstat fd (bool_decide (st <> None))] |}, st).

Definition sys_mmap (env : os_outcome) (os : os_state) (len fd : Z) : os_state * Z :=
  let map := if is_open os fd
             then match mmap_result env with Some a => a | None => MAP_FAILED end
             else MAP_FAILED in
  ({| open_fds := open_fds os;
      mappings := if map =? MAP_FAILED then mappings os else (map, len) :: mappings os;
      calls := calls os ++ [call_mmap len fd map] |}, map).

Definition sys_munmap (os : os_state) (addr len : Z) : os_state :=
  {| open_fds := open_fds os;
     mappings := List.remove (fun x y : Z * Z => decide (x = y)) (addr, len) (mappings os);
     calls := calls os ++ [call_munmap addr len] |}.

(** [close] on a descriptor that is not open changes nothing ([EBADF]). *)
Definition sys_close (os : os_state) (fd : Z) : os_state :=
  {| open_fds := List.remove Z.eq_dec fd (open_fds os);
     mappings := mappings os;
     calls := calls os ++ [call_close fd] |}.

(** [MemoryMappedFile_dealloc]: the system calls it makes and the fields it
    leaves behind; handing the object's own storage back to the interpreter
    ([tp_free]) is not a system call and is not recorded. *)
Definition MemoryMappedFile_dealloc (os : os_state) (self : MemoryMappedFile.t)
  : os_state * MemoryMappedFile.t :=
  let '(os, self) :=
    if negb (MemoryMappedFile.start self =? NULL) then
      (sys_munmap os (MemoryMappedFile.start self) (MemoryMappedFile.length self),
       {| MemoryMappedFile.file_descriptor := MemoryMappedFile.file_descriptor self;
          MemoryMappedFile.start := NULL;
          MemoryMappedFile.length := 0 |})
    else (os, self) in
  if negb (MemoryMappedFile.file_descriptor self =? 0) then
    (sys_close os (MemoryMappedFile.file_descriptor self),
     {| MemoryMappedFile.file_descriptor := 0;
        MemoryMappedFile.start := MemoryMappedFile.start self;
        MemoryMappedFile.length := MemoryMappedFile.length self |})
  else (os, self).

(** The fields [MemoryMappedFile_new] stores. *)
Definition MemoryMappedFile_new : MemoryMappedFile.t :=
  {| MemoryMappedFile.file_descriptor := 0;
     MemoryMappedFile.start := NULL;
     MemoryMappedFile.length := 0 |}.

(** [MemoryMappedFile_init]: [positional_args] is the path parsed by
    [PyArg_ParseTuple], [None] when parsing fails. *)
Definition MemoryMappedFile_init (env : os_outcome) (os : os_state)
    (self : MemoryMappedFile.t) (positional_args : option string)
  : os_state * MemoryMappedFile.t * IntResult :=
  match positional_args with
  | None => (os, self, IntPropagated)
  | Some path =>
      let '(os, fd) := sys_open env os path in
      let self := {| MemoryMappedFile.file_descriptor := fd;
                     MemoryMappedFile.start := MemoryMappedFile.start self;
                     MemoryMappedFile.length := MemoryMappedFile.length self |} in
      let '(os, sb) := sys_fstat env os (MemoryMappedFile.file_descriptor self) in
      match sb with
      | None =>
          (sys_close os (MemoryMappedFile.file_descriptor self),
           {| MemoryMappedFile.file_descriptor := 0;
              MemoryMappedFile.start := MemoryMappedFile.start self;
              MemoryMappedFile.length := MemoryMappedFile.length self |},
           IntRaise PyExc_RuntimeError "Can't retrieve file size!")
      | Some st_size =>
          let file_size := to_size_t st_size in
          let '(os, map) :=
            sys_mmap env os st_size (MemoryMappedFile.file_descriptor self) in
          if map =? MAP_FAILED then
            (sys_close os (MemoryMappedFile.file_descriptor self),
             {| MemoryMappedFile.file_descriptor := 0;
                MemoryMappedFile.start := MemoryMappedFile.start self;
                MemoryMappedFile.length := MemoryMappedFile.length self |},
             IntRaise PyExc_RuntimeError "Couldn't map the file!")
          else
            (os,
             {| MemoryMappedFile.file_descriptor := MemoryMappedFile.file_descriptor self;
                MemoryMappedFile.start := map;
                MemoryMappedFile.length := file_size |},
             IntReturn 0)
      end
  end.

(** ** MemoryMappingFile, Windows build *)

Module Win32.

Module MemoryMappedFile.
Record t : Type := Build {
  file_handle : Z;
  mapping_handle : Z;
  start : Z;
  length : Z
}.
End MemoryMappedFile.

Inductive syscall : Type :=
| call_CreateFile (path : string) (ret : Z)
| call_CreateFileMapping (file : Z) (ret : Z)
| call_MapViewOfFile (mapping : Z) (ret : Z)
| call_GetFileSize (file : Z)
| call_UnmapViewOfFile (addr : Z)
| call_CloseHandle (handle : Z).

(** Open kernel handles (files and mapping objects), mapped views, and the
    log of calls. *)
Record os_state : Type := {
  handles : list Z;
  views : list Z;
  calls : list syscall
}.

(** Answers of the system during one attempt: the handle or
    [INVALID_HANDLE_VALUE] from [CreateFile], the handle or [0] from
    [CreateFileMapping], the address or [0] from [MapViewOfFile], and the
    size from [GetFileSize]. *)
Record os_outcome : Type := {
  CreateFile_result : Z;
  CreateFileMapping_result : Z;
  MapViewOfFile_result : Z;
  GetFileSize_result : Z
}.

Definition INVALID_HANDLE_VALUE : Z := -1.

Definition is_open (os : os_state) (handle : Z) : bool :=
  existsb (Z.eqb handle) (handles os).

Definition CreateFile (env : os_outcome) (os : os_state) (path : string) : os_state * Z :=
  let ret := CreateFile_result env in
  ({| handles := if ret =? INVALID_HANDLE_VALUE then handles os else ret :: handles os;
      views := views os;
      calls := calls os ++ [call_CreateFile path ret] |}, ret).

Definition CreateFileMapping (env : os_outcome) (os : os_state) (file : Z) : os_state * Z :=
  let ret := if is_open os file then CreateFileMapping_result env else 0 in
  ({| handles := if ret =? 0 then handles os else ret :: handles os;
      views := views os;
      calls := calls os ++ [call_CreateFileMapping file ret] |}, ret).

Definition MapViewOfFile (env : os_outcome) (os : os_state) (mapping : Z) : os_state * Z :=
  let ret := if is_open os mapping then MapViewOfFile_result env else 0 in
  ({| handles := handles os;
      views := if ret =? 0 then views os else ret :: views os;
      calls := calls os ++ [call_MapViewOfFile mapping ret] |}, ret).

Definition GetFileSize (env : os_outcome) (os : os_state) (file : Z) : os_state * Z :=
  ({| handles := handles os; views := views os;
      calls := calls os ++ [call_GetFileSize file] |}, GetFileSize_result env).

Definition UnmapViewOfFile (os : os_state) (addr : Z) : os_state :=
  {| handles := handles os;
     views := List.remove Z.eq_dec addr (views os);
     calls := calls os ++ [call_UnmapViewOfFile addr] |}.

Definition CloseHandle (os : os_state) (handle : Z) : os_state :=
  {| handles := List.remove Z.eq_dec handle (handles os);
     views := views os;
     calls := calls os ++ [call_CloseHandle handle] |}.

Definition MemoryMappedFile_dealloc (os : os_state) (self : MemoryMappedFile.t)
  : os_state * MemoryMappedFile.t :=
  let '(os, self) :=
    if negb (MemoryMappedFile.start self =? NULL) then
      (UnmapViewOfFile os (MemoryMappedFile.start self),
       {| MemoryMappedFile.file_handle := MemoryMappedFile.file_handle self;
          MemoryMappedFile.mapping_handle := MemoryMappedFile.mapping_handle self;
          MemoryMappedFile.start := NULL;
          MemoryMappedFile.length := MemoryMappedFile.length self |})
    else (os, self) in
  let '(os, self) :=
    if negb (MemoryMappedFile.mapping_handle self =? NULL) then
      (CloseHandle os (MemoryMappedFile.mapping_handle self),
       {| MemoryMappedFile.file_handle := MemoryMappedFile.file_handle self;
          MemoryMappedFile.mapping_handle := NULL;
          MemoryMappedFile.start := MemoryMappedFile.start self;
          MemoryMappedFile.length := MemoryMappedFile.length self |})
    else (os, self) in
  if negb (MemoryMappedFile.file_handle self =? NULL) then
    (CloseHandle os (MemoryMappedFile.file_handle self),
     {| MemoryMappedFile.file_handle := NULL;
        MemoryMappedFile.mapping_handle := MemoryMappedFile.mapping_handle self;
        MemoryMappedFile.start := MemoryMappedFile.start self;
        MemoryMappedFile.length := MemoryMappedFile.length self |})
  else (os, self).

Definition MemoryMappedFile_init (env : os_outcome) (os : os_state)
    (self : MemoryMappedFile.t) (positional_args : option string)
  : os_state * MemoryMappedFile.t * IntResult :=
  match positional_args with
  | None => (os, self, IntPropagated)
  | Some path =>
      let '(os, file_handle) := CreateFile env os path in
      if file_handle =? INVALID_HANDLE_VALUE then
        (os,
         {| MemoryMappedFile.file_handle := file_handle;
            MemoryMappedFile.mapping_handle := MemoryMappedFile.mapping_handle self;
            MemoryMappedFile.start := MemoryMappedFile.start self;
            MemoryMappedFile.length := MemoryMappedFile.length self |},
         IntRaise PyExc_RuntimeError "Couldn't map the file!")
      else
        let '(os, mapping_handle) := CreateFileMapping env os file_handle in
        if mapping_handle =? 0 then
          (CloseHandle os file_handle,
           {| MemoryMappedFile.file_handle := NULL;
              MemoryMappedFile.mapping_handle := mapping_handle;
              MemoryMappedFile.start := MemoryMappedFile.start self;
              MemoryMappedFile.length := MemoryMappedFile.length self |},
           IntRaise PyExc_RuntimeError "Couldn't map the file!")
        else
          let '(os, file) := MapViewOfFile env os mapping_handle in
          if file =? 0 then
            (CloseHandle (CloseHandle os mapping_handle) file_handle,
             {| MemoryMappedFile.file_handle := NULL;
                MemoryMappedFile.mapping_handle := NULL;
                MemoryMappedFile.start := MemoryMappedFile.start self;
                MemoryMappedFile.length := MemoryMappedFile.length self |},
             IntRaise PyExc_RuntimeError "Couldn't map the file!")
          else
            let '(os, size) := GetFileSize env os file_handle in
            (os,
             {| MemoryMappedFile.file_handle := file_handle;
                MemoryMappedFile.mapping_handle := mapping_handle;
                MemoryMappedFile.start := file;
                MemoryMappedFile.length := to_size_t size |},
             IntReturn 0)
  end.

End Win32.

(** ** Str *)

(** The struct behind a [Str *]; a reference to anything else reads as the
    zeroed struct (no C caller passes one). *)
Definition Str_at (h : heap) (r : objref) : Str.t :=
  match h !! r with
  | Some {| ob_body := PyStr s |} => s
  | _ => {| Str.parent := None; Str.start := NULL; Str.length := 0 |}
  end.

(** Format unit [n] of [PyArg_ParseTuple]: an [int] that fits [Py_ssize_t]. *)
Definition parse_n (h : heap) (r : objref) : option Z :=
  match h !! r with
  | Some {| ob_body := PyLong v |} =>
      if (SSIZE_MIN <=? v) && (v <=? SSIZE_MAX) then Some v else None
  | _ => None
  end.

(** [PyArg_ParseTuple (positional_args, "|Onn", &parent, &from, &to)] over
    the defaults [NULL], [0], [PY_SSIZE_T_MAX]; [None] when parsing fails. *)
Definition PyArg_ParseTuple_Onn (h : heap) (positional_args : list objref)
  : option (option objref * Z * Z) :=
  match positional_args with
  | [] => Some (None, 0, PY_SSIZE_T_MAX)
  | [parent] => Some (Some parent, 0, PY_SSIZE_T_MAX)
  | [parent; from] =>
      match parse_n h from with
      | Some from => Some (Some parent, from, PY_SSIZE_T_MAX)
      | None => None
      end
  | [parent; from; to] =>
      match parse_n h from, parse_n h to with
      | Some from, Some to => Some (Some parent, from, to)
      | _, _ => None
      end
  | _ => None
  end.

(** [Str_init]: keyword arguments, when given, are parsed into the same
    three values, so [positional_args] stands for both forms of the call. *)
Definition Str_init (h : heap) (self : objref) (positional_args : list objref)
  : heap * IntResult :=
  match PyArg_ParseTuple_Onn h positional_args with
  | None => (h, IntPropagated)
  | Some (parent, from, to) =>
      let s := Str_at h self in
      let acquired : option (heap * Str.t) :=
        match parent with
        | None =>
            (* Handle empty string *)
            Some (h, {| Str.parent := Str.parent s; Str.start := NULL; Str.length := 0 |})
        | Some parent =>
            match export_string_like
                    (match h !! parent with Some o => ob_body o | None => PyOther end) with
            | Some (start, length) =>
                (* Increment the reference count of the parent *)
                Some (Py_INCREF h parent,
                      {| Str.parent := Some parent; Str.start := start; Str.length := length |})
            | None => None
            end
        end in
      match acquired with
      | None => (h, IntRaise PyExc_TypeError "Unsupported parent type")
      | Some (h, s) =>
          (* Apply slicing *)
          let '(normalized_offset, normalized_length) := slice (Str.length s) from to in
          (set_body h self
             (PyStr {| Str.parent := Str.parent s;
                       Str.start := Str.start s + normalized_offset;
                       Str.length := normalized_length |}),
           IntReturn 0)
      end
  end.

(** [StrType.tp_alloc]: a fresh, zero-filled [Str]. *)
Definition tp_alloc (h : heap) : heap * objref :=
  alloc h (PyStr {| Str.parent := None; Str.start := NULL; Str.length := 0 |}).

Definition Str_new (h : heap) : heap * objref :=
  let '(h, self) := tp_alloc h in
  (set_body h self (PyStr {| Str.parent := None; Str.start := NULL; Str.length := 0 |}),
   self).

Definition Str_len (self : Str.t) : Z := to_ssize_t (Str.length self).

Definition Str_getitem (mem : memory) (self : Str.t) (i : Z) : PyResult :=
  (* Negative indexing *)
  let i := if i <? 0 then to_ssize_t (i + Str.length self) else i in
  if (i <? 0) || (to_size_t i >=? Str.length self) then
    Raise PyExc_IndexError "Index out of range"
  else
    (* Assuming the underlying data is UTF-8 encoded *)
    PyUnicode_FromStringAndSize (load mem (Str.start self + i) 1).

Definition Str_subscript (mem : memory) (h : heap) (self : objref) (key : PyBody)
  : heap * PyResult :=
  let s := Str_at h self in
  match key with
  | PySlice kstart kstop kstep =>
      match PySlice_Unpack kstart kstop kstep with
      | None => (h, Propagated)
      | Some (start, stop, step) =>
          let '(start, stop, slicelength) :=
            PySlice_AdjustIndices (to_ssize_t (Str.length s)) start stop step in
          if slicelength <? 0 then (h, Propagated)
          else if negb (step =? 1) then
            (h, Raise PyExc_IndexError "Efficient step is not supported")
          else
            (* Create a new `Str` object *)
            let '(h, self_slice) := tp_alloc h in
            (* Set its properties based on the slice *)
            let h := set_body h self_slice
                       (PyStr {| Str.parent := Some self; (* Set parent to keep it alive *)
                                 Str.start := Str.start s + start;
                                 Str.length := to_size_t (stop - start) |}) in
            (* Increment the reference count of the parent *)
            (Py_INCREF h self, Return self_slice)
      end
  | PyLong _ => (h, Str_getitem mem s (PyLong_AsSsize_t key))
  | _ => (h, Raise PyExc_TypeError "Str indices must be integers or slices")
  end.

Section StrKernels.

Variable strzl_neon_find_substr : find_kernel.
Variable strzl_hash_crc32_native : hash_kernel.

(** Will be called by the [PySequence_Contains]. *)
Definition Str_contains (mem : memory) (self : Str.t) (arg : PyBody) : IntResult :=
  match export_string_like arg with
  | None => IntRaise PyExc_TypeError "Unsupported argument type"
  | Some (ptr, len) =>
      let needle_struct := {| needle_ptr := ptr; needle_len := len; anomaly_offset := 0 |} in
      let haystack := {| haystack_ptr := Str.start self; haystack_len := Str.length self |} in
      let position := strzl_neon_find_substr mem haystack needle_struct in
      IntReturn (if position =? haystack_len haystack then 0 else 1)
  end.

Definition Str_hash (mem : memory) (self : Str.t) : Z :=
  to_ssize_t (strzl_hash_crc32_native mem (Str.start self) (Str.length self)).

End StrKernels.

(** An optional integer argument of [Str_getslice]: absent or [None] keeps
    the default, an [int] goes through [PyLong_AsSsize_t], anything else is
    a type error. *)
Definition getslice_bound (obj : option PyBody) (default : Z) : option Z :=
  match obj with
  | None | Some PyNone => Some default
  | Some (PyLong v) => Some (PyLong_AsSsize_t (PyLong v))
  | Some _ => None
  end.

Definition Str_getslice (h : heap) (self : objref) (args : list PyBody)
  : heap * PyResult :=
  let s := Str_at h self in
  if (2 <? List.length args)%nat then (h, Propagated)
  else
    match getslice_bound (args !! 0%nat) 0 with
    | None => (h, Raise PyExc_TypeError "Start index must be an integer or None")
    | Some start =>
        match getslice_bound (args !! 1%nat) (to_ssize_t (Str.length s)) with
        | None => (h, Raise PyExc_TypeError "End index must be an integer or None")
        | Some end_ =>
            let '(normalized_offset, normalized_length) := slice (Str.length s) start end_ in
            if normalized_length =? 0 then (h, PyUnicode_FromString "")
            else
              (* Create a new Str object *)
              let '(h, new_str) := tp_alloc h in
              (* Set the parent to the original Str object and increment its reference count *)
              let h := Py_INCREF h self in
              (* Set the start and length to point to the slice *)
              (set_body h new_str
                 (PyStr {| Str.parent := Some self;
                           Str.start := Str.start s + normalized_offset;
                           Str.length := normalized_length |}),
               Return new_str)
        end
    end.

Definition Str_str (mem : memory) (self : Str.t) : PyResult :=
  PyUnicode_FromStringAndSize (load mem (Str.start self) (Str.length self)).

(** [memcmp] over [n] bytes, compared as [unsigned char]; only the sign of
    the C result is defined, it is given here as [-1], [0] or [1]. *)
Fixpoint memcmp (mem : memory) (a b : Z) (n : nat) : Z :=
  match n with
  | O => 0
  | S n' =>
      let x := Byte.to_N (mem a) in
      let y := Byte.to_N (mem b) in
      if (x <? y)%N then -1
      else if (y <? x)%N then 1
      else memcmp mem (a + 1) (b + 1) n'
  end.

Definition Py_LT : Z := 0.
Definition Py_LE : Z := 1.
Definition Py_EQ : Z := 2.
Definition Py_NE : Z := 3.
Definition Py_GT : Z := 4.
Definition Py_GE : Z := 5.

(** The three-way result [Str_richcompare] computes before the [switch]. *)
Definition cmp_result (mem : memory) (a_start a_length b_start b_length : Z) : Z :=
  (* Perform byte-wise comparison up to the minimum length *)
  let min_length := if a_length <? b_length then a_length else b_length in
  let cmp_result := memcmp mem a_start b_start (Z.to_nat min_length) in
  (* If the strings are equal up to `min_length`, then the shorter string is smaller *)
  if cmp_result =? 0
  then (if a_length >? b_length then 1 else 0) - (if a_length <? b_length then 1 else 0)
  else cmp_result.

Definition Str_richcompare (mem : memory) (self other : PyBody) (op : Z) : PyResult :=
  match export_string_like self, export_string_like other with
  | Some (a_start, a_length), Some (b_start, b_length) =>
      let c := cmp_result mem a_start a_length b_start b_length in
      if op =? Py_LT then PyBool_FromLong (c <? 0)
      else if op =? Py_LE then PyBool_FromLong (c <=? 0)
      else if op =? Py_EQ then PyBool_FromLong (c =? 0)
      else if op =? Py_NE then PyBool_FromLong (negb (c =? 0))
      else if op =? Py_GT then PyBool_FromLong (c >? 0)
      else if op =? Py_GE then PyBool_FromLong (c >=? 0)
      else Py_NotImplemented
  | _, _ => Py_NotImplemented
  end.

(** ** Concrete inputs *)

(** A memory holding [bs] from address [base] on, and [rest] elsewhere. *)
Definition mem_with (base : Z) (bs : list byte) (rest : memory) : memory :=
  fun a =>
    if (base <=? a) && (a <? base + Z.of_nat (List.length bs))
    then nth (Z.to_nat (a - base)) bs x00
    else rest a.

Definition zero_memory : memory := fun _ => x00.

(** ["abracadabra"] at 1000, ["cad"] at 2000, ["0123456789"] at 3000 and
    ["abracadabra"] once more at 4000. *)
Definition demo_memory : memory :=
  mem_with 1000 (list_byte_of_string "abracadabra")
    (mem_with 2000 (list_byte_of_string "cad")
       (mem_with 3000 (list_byte_of_string "0123456789")
          (mem_with 4000 (list_byte_of_string "abracadabra") zero_memory))).

(** A heap with the native text ["0123456789"] at reference 0 and a [Str]
    over the whole of it at reference 1. *)
Definition demo_heap : heap :=
  [ {| ob_refcnt := 2; ob_body := PyUnicode 3000 10 |};
    {| ob_refcnt := 1;
       ob_body := PyStr {| Str.parent := Some 0%nat; Str.start := 3000; Str.length := 10 |} |} ].

(** ** Vocabulary of the statements *)


(** The system never has [-1] in its descriptor table and [open] hands out
    a descriptor that is not open yet. *)
Definition fresh_descriptor (env : os_outcome) (os : os_state) : Prop :=
  is_open os (-1) = false
  /\ (0 <= open_result env -> is_open os (open_result env) = false).

(** Likewise for handles: a successful [CreateFile] or [CreateFileMapping]
    returns a handle that is not open yet, and two different ones. *)
Definition fresh_handles (env : Win32.os_outcome) (os : Win32.os_state) : Prop :=
  Win32.is_open os (Win32.CreateFile_result env) = false
  /\ Win32.is_open os (Win32.CreateFileMapping_result env) = false
  /\ Win32.CreateFile_result env <> Win32.CreateFileMapping_result env.

(** A process with the three standard descriptors open. *)
Definition boot_os : os_state :=
  {| open_fds := [0; 1; 2]; mappings := []; calls := [] |}.



(** The path opens and has 11 bytes, but cannot be mapped. *)
Definition map_refused : os_outcome :=
  {| open_result := 3; fstat_result := Some 11; mmap_result := None |}.

(** Everything succeeds: 11 bytes mapped at address 4096. *)
Definition map_granted : os_outcome :=
  {| open_result := 3; fstat_result := Some 11; mmap_result := Some 4096 |}.

Definition boot_win32 : Win32.os_state :=
  {| Win32.handles := [4; 8]; Win32.views := []; Win32.calls := [] |}.


Definition win32_new : Win32.MemoryMappedFile.t :=
  {| Win32.MemoryMappedFile.file_handle := NULL;
     Win32.MemoryMappedFile.mapping_handle := NULL;
     Win32.MemoryMappedFile.start := NULL;
     Win32.MemoryMappedFile.length := 0 |}.



(** The calls [Win32.MemoryMappedFile_dealloc] makes, as a function of the
    fields it finds. *)
Definition win32_release_calls (self : Win32.MemoryMappedFile.t) : list Win32.syscall :=
  (if Win32.MemoryMappedFile.start self =? NULL then []
   else [Win32.call_UnmapViewOfFile (Win32.MemoryMappedFile.start self)])
  ++ (if Win32.MemoryMappedFile.mapping_handle self =? NULL then []
      else [Win32.call_CloseHandle (Win32.MemoryMappedFile.mapping_handle self)])
  ++ (if Win32.MemoryMappedFile.file_handle self =? NULL then []
      else [Win32.call_CloseHandle (Win32.MemoryMappedFile.file_handle self)]).

(** Byte-wise lexicographic order as the specification words it: bytes
    are compared as unsigned values, and when one operand is a prefix of the
    other the shorter one sorts first. *)
Fixpoint lex_compare (a b : list byte) : comparison :=
  match a, b with
  | [], [] => Eq
  | [], _ :: _ => Lt
  | _ :: _, [] => Gt
  | x :: a', y :: b' =>
      match (Byte.to_N x ?= Byte.to_N y)%N with
      | Eq => lex_compare a' b'
      | c => c
      end
  end.

Definition sign_of (c : comparison) : Z :=
  match c with Lt => -1 | Eq => 0 | Gt => 1 end.

(** The answer a rich comparison [op] gives for an ordering; [None] for an
    [op] outside the six comparison operators. *)
Definition ordering_test (op : Z) (c : comparison) : option bool :=
  if op =? Py_LT then Some (match c with Lt => true | _ => false end)
  else if op =? Py_LE then Some (match c with Gt => false | _ => true end)
  else if op =? Py_EQ then Some (match c with Eq => true | _ => false end)
  else if op =? Py_NE then Some (match c with Eq => false | _ => true end)
  else if op =? Py_GT then Some (match c with Gt => true | _ => false end)
  else if op =? Py_GE then Some (match c with Lt => false | _ => true end)
  else None.

(** [h'] is [h] with one more object, [new], a [Str] over the sub-range
    [(offset, len)] of the [Str] at [self] whose parent is [self]; [self] has
    gained one reference and nothing else has changed. *)
Definition derived_view (h h' : heap) (self new : objref) (offset len : Z) : Prop :=
  exists (n : Z) (s : Str.t),
    h !! self = Some {| ob_refcnt := n; ob_body := PyStr s |}
    /\ new = List.length h
    /\ h' !! new
       = Some {| ob_refcnt := 1;
                 ob_body := PyStr {| Str.parent := Some self;
                                     Str.start := Str.start s + offset;
                                     Str.length := len |} |}
    /\ h' !! self = Some {| ob_refcnt := n + 1; ob_body := PyStr s |}
    /\ (forall r : objref, r <> self -> r <> new -> h' !! r = h !! r).

(** The range [(start, length)] lies within the range [(outer_start,
    outer_length)]. *)
Definition within (start length outer_start outer_length : Z) : Prop :=
  outer_start <= start /\ 0 <= length /\ start + length <= outer_start + outer_length.

(** ** Releasing a view *)

(** [Py_XDECREF]: one reference less.  When the count reaches zero the
    interpreter runs the destructor of the object; the count itself is what
    is recorded here. *)
Definition Py_XDECREF (h : heap) (r : objref) : heap :=
  alter (fun o => {| ob_refcnt := ob_refcnt o - 1; ob_body := ob_body o |}) r h.

(** [Str_dealloc]: drops the reference on the parent, if there is one; the
    storage of the view itself goes back to the interpreter ([tp_free]). *)
Definition Str_dealloc (h : heap) (self : objref) : heap :=
  match Str.parent (Str_at h self) with
  | Some parent => Py_XDECREF h parent
  | None => h
  end.

(** A heap with the 10-byte view of [demo_heap] and the integers 2 and 7 as
    objects, for calls that take their bounds as objects. *)
Definition bounds_heap : heap :=
  demo_heap ++ [ {| ob_refcnt := 1; ob_body := PyLong 2 |};
                 {| ob_refcnt := 1; ob_body := PyLong 7 |};
                 {| ob_refcnt := 1;
                    ob_body := PyStr {| Str.parent := None; Str.start := NULL;
                                        Str.length := 0 |} |} ].

(** A process that has closed its standard input, so that descriptor 0 is
    free, and a mapping attempt in which [open] hands out that descriptor
    for an 11-byte file mapped at 4096. *)
Definition stdin_closed_os : os_state :=
  {| open_fds := [1; 2]; mappings := []; calls := [] |}.

Definition opens_as_descriptor_zero : os_outcome :=
  {| open_result := 0; fstat_result := Some 11; mmap_result := Some 4096 |}.

(** * Part II: properties *)

(** ** Machine integers *)

Lemma to_size_t_range z : is_size_t (to_size_t z).
Proof. unfold is_size_t, to_size_t, modulus. apply Z.mod_pos_bound. lia. Qed.

Lemma to_ssize_t_range z : is_ssize_t (to_ssize_t z).
Proof.
  unfold is_ssize_t, to_ssize_t, SSIZE_MIN, SSIZE_MAX, modulus.
  pose proof (Z.mod_pos_bound (z + 2 ^ 63) (2 ^ 64)). lia.
Qed.

Lemma to_size_t_small z : 0 <= z < 2 ^ 64 -> to_size_t z = z.
Proof. intros H. unfold to_size_t, modulus. now apply Z.mod_small. Qed.

Lemma to_ssize_t_small z : - 2 ^ 63 <= z <= 2 ^ 63 - 1 -> to_ssize_t z = z.
Proof.
  unfold to_ssize_t, modulus. intros H.
  rewrite Z.mod_small; lia.
Qed.

(** A value in the upper half of [size_t] reads as negative. *)
Lemma to_ssize_t_high z : 2 ^ 63 <= z < 2 ^ 64 -> to_ssize_t z = z - 2 ^ 64.
Proof.
  unfold to_ssize_t, modulus. intros H.
  replace (z + 2 ^ 63) with ((z - 2 ^ 63) + 1 * 2 ^ 64) by lia.
  rewrite Z.mod_add by lia. rewrite Z.mod_small; lia.
Qed.

(** A negative [ssize_t] converts to the upper half of [size_t]. *)
Lemma to_size_t_neg z : - 2 ^ 64 <= z < 0 -> to_size_t z = z + 2 ^ 64.
Proof.
  unfold to_size_t, modulus. intros H.
  replace z with ((z + 2 ^ 64) + (-1) * 2 ^ 64) at 1 by lia.
  rewrite Z.mod_add by lia. rewrite Z.mod_small; lia.
Qed.

(** ** The slice normalizer *)

Ltac case_ltb :=
  repeat match goal with
         | |- context [?a >? ?b] => rewrite (Z.gtb_ltb a b)
         | |- context [?a <? ?b] => destruct (Z.ltb_spec a b)
         | H : context [?a <? ?b] |- _ => destruct (Z.ltb_spec a b)
         end.

(** For a length a Python object can have, [slice] is the normalizer of the
    specification. *)
Lemma slice_small length start end_ :
  0 <= length <= SSIZE_MAX -> is_ssize_t start -> is_ssize_t end_ ->
  slice length start end_ = SliceSpec.normalize length start end_.
Proof.
  unfold SSIZE_MAX, is_ssize_t, SSIZE_MIN, SSIZE_MAX. intros Hl Hs He.
  unfold slice, SliceSpec.normalize, SliceSpec.clamp, SliceSpec.adjust.
  rewrite (to_ssize_t_small length) by lia.
  destruct (Z.ltb_spec start 0); destruct (Z.ltb_spec end_ 0);
    rewrite ?(to_ssize_t_small (start + length)) by lia;
    rewrite ?(to_ssize_t_small (end_ + length)) by lia;
    case_ltb;
    rewrite to_ssize_t_small by lia;
    rewrite !to_size_t_small by lia;
    f_equal; lia.
Qed.

(** Beyond [SSIZE_MAX] the cast [(ssize_t)length] is negative and both
    indices collapse onto it: the result is the empty range at the end. *)
Lemma slice_large length start end_ :
  SSIZE_MAX < length < 2 ^ 64 ->
  slice length start end_ = (length, 0).
Proof.
  unfold SSIZE_MAX. intros Hl.
  unfold slice.
  rewrite (to_ssize_t_high length) by lia.
  pose proof (to_ssize_t_range (start + length)) as Hs.
  pose proof (to_ssize_t_range (end_ + length)) as He.
  unfold is_ssize_t, SSIZE_MIN, SSIZE_MAX in Hs, He.
  case_ltb; try lia;
    rewrite Z.sub_diag; rewrite (to_ssize_t_small 0) by lia;
    rewrite (to_size_t_small 0) by lia;
    rewrite to_size_t_neg by lia; f_equal; lia.
Qed.

Lemma normalize_bounds length start end_ :
  0 <= length ->
  let '(offset, normalized_length) := SliceSpec.normalize length start end_ in
  0 <= offset /\ 0 <= normalized_length /\ offset + normalized_length <= length.
Proof.
  intros Hl. unfold SliceSpec.normalize, SliceSpec.clamp. cbv zeta.
  rewrite Z.gtb_ltb.
  destruct (Z.ltb_spec (Z.max 0 (Z.min length (SliceSpec.adjust length end_)))
                       (Z.max 0 (Z.min length (SliceSpec.adjust length start)))); lia.
Qed.

(** The bounds of [slice], for every [size_t] length. *)
Lemma slice_bounds length start end_ offset len :
  is_size_t length -> is_ssize_t start -> is_ssize_t end_ ->
  slice length start end_ = (offset, len) ->
  0 <= offset /\ 0 <= len /\ offset + len <= length.
Proof.
  intros Hl Hs He Hslice. unfold is_size_t, modulus in Hl.
  destruct (Z_le_gt_dec length SSIZE_MAX) as [Hsmall | Hlarge].
  - rewrite slice_small in Hslice by (auto; lia).
    pose proof (normalize_bounds length start end_ (proj1 Hl)) as Hb.
    now rewrite Hslice in Hb.
  - rewrite slice_large in Hslice by lia. inversion Hslice; subst. lia.
Qed.

(** C1. For every [size_t] length and all [ssize_t] indices [start] and
    [end], [slice] returns an offset and a normalized length with
    [0 <= offset <= offset + normalized_length <= length].  For every length
    an object of the interpreter can have (at most [PY_SSIZE_T_MAX]) the pair
    is the one obtained by adding [length] to each negative index, clamping
    both to [[0, length]] and forcing [start = end] when [start > end]; so
    bounds that end up out of order give the empty range.  [slice] is a total
    function: there is no error outcome. *)
Theorem slice_within_length (length start end_ offset normalized_length : Z) :
  is_size_t length -> is_ssize_t start -> is_ssize_t end_ ->
  slice length start end_ = (offset, normalized_length) ->
  (0 <= offset /\ offset <= offset + normalized_length
   /\ offset + normalized_length <= length)
  /\ (length <= PY_SSIZE_T_MAX ->
      (offset, normalized_length) = SliceSpec.normalize length start end_
      /\ (SliceSpec.clamp length (SliceSpec.adjust length end_)
          <= SliceSpec.clamp length (SliceSpec.adjust length start) ->
          normalized_length = 0)).
Proof.
  intros Hl Hs He Hslice. unfold is_size_t, modulus in Hl.
  destruct (Z_le_gt_dec length SSIZE_MAX) as [Hsmall | Hlarge].
  - rewrite slice_small in Hslice by (auto; lia).
    pose proof (normalize_bounds length start end_ (proj1 Hl)) as Hb.
    rewrite Hslice in Hb. split; [lia |].
    intros _. split; [congruence |].
    intros Horder. unfold SliceSpec.normalize in Hslice. cbv zeta in Hslice.
    rewrite Z.gtb_ltb in Hslice.
    destruct (Z.ltb_spec (SliceSpec.clamp length (SliceSpec.adjust length end_))
                         (SliceSpec.clamp length (SliceSpec.adjust length start)));
      inversion Hslice; lia.
  - rewrite slice_large in Hslice by lia. inversion Hslice; subst.
    split; [lia |]. unfold PY_SSIZE_T_MAX. lia.
Qed.

Lemma slice_within_length_witness :
  (0 <= 2 /\ 2 <= 2 + 0 /\ 2 + 0 <= 10)
  /\ (10 <= PY_SSIZE_T_MAX ->
      (2, 0) = SliceSpec.normalize 10 5 2
      /\ (SliceSpec.clamp 10 (SliceSpec.adjust 10 2)
          <= SliceSpec.clamp 10 (SliceSpec.adjust 10 5) -> 0 = 0)).
Proof.
  apply (slice_within_length 10 5 2 2 0).
  - unfold is_size_t, modulus. lia.
  - unfold is_ssize_t, SSIZE_MIN, SSIZE_MAX. lia.
  - unfold is_ssize_t, SSIZE_MIN, SSIZE_MAX. lia.
  - vm_compute. reflexivity.
Defined.

(** ** Mapping a file *)

Lemma remove_not_open (fd : Z) (fds : list Z) :
  existsb (Z.eqb fd) fds = false -> List.remove Z.eq_dec fd fds = fds.
Proof.
  intros H. apply notin_remove. intros Hin.
  assert (existsb (Z.eqb fd) fds = true) as Ht.
  { apply existsb_exists. exists fd. split; [assumption | apply Z.eqb_refl]. }
  congruence.
Qed.

Lemma remove_head (fd : Z) (fds : list Z) :
  List.remove Z.eq_dec fd (fd :: fds) = List.remove Z.eq_dec fd fds.
Proof. simpl. destruct (Z.eq_dec fd fd); congruence. Qed.

Lemma remove_other (fd x : Z) (fds : list Z) :
  fd <> x ->
  List.remove Z.eq_dec fd (x :: fds) = x :: List.remove Z.eq_dec fd fds.
Proof. intros H. simpl. destruct (Z.eq_dec fd x); congruence. Qed.

Lemma existsb_head (fd : Z) (fds : list Z) :
  existsb (Z.eqb fd) (fd :: fds) = true.
Proof. simpl. now rewrite Z.eqb_refl. Qed.






(** ** Releasing a mapped file *)

Lemma posix_dealloc_cleared os self :
  MemoryMappedFile.start self = NULL ->
  MemoryMappedFile.file_descriptor self = 0 ->
  MemoryMappedFile_dealloc os self = (os, self).
Proof.
  intros Hstart Hfd. unfold MemoryMappedFile_dealloc.
  rewrite Hstart. cbn. rewrite Hfd. reflexivity.
Qed.

Lemma win32_dealloc_calls os self :
  Win32.calls (fst (Win32.MemoryMappedFile_dealloc os self))
  = Win32.calls os ++ win32_release_calls self.
Proof.
  unfold Win32.MemoryMappedFile_dealloc, win32_release_calls,
    Win32.UnmapViewOfFile, Win32.CloseHandle.
  destruct self as [fh mh start length]. cbn [Win32.MemoryMappedFile.start
    Win32.MemoryMappedFile.length Win32.MemoryMappedFile.file_handle
    Win32.MemoryMappedFile.mapping_handle].
  destruct (start =? NULL); cbn; destruct (mh =? NULL); cbn;
    destruct (fh =? NULL); cbn;
    rewrite <- ?app_assoc, ?app_nil_r; reflexivity.
Qed.

(** C9, at the failing input.  In a process whose descriptor 0 is free,
    [open] hands out descriptor 0 and [MemoryMappedFile_init] succeeds: the
    store owns descriptor 0 and a mapping.  [MemoryMappedFile_dealloc] then
    unmaps the mapping and makes no other call: its guard takes a descriptor
    of 0 for "no descriptor", so the descriptor the store owns is never
    closed and is still open after the teardown. *)
Theorem MemoryMappedFile_dealloc_skips_descriptor_zero :
  let run := MemoryMappedFile_init opens_as_descriptor_zero stdin_closed_os
               MemoryMappedFile_new (Some "hello.txt"%string) in
  let released := MemoryMappedFile_dealloc (fst (fst run)) (snd (fst run)) in
  snd run = IntReturn 0
  /\ snd (fst run) = {| MemoryMappedFile.file_descriptor := 0;
                        MemoryMappedFile.start := 4096;
                        MemoryMappedFile.length := 11 |}
  /\ open_fds (fst (fst run)) = [0; 1; 2]
  /\ calls (fst (fst run))
     = [call_open "hello.txt" 0; call_fstat 0 true; call_mmap 11 0 4096]
  /\ calls (fst released) = calls (fst (fst run)) ++ [call_munmap 4096 11]
  /\ mappings (fst released) = []
  /\ open_fds (fst released) = [0; 1; 2]
  /\ is_open (fst released) 0 = true.
Proof. vm_compute. repeat split; reflexivity. Qed.

(** ** Reading memory *)

Lemma load_length mem p len : List.length (load mem p len) = Z.to_nat len.
Proof. unfold load. now rewrite length_map, length_seq. Qed.

Lemma load_one mem p : load mem p 1 = [mem p].
Proof.
  unfold load. change (Z.to_nat 1) with 1%nat. cbn [seq map].
  change (Z.of_nat 0) with 0. now rewrite Z.add_0_r.
Qed.

Lemma load_step mem p (n : nat) :
  load mem p (Z.of_nat (S n)) = mem p :: load mem (p + 1) (Z.of_nat n).
Proof.
  unfold load. rewrite !Nat2Z.id. cbn [seq map].
  change (Z.of_nat 0) with 0. rewrite Z.add_0_r. f_equal.
  rewrite <- seq_shift, map_map. apply map_ext. intros i. f_equal. lia.
Qed.

(** ** Single-byte access *)

(** C6. For a view whose length an object of the interpreter can have and a
    [Py_ssize_t] index [i], [Str_getitem] adds the length to a negative [i],
    raises [IndexError] exactly when the adjusted index is outside
    [[0, length)], and otherwise hands the byte at the adjusted index to the
    interpreter; hence for [0 <= i < length] the indices [i] and
    [i - length] give the same result. *)
Theorem Str_getitem_negative_index (mem : memory) (self : Str.t) (i : Z) :
  0 <= Str.length self <= PY_SSIZE_T_MAX -> is_ssize_t i ->
  let adjusted := SliceSpec.adjust (Str.length self) i in
  (Str_getitem mem self i = Raise PyExc_IndexError "Index out of range"
   <-> ~ (0 <= adjusted < Str.length self))
  /\ (0 <= adjusted < Str.length self ->
      Str_getitem mem self i
      = PyUnicode_FromStringAndSize [mem (Str.start self + adjusted)])
  /\ (0 <= i < Str.length self ->
      Str_getitem mem self i = Str_getitem mem self (i - Str.length self)).
Proof.
  unfold PY_SSIZE_T_MAX, SSIZE_MAX, is_ssize_t, SSIZE_MIN, SSIZE_MAX.
  intros Hlen Hi. cbv zeta.
  assert (forall j, - 2 ^ 63 <= j <= 2 ^ 63 - 1 ->
            Str_getitem mem self j
            = if (0 <=? SliceSpec.adjust (Str.length self) j)
                 && (SliceSpec.adjust (Str.length self) j <? Str.length self)
              then PyUnicode_FromStringAndSize
                     [mem (Str.start self + SliceSpec.adjust (Str.length self) j)]
              else Raise PyExc_IndexError "Index out of range") as Hget.
  { intros j Hj. unfold Str_getitem, SliceSpec.adjust.
    destruct (Z.ltb_spec j 0) as [Hneg | Hpos].
    - rewrite (to_ssize_t_small (j + Str.length self)) by lia.
      destruct (Z.ltb_spec (j + Str.length self) 0) as [Hout | Hin].
      + cbn [orb]. destruct (Z.leb_spec 0 (j + Str.length self)); [lia | reflexivity].
      + rewrite to_size_t_small by lia. cbn [orb].
        rewrite Z.geb_leb.
        destruct (Z.leb_spec 0 (j + Str.length self)); [| lia].
        destruct (Z.leb_spec (Str.length self) (j + Str.length self));
          destruct (Z.ltb_spec (j + Str.length self) (Str.length self));
          try lia; cbn [andb]; rewrite ?load_one; reflexivity.
    - destruct (Z.ltb_spec j 0) as [? | _]; [lia |].
      rewrite to_size_t_small by lia. cbn [orb]. rewrite Z.geb_leb.
      destruct (Z.leb_spec 0 j); [| lia].
      destruct (Z.leb_spec (Str.length self) j);
        destruct (Z.ltb_spec j (Str.length self));
        try lia; cbn [andb]; rewrite ?load_one; reflexivity. }
  split; [| split].
  - rewrite (Hget i Hi).
    destruct (Z.leb_spec 0 (SliceSpec.adjust (Str.length self) i));
      destruct (Z.ltb_spec (SliceSpec.adjust (Str.length self) i) (Str.length self));
      cbn [andb]; split; intros Hyp; try reflexivity; try lia; discriminate.
  - intros Hin. rewrite (Hget i Hi).
    destruct (Z.leb_spec 0 (SliceSpec.adjust (Str.length self) i)); [| lia].
    destruct (Z.ltb_spec (SliceSpec.adjust (Str.length self) i) (Str.length self));
      [reflexivity | lia].
  - intros Hin. rewrite (Hget i Hi), (Hget (i - Str.length self)) by lia.
    unfold SliceSpec.adjust.
    destruct (Z.ltb_spec i 0); [lia |].
    destruct (Z.ltb_spec (i - Str.length self) 0); [| lia].
    now replace (i - Str.length self + Str.length self) with i by lia.
Qed.

Lemma Str_getitem_negative_index_witness :
  let self := {| Str.parent := None; Str.start := 1000; Str.length := 11 |} in
  let adjusted := SliceSpec.adjust (Str.length self) 3 in
  (Str_getitem demo_memory self 3 = Raise PyExc_IndexError "Index out of range"
   <-> ~ (0 <= adjusted < Str.length self))
  /\ (0 <= adjusted < Str.length self ->
      Str_getitem demo_memory self 3
      = PyUnicode_FromStringAndSize [demo_memory (Str.start self + adjusted)])
  /\ (0 <= 3 < Str.length self ->
      Str_getitem demo_memory self 3
      = Str_getitem demo_memory self (3 - Str.length self)).
Proof.
  apply (Str_getitem_negative_index demo_memory
           {| Str.parent := None; Str.start := 1000; Str.length := 11 |} 3).
  - cbn. unfold PY_SSIZE_T_MAX, SSIZE_MAX. lia.
  - unfold is_ssize_t, SSIZE_MIN, SSIZE_MAX. lia.
Defined.

(** ** Comparison *)

Lemma to_N_injective (x y : byte) : Byte.to_N x = Byte.to_N y -> x = y.
Proof.
  intros H. pose proof (Byte.of_to_N x) as Hx. rewrite H, Byte.of_to_N in Hx.
  congruence.
Qed.

Lemma lex_compare_eq (a b : list byte) : lex_compare a b = Eq <-> a = b.
Proof.
  revert b. induction a as [| x a IH]; intros [| y b]; cbn; try (split; congruence).
  destruct (N.compare_spec (Byte.to_N x) (Byte.to_N y)) as [Heq | Hlt | Hgt].
  - apply to_N_injective in Heq. subst y. rewrite IH. split; congruence.
  - split; [discriminate |]. intros [= -> _]. lia.
  - split; [discriminate |]. intros [= -> _]. lia.
Qed.

(** [memcmp] over the common prefix followed by the length tie-break is the
    lexicographic order of the two byte sequences. *)
Lemma cmp_result_nat mem (na nb : nat) : forall a b,
  (let c := memcmp mem a b (Nat.min na nb) in
   if c =? 0
   then (if (nb <? na)%nat then 1 else 0) - (if (na <? nb)%nat then 1 else 0)
   else c)
  = sign_of (lex_compare (load mem a (Z.of_nat na)) (load mem b (Z.of_nat nb))).
Proof.
  revert nb. induction na as [| na IH]; intros [| nb] a b.
  - reflexivity.
  - rewrite load_step. reflexivity.
  - rewrite load_step. reflexivity.
  - rewrite !load_step. cbn [Nat.min memcmp lex_compare]. cbv zeta.
    destruct (N.compare_spec (Byte.to_N (mem a)) (Byte.to_N (mem b)))
      as [Heq | Hlt | Hgt].
    + rewrite Heq, N.ltb_irrefl.
      specialize (IH nb (a + 1) (b + 1)). cbv zeta in IH. rewrite <- IH.
      replace (S nb <? S na)%nat with (nb <? na)%nat
        by (destruct (Nat.ltb_spec nb na), (Nat.ltb_spec (S nb) (S na)); lia).
      replace (S na <? S nb)%nat with (na <? nb)%nat
        by (destruct (Nat.ltb_spec na nb), (Nat.ltb_spec (S na) (S nb)); lia).
      reflexivity.
    + destruct (N.ltb_spec (Byte.to_N (mem a)) (Byte.to_N (mem b))); [| lia].
      reflexivity.
    + destruct (N.ltb_spec (Byte.to_N (mem a)) (Byte.to_N (mem b))); [lia |].
      destruct (N.ltb_spec (Byte.to_N (mem b)) (Byte.to_N (mem a))); [| lia].
      reflexivity.
Qed.

Lemma cmp_result_lex mem a_start a_length b_start b_length :
  0 <= a_length -> 0 <= b_length ->
  cmp_result mem a_start a_length b_start b_length
  = sign_of (lex_compare (load mem a_start a_length) (load mem b_start b_length)).
Proof.
  intros Ha Hb. unfold cmp_result.
  pose proof (cmp_result_nat mem (Z.to_nat a_length) (Z.to_nat b_length)
                a_start b_start) as Hnat.
  rewrite !Z2Nat.id in Hnat by assumption. rewrite <- Hnat. cbv zeta.
  replace (Z.to_nat (if a_length <? b_length then a_length else b_length))
    with (Nat.min (Z.to_nat a_length) (Z.to_nat b_length))
    by (destruct (Z.ltb_spec a_length b_length); lia).
  rewrite Z.gtb_ltb.
  replace (Z.to_nat b_length <? Z.to_nat a_length)%nat with (b_length <? a_length)
    by (destruct (Z.ltb_spec b_length a_length),
                 (Nat.ltb_spec (Z.to_nat b_length) (Z.to_nat a_length)); lia).
  replace (Z.to_nat a_length <? Z.to_nat b_length)%nat with (a_length <? b_length)
    by (destruct (Z.ltb_spec a_length b_length),
                 (Nat.ltb_spec (Z.to_nat a_length) (Z.to_nat b_length)); lia).
  reflexivity.
Qed.

(** When the common prefix is equal, the lexicographic order is the order
    of the lengths. *)
Lemma lex_compare_prefix (a b : list byte) :
  take (Nat.min (List.length a) (List.length b)) a
  = take (Nat.min (List.length a) (List.length b)) b ->
  lex_compare a b = Nat.compare (List.length a) (List.length b).
Proof.
  revert b. induction a as [| x a IH]; intros [| y b]; cbn; try reflexivity.
  intros [= -> Hrest]. rewrite N.compare_refl. now apply IH.
Qed.

Lemma Str_richcompare_test mem self other op a_start a_length b_start b_length :
  export_string_like self = Some (a_start, a_length) ->
  export_string_like other = Some (b_start, b_length) ->
  0 <= a_length -> 0 <= b_length ->
  Str_richcompare mem self other op
  = match ordering_test op (lex_compare (load mem a_start a_length)
                                        (load mem b_start b_length)) with
    | Some answer => PyBool_FromLong answer
    | None => Py_NotImplemented
    end.
Proof.
  intros Hself Hother Ha Hb. unfold Str_richcompare, ordering_test.
  rewrite Hself, Hother, cmp_result_lex by assumption.
  destruct (lex_compare _ _); cbn [sign_of];
    repeat (destruct (op =? _); [reflexivity |]); reflexivity.
Qed.

(** C4. For two byte-range-like operands [Str_richcompare] orders by the
    byte-wise lexicographic order of their contents: the three-way result is
    the sign of that order, which is the order of the lengths whenever the
    first [min (len_a, len_b)] bytes agree; each of the six operators answers
    accordingly, and [==] answers true exactly when the two byte sequences
    (content and length) are equal, whatever objects they are exported from.
    Against an operand that is not byte-range-like the answer is
    [NotImplemented], not an exception. *)
Theorem Str_richcompare_lexicographic
    (mem : memory) (self other stranger : PyBody) (op : Z)
    (a_start a_length b_start b_length : Z) :
  export_string_like self = Some (a_start, a_length) ->
  export_string_like other = Some (b_start, b_length) ->
  0 <= a_length -> 0 <= b_length ->
  export_string_like stranger = None ->
  let a := load mem a_start a_length in
  let b := load mem b_start b_length in
  cmp_result mem a_start a_length b_start b_length = sign_of (lex_compare a b)
  /\ (take (Nat.min (List.length a) (List.length b)) a
      = take (Nat.min (List.length a) (List.length b)) b ->
      lex_compare a b = Nat.compare (List.length a) (List.length b))
  /\ Str_richcompare mem self other op
     = match ordering_test op (lex_compare a b) with
       | Some answer => PyBool_FromLong answer
       | None => Py_NotImplemented
       end
  /\ (Str_richcompare mem self other Py_EQ = PyBool_FromLong true <-> a = b)
  /\ Str_richcompare mem self stranger op = Py_NotImplemented.
Proof.
  intros Hself Hother Ha Hb Hstranger a b.
  split; [now apply cmp_result_lex |].
  split; [apply lex_compare_prefix |].
  split; [now apply (Str_richcompare_test mem self other op) |].
  split.
  - rewrite (Str_richcompare_test mem self other Py_EQ _ _ _ _ Hself Hother Ha Hb).
    fold a b. rewrite <- lex_compare_eq.
    destruct (lex_compare a b); cbn; split; congruence.
  - unfold Str_richcompare. rewrite Hself, Hstranger. reflexivity.
Qed.

Lemma Str_richcompare_lexicographic_witness :
  let a := load demo_memory 1000 11 in
  let b := load demo_memory 4000 11 in
  cmp_result demo_memory 1000 11 4000 11 = sign_of (lex_compare a b)
  /\ (take (Nat.min (List.length a) (List.length b)) a
      = take (Nat.min (List.length a) (List.length b)) b ->
      lex_compare a b = Nat.compare (List.length a) (List.length b))
  /\ Str_richcompare demo_memory
       (PyStr {| Str.parent := Some 0%nat; Str.start := 1000; Str.length := 11 |})
       (PyUnicode 4000 11) Py_EQ
     = match ordering_test Py_EQ (lex_compare a b) with
       | Some answer => PyBool_FromLong answer
       | None => Py_NotImplemented
       end
  /\ (Str_richcompare demo_memory
        (PyStr {| Str.parent := Some 0%nat; Str.start := 1000; Str.length := 11 |})
        (PyUnicode 4000 11) Py_EQ = PyBool_FromLong true <-> a = b)
  /\ Str_richcompare demo_memory
       (PyStr {| Str.parent := Some 0%nat; Str.start := 1000; Str.length := 11 |})
       (PyLong 5) Py_EQ = Py_NotImplemented.
Proof.
  apply (Str_richcompare_lexicographic demo_memory
           (PyStr {| Str.parent := Some 0%nat; Str.start := 1000; Str.length := 11 |})
           (PyUnicode 4000 11) (PyLong 5) Py_EQ 1000 11 4000 11).
  - reflexivity.
  - vm_compute. reflexivity.
  - lia.
  - lia.
  - reflexivity.
Defined.

(** ** Substring search *)

Lemma first_occurrence_bounds (needle : list byte) : forall haystack pos,
  pos <= first_occurrence haystack needle pos <= pos + Z.of_nat (List.length haystack).
Proof.
  induction haystack as [| x haystack IH]; intros pos; cbn [first_occurrence].
  - destruct (starts_with [] needle); cbn; lia.
  - destruct (starts_with (x :: haystack) needle); [cbn [List.length]; lia |].
    specialize (IH (pos + 1)). cbn [List.length]. lia.
Qed.

(** The reference search meets the contract of the kernel. *)
Lemma naive_find_substr_contract : find_kernel_contract naive_find_substr.
Proof.
  intros mem haystack needle Hlen. unfold naive_find_substr.
  pose proof (first_occurrence_bounds
                (load mem (needle_ptr needle) (needle_len needle))
                (load mem (haystack_ptr haystack) (haystack_len haystack)) 0) as H.
  rewrite load_length in H. lia.
Qed.

(** C5. With a search kernel that reports a position in
    [[0, haystack.length]], [Str_contains] on a byte-range-like needle
    returns [1] if and only if the position reported for (the view's range,
    the needle's range) is strictly below the view's length, and [0] if and
    only if it is the sentinel, the length itself. *)
Theorem Str_contains_position
    (strzl_neon_find_substr : find_kernel) (mem : memory)
    (self : Str.t) (arg : PyBody) (ptr len : Z) :
  find_kernel_contract strzl_neon_find_substr ->
  0 <= Str.length self ->
  export_string_like arg = Some (ptr, len) ->
  let position :=
    strzl_neon_find_substr mem
      {| haystack_ptr := Str.start self; haystack_len := Str.length self |}
      {| needle_ptr := ptr; needle_len := len; anomaly_offset := 0 |} in
  (Str_contains strzl_neon_find_substr mem self arg = IntReturn 1
   <-> position < Str.length self)
  /\ (Str_contains strzl_neon_find_substr mem self arg = IntReturn 0
      <-> position = Str.length self).
Proof.
  intros Hkernel Hlen Harg position.
  pose proof (Hkernel mem
                {| haystack_ptr := Str.start self; haystack_len := Str.length self |}
                {| needle_ptr := ptr; needle_len := len; anomaly_offset := 0 |} Hlen)
    as Hrange.
  fold position in Hrange. cbn [haystack_len] in Hrange.
  unfold Str_contains. rewrite Harg. cbn [haystack_len]. fold position.
  destruct (Z.eqb_spec position (Str.length self)) as [Heq | Hne].
  - split; split; intros H; try reflexivity; try assumption; try lia; discriminate.
  - split; split; intros H; try reflexivity; try lia; try discriminate.
Qed.

Lemma Str_contains_position_witness :
  let self := {| Str.parent := None; Str.start := 1000; Str.length := 11 |} in
  let position :=
    naive_find_substr demo_memory
      {| haystack_ptr := 1000; haystack_len := 11 |}
      {| needle_ptr := 2000; needle_len := 3; anomaly_offset := 0 |} in
  (Str_contains naive_find_substr demo_memory self (PyUnicode 2000 3) = IntReturn 1
   <-> position < 11)
  /\ (Str_contains naive_find_substr demo_memory self (PyUnicode 2000 3) = IntReturn 0
      <-> position = 11).
Proof.
  apply (Str_contains_position naive_find_substr demo_memory
           {| Str.parent := None; Str.start := 1000; Str.length := 11 |}
           (PyUnicode 2000 3) 2000 3).
  - exact naive_find_substr_contract.
  - cbn. lia.
  - reflexivity.
Defined.

(** The scenario of the specification: in ["abracadabra"] the needle
    ["cad"] is found at position 4, a needle that does not occur is
    reported at the length, and the empty needle is found at position 0. *)
Example contains_scenario :
  naive_find_substr demo_memory {| haystack_ptr := 1000; haystack_len := 11 |}
    {| needle_ptr := 2000; needle_len := 3; anomaly_offset := 0 |} = 4
  /\ naive_find_substr demo_memory {| haystack_ptr := 1000; haystack_len := 11 |}
       {| needle_ptr := 3000; needle_len := 3; anomaly_offset := 0 |} = 11
  /\ naive_find_substr demo_memory {| haystack_ptr := 1000; haystack_len := 11 |}
       {| needle_ptr := 2000; needle_len := 0; anomaly_offset := 0 |} = 0.
Proof. repeat split; vm_compute; reflexivity. Qed.

(** ** The module-level [find] *)

Lemma PyLong_AsSsize_t_range (o : PyBody) : is_ssize_t (PyLong_AsSsize_t o).
Proof.
  unfold PyLong_AsSsize_t, is_ssize_t.
  destruct o; try (unfold SSIZE_MIN, SSIZE_MAX; lia).
  destruct (Z.leb_spec SSIZE_MIN v); destruct (Z.leb_spec v SSIZE_MAX); cbn [andb];
    unfold SSIZE_MIN, SSIZE_MAX in *; lia.
Qed.

Lemma load_seq mem p (n : nat) : forall k : nat,
  map (fun i : nat => mem (p + Z.of_nat i)) (seq k n)
  = load mem (p + Z.of_nat k) (Z.of_nat n).
Proof.
  induction n as [| n IH]; intros k.
  - reflexivity.
  - rewrite load_step. cbn [seq map]. f_equal.
    rewrite IH. f_equal. lia.
Qed.

(** The bytes of a sub-range are the corresponding bytes of the range. *)
Lemma load_sub_range mem p length offset len :
  0 <= offset -> 0 <= len -> offset + len <= length ->
  load mem (p + offset) len
  = take (Z.to_nat len) (drop (Z.to_nat offset) (load mem p length)).
Proof.
  intros Hoff Hlen Hfit. unfold load at 2.
  rewrite skipn_map, firstn_map, skipn_seq, take_seq.
  replace (Nat.min (Z.to_nat len) (Z.to_nat length - Z.to_nat offset))
    with (Z.to_nat len) by lia.
  rewrite load_seq. f_equal; lia.
Qed.

Lemma starts_with_take (needle : list byte) : forall (haystack : list byte) (m : nat),
  starts_with (take m haystack) needle = true -> starts_with haystack needle = true.
Proof.
  induction needle as [| x needle IH]; intros haystack m.
  - destruct haystack; reflexivity.
  - destruct haystack as [| y haystack]; destruct m as [| m]; cbn; try discriminate.
    destruct (Byte.eqb x y); [apply IH | discriminate].
Qed.

(** A position below the end of the haystack is a genuine occurrence. *)
Lemma first_occurrence_found (needle : list byte) : forall haystack pos,
  first_occurrence haystack needle pos < pos + Z.of_nat (List.length haystack) ->
  starts_with (drop (Z.to_nat (first_occurrence haystack needle pos - pos)) haystack)
              needle = true.
Proof.
  induction haystack as [| x haystack IH]; intros pos; cbn [first_occurrence].
  - destruct (starts_with [] needle); cbn; lia.
  - destruct (starts_with (x :: haystack) needle) eqn:Hhead.
    + intros _. rewrite Z.sub_diag. exact Hhead.
    + intros Hfound. cbn [List.length] in Hfound.
      pose proof (first_occurrence_bounds needle haystack (pos + 1)) as Hb.
      replace (Z.to_nat (first_occurrence haystack needle (pos + 1) - pos))
        with (S (Z.to_nat (first_occurrence haystack needle (pos + 1) - (pos + 1))))
        by lia.
      cbn [drop]. apply IH. lia.
Qed.

(** With the reference search, a position reported below the length of the
    clamped sub-range is that of an occurrence of the needle [offset] bytes
    further into the full haystack. *)
Lemma relative_match_in_haystack mem ptr length offset len needle :
  0 <= offset -> 0 <= len -> offset + len <= length ->
  let position :=
    naive_find_substr mem {| haystack_ptr := ptr + offset; haystack_len := len |}
                      needle in
  position < len ->
  starts_with (drop (Z.to_nat (offset + position)) (load mem ptr length))
              (load mem (needle_ptr needle) (needle_len needle)) = true.
Proof.
  intros Hoff Hlen Hfit position Hfound. subst position.
  unfold naive_find_substr in *. cbn [haystack_ptr haystack_len] in *.
  set (n := load mem (needle_ptr needle) (needle_len needle)) in *.
  pose proof (first_occurrence_bounds n (load mem (ptr + offset) len) 0) as Hb.
  pose proof (first_occurrence_found n (load mem (ptr + offset) len) 0) as Hocc.
  rewrite load_length in Hb, Hocc. rewrite Z.sub_0_r in Hocc.
  remember (first_occurrence (load mem (ptr + offset) len) n 0) as r eqn:Hr.
  specialize (Hocc ltac:(lia)).
  rewrite (load_sub_range mem ptr length offset len) in Hocc by assumption.
  rewrite skipn_firstn_comm in Hocc. apply starts_with_take in Hocc.
  rewrite drop_drop in Hocc.
  replace (Z.to_nat (offset + r)) with (Z.to_nat offset + Z.to_nat r)%nat by lia.
  exact Hocc.
Qed.

(** C10. [str_find_vectorcall] returns the position the kernel reports for
    the clamped sub-range [(ptr + offset, normalized_length)] as it is: the
    offset is not added to it.  With the reference search, a reported
    position [p] below [normalized_length] is a match that sits at index
    [offset + p] of the full haystack; so calling it on ["abracadabra"] and
    ["cad"] with [start = 2] returns 2, while the match sits at index 4 of
    the full haystack (where the call without bounds finds it) and not at
    index 2. *)
Theorem str_find_vectorcall_relative_position
    (strzl_neon_find_substr : find_kernel) (mem : memory) (args : list PyBody)
    (haystack_ptr0 haystack_len0 needle_ptr0 needle_len0 : Z)
    (normalized_offset normalized_length : Z) :
  (2 <= List.length args <= 4)%nat ->
  export_string_like (nth 0 args PyOther) = Some (haystack_ptr0, haystack_len0) ->
  is_size_t haystack_len0 ->
  export_string_like (nth 1 args PyOther) = Some (needle_ptr0, needle_len0) ->
  slice haystack_len0
    (if Z.of_nat (List.length args) >? 2 then PyLong_AsSsize_t (nth 2 args PyOther) else 0)
    (if Z.of_nat (List.length args) >? 3 then PyLong_AsSsize_t (nth 3 args PyOther)
     else PY_SSIZE_T_MAX)
  = (normalized_offset, normalized_length) ->
  str_find_vectorcall strzl_neon_find_substr mem args
  = PyLong_FromSize_t
      (strzl_neon_find_substr mem
         {| haystack_ptr := haystack_ptr0 + normalized_offset;
            haystack_len := normalized_length |}
         {| needle_ptr := needle_ptr0; needle_len := needle_len0;
            anomaly_offset := 0 |})
  /\ (forall p : Z,
        str_find_vectorcall naive_find_substr mem args = PyLong_FromSize_t p ->
        p < normalized_length ->
        starts_with (drop (Z.to_nat (normalized_offset + p))
                          (load mem haystack_ptr0 haystack_len0))
                    (load mem needle_ptr0 needle_len0) = true)
  /\ (str_find_vectorcall naive_find_substr demo_memory
        [PyUnicode 1000 11; PyUnicode 2000 3; PyLong 2] = PyLong_FromSize_t 2
      /\ str_find_vectorcall naive_find_substr demo_memory
           [PyUnicode 1000 11; PyUnicode 2000 3] = PyLong_FromSize_t 4
      /\ starts_with (drop 4 (load demo_memory 1000 11)) (load demo_memory 2000 3) = true
      /\ starts_with (drop 2 (load demo_memory 1000 11)) (load demo_memory 2000 3) = false).
Proof.
  intros Hnargs Hhaystack Hsize Hneedle Hslice.
  assert (forall kernel : find_kernel,
            str_find_vectorcall kernel mem args
            = PyLong_FromSize_t
                (kernel mem
                   {| haystack_ptr := haystack_ptr0 + normalized_offset;
                      haystack_len := normalized_length |}
                   {| needle_ptr := needle_ptr0; needle_len := needle_len0;
                      anomaly_offset := 0 |})) as Hrun.
  { intros kernel. unfold str_find_vectorcall.
    destruct (Z.ltb_spec (Z.of_nat (List.length args)) 2); [lia |].
    rewrite Z.gtb_ltb.
    destruct (Z.ltb_spec 4 (Z.of_nat (List.length args))); [lia |].
    cbn [orb]. rewrite Hhaystack, Hneedle, Hslice. reflexivity. }
  split; [apply Hrun |]. split.
  - intros p Hp Hfound. rewrite Hrun in Hp. injection Hp as <-.
    assert (0 <= normalized_offset /\ 0 <= normalized_length
            /\ normalized_offset + normalized_length <= haystack_len0)
      as (Hoff & Hlen & Hfit).
    { apply (slice_bounds _ _ _ _ _ Hsize) in Hslice; [assumption | |].
      - destruct (_ >? 2); [apply PyLong_AsSsize_t_range |].
        unfold is_ssize_t, SSIZE_MIN, SSIZE_MAX. lia.
      - destruct (_ >? 3); [apply PyLong_AsSsize_t_range |].
        unfold is_ssize_t, PY_SSIZE_T_MAX, SSIZE_MIN, SSIZE_MAX. lia. }
    apply (relative_match_in_haystack mem haystack_ptr0 haystack_len0
             normalized_offset normalized_length
             {| needle_ptr := needle_ptr0; needle_len := needle_len0;
                anomaly_offset := 0 |}); assumption.
  - repeat split; vm_compute; reflexivity.
Qed.

Lemma str_find_vectorcall_relative_position_witness :
  str_find_vectorcall naive_find_substr demo_memory
    [PyUnicode 1000 11; PyUnicode 2000 3; PyLong 2]
  = PyLong_FromSize_t
      (naive_find_substr demo_memory
         {| haystack_ptr := 1000 + 2; haystack_len := 9 |}
         {| needle_ptr := 2000; needle_len := 3; anomaly_offset := 0 |})
  /\ (forall p : Z,
        str_find_vectorcall naive_find_substr demo_memory
          [PyUnicode 1000 11; PyUnicode 2000 3; PyLong 2] = PyLong_FromSize_t p ->
        p < 9 ->
        starts_with (drop (Z.to_nat (2 + p)) (load demo_memory 1000 11))
                    (load demo_memory 2000 3) = true)
  /\ (str_find_vectorcall naive_find_substr demo_memory
        [PyUnicode 1000 11; PyUnicode 2000 3; PyLong 2] = PyLong_FromSize_t 2
      /\ str_find_vectorcall naive_find_substr demo_memory
           [PyUnicode 1000 11; PyUnicode 2000 3] = PyLong_FromSize_t 4
      /\ starts_with (drop 4 (load demo_memory 1000 11)) (load demo_memory 2000 3) = true
      /\ starts_with (drop 2 (load demo_memory 1000 11)) (load demo_memory 2000 3) = false).
Proof.
  apply (str_find_vectorcall_relative_position naive_find_substr demo_memory
           [PyUnicode 1000 11; PyUnicode 2000 3; PyLong 2] 1000 11 2000 3 2 9).
  - cbn. lia.
  - reflexivity.
  - unfold is_size_t, modulus. lia.
  - reflexivity.
  - vm_compute. reflexivity.
Defined.

(** ** The object heap *)

Lemma lookup_alloc_new (h : heap) (o : PyObject) :
  (h ++ [o]) !! List.length h = Some o.
Proof. now apply list_lookup_middle. Qed.

Lemma lookup_alloc_old (h : heap) (o : PyObject) (r : objref) :
  (r < List.length h)%nat -> (h ++ [o]) !! r = h !! r.
Proof. intros H. now apply lookup_app_l. Qed.

Lemma lookup_alloc_other (h : heap) (o : PyObject) (r : objref) :
  r <> List.length h -> (h ++ [o]) !! r = h !! r.
Proof.
  intros H. destruct (Nat.lt_ge_cases r (List.length h)) as [Hlt | Hge].
  - now apply lookup_app_l.
  - rewrite lookup_ge_None_2 by (rewrite length_app; cbn; lia).
    symmetry. apply lookup_ge_None_2. lia.
Qed.

Lemma lookup_in_heap (h : heap) (r : objref) (o : PyObject) :
  h !! r = Some o -> (r < List.length h)%nat.
Proof. apply lookup_lt_Some. Qed.

(** Allocating, storing the fields of the new view and taking a reference
    on the parent, in either order, yields a derived view. *)
Lemma derived_view_incref_first h self n s offset len b0 :
  h !! self = Some {| ob_refcnt := n; ob_body := PyStr s |} ->
  derived_view h
    (set_body (Py_INCREF (h ++ [ {| ob_refcnt := 1; ob_body := b0 |} ]) self)
       (List.length h)
       (PyStr {| Str.parent := Some self; Str.start := Str.start s + offset;
                 Str.length := len |}))
    self (List.length h) offset len.
Proof.
  intros Hself. pose proof (lookup_in_heap _ _ _ Hself) as Hlt.
  exists n, s. unfold set_body, Py_INCREF.
  split; [assumption |]. split; [reflexivity |]. split; [| split].
  - rewrite list_lookup_alter_eq, list_lookup_alter_ne by lia.
    now rewrite lookup_alloc_new.
  - rewrite list_lookup_alter_ne by lia.
    rewrite list_lookup_alter_eq, lookup_alloc_old, Hself by assumption.
    reflexivity.
  - intros r Hr Hnew.
    rewrite !list_lookup_alter_ne by congruence.
    now apply lookup_alloc_other.
Qed.

Lemma derived_view_incref_last h self n s offset len b0 :
  h !! self = Some {| ob_refcnt := n; ob_body := PyStr s |} ->
  derived_view h
    (Py_INCREF
       (set_body (h ++ [ {| ob_refcnt := 1; ob_body := b0 |} ]) (List.length h)
          (PyStr {| Str.parent := Some self; Str.start := Str.start s + offset;
                    Str.length := len |}))
       self)
    self (List.length h) offset len.
Proof.
  intros Hself. pose proof (lookup_in_heap _ _ _ Hself) as Hlt.
  exists n, s. unfold set_body, Py_INCREF.
  split; [assumption |]. split; [reflexivity |]. split; [| split].
  - rewrite list_lookup_alter_ne by lia.
    rewrite list_lookup_alter_eq. now rewrite lookup_alloc_new.
  - rewrite list_lookup_alter_eq, list_lookup_alter_ne by lia.
    rewrite lookup_alloc_old, Hself by assumption. reflexivity.
  - intros r Hr Hnew.
    rewrite !list_lookup_alter_ne by congruence.
    now apply lookup_alloc_other.
Qed.

Lemma Str_at_lookup h r n s :
  h !! r = Some {| ob_refcnt := n; ob_body := PyStr s |} -> Str_at h r = s.
Proof. intros H. unfold Str_at. now rewrite H. Qed.

(** ** Slicing a view *)

Lemma getslice_bound_range obj default bound :
  is_ssize_t default -> getslice_bound obj default = Some bound -> is_ssize_t bound.
Proof.
  intros Hdefault. unfold getslice_bound, PyLong_AsSsize_t.
  destruct obj as [[] |]; try discriminate; intros [= <-]; try assumption.
  unfold is_ssize_t in *.
  destruct (Z.leb_spec SSIZE_MIN v); destruct (Z.leb_spec v SSIZE_MAX); cbn [andb];
    unfold SSIZE_MIN, SSIZE_MAX in *; lia.
Qed.

(** For a positive step of one, [PySlice_AdjustIndices] leaves both indices
    within [[0, length]]. *)
Lemma PySlice_AdjustIndices_bounds length start stop b e slicelength :
  0 <= length ->
  PySlice_AdjustIndices length start stop 1 = (b, e, slicelength) ->
  0 <= b <= length /\ 0 <= e <= length /\ 0 <= slicelength.
Proof.
  intros Hlen. unfold PySlice_AdjustIndices. cbv zeta.
  change (1 <? 0) with false. cbv iota. intros [= <- <- <-].
  rewrite !Z.geb_leb. rewrite Z.div_1_r.
  repeat match goal with
         | |- context [?x <? ?y] => destruct (Z.ltb_spec x y)
         | |- context [?x <=? ?y] => destruct (Z.leb_spec x y)
         end; lia.
Qed.

Lemma Str_getslice_run h self n s args start end_ offset len :
  h !! self = Some {| ob_refcnt := n; ob_body := PyStr s |} ->
  (List.length args <= 2)%nat ->
  getslice_bound (args !! 0%nat) 0 = Some start ->
  getslice_bound (args !! 1%nat) (to_ssize_t (Str.length s)) = Some end_ ->
  slice (Str.length s) start end_ = (offset, len) ->
  Str_getslice h self args
  = if len =? 0 then (h, PyUnicode_FromString "")
    else (set_body
            (Py_INCREF
               (h ++ [ {| ob_refcnt := 1;
                          ob_body := PyStr {| Str.parent := None; Str.start := NULL;
                                              Str.length := 0 |} |} ]) self)
            (List.length h)
            (PyStr {| Str.parent := Some self; Str.start := Str.start s + offset;
                      Str.length := len |}),
          Return (List.length h)).
Proof.
  intros Hself Hargs Hstart Hend Hslice. unfold Str_getslice.
  rewrite (Str_at_lookup _ _ _ _ Hself).
  destruct (Nat.ltb_spec 2 (List.length args)); [lia |].
  rewrite Hstart, Hend, Hslice. reflexivity.
Qed.

Lemma Str_subscript_run mem h self n s kstart kstop kstep start stop b e slicelength :
  h !! self = Some {| ob_refcnt := n; ob_body := PyStr s |} ->
  0 <= Str.length s <= PY_SSIZE_T_MAX ->
  PySlice_Unpack kstart kstop kstep = Some (start, stop, 1) ->
  PySlice_AdjustIndices (Str.length s) start stop 1 = (b, e, slicelength) ->
  Str_subscript mem h self (PySlice kstart kstop kstep)
  = (Py_INCREF
       (set_body
          (h ++ [ {| ob_refcnt := 1;
                     ob_body := PyStr {| Str.parent := None; Str.start := NULL;
                                         Str.length := 0 |} |} ]) (List.length h)
          (PyStr {| Str.parent := Some self; Str.start := Str.start s + b;
                    Str.length := to_size_t (e - b) |}))
       self,
     Return (List.length h)).
Proof.
  intros Hself Hlen Hunpack Hadjust. unfold Str_subscript.
  rewrite (Str_at_lookup _ _ _ _ Hself), Hunpack.
  rewrite to_ssize_t_small by (unfold PY_SSIZE_T_MAX, SSIZE_MAX in Hlen; lia).
  rewrite Hadjust.
  destruct (PySlice_AdjustIndices_bounds _ _ _ _ _ _ (proj1 Hlen) Hadjust)
    as (_ & _ & Hsl).
  destruct (Z.ltb_spec slicelength 0); [lia |]. reflexivity.
Qed.

(** C3 (as amended).  [Str_getslice] re-normalizes its bounds relative to
    the length of the view it is called on.  When the normalized length is
    not zero it returns a new view over that sub-range whose parent is the
    sliced view itself, on which it takes a reference; when the normalized
    length is zero, as for the bounds 5 and 2 on a 10-byte view, it returns
    the empty native text and no view, and raises nothing.  Subscripting by a
    slice of step one whose adjusted bounds are in order likewise returns a
    new view over [start, stop) whose parent is the sliced view. *)
Theorem Str_slice_derived_view
    (mem : memory) (h : heap) (self : objref) (n : Z) (s : Str.t)
    (args : list PyBody) (start end_ offset len : Z)
    (kstart kstop kstep : option Z) (kb ke b e slicelength : Z) :
  h !! self = Some {| ob_refcnt := n; ob_body := PyStr s |} ->
  0 <= Str.length s <= PY_SSIZE_T_MAX ->
  (List.length args <= 2)%nat ->
  getslice_bound (args !! 0%nat) 0 = Some start ->
  getslice_bound (args !! 1%nat) (to_ssize_t (Str.length s)) = Some end_ ->
  slice (Str.length s) start end_ = (offset, len) ->
  PySlice_Unpack kstart kstop kstep = Some (kb, ke, 1) ->
  PySlice_AdjustIndices (Str.length s) kb ke 1 = (b, e, slicelength) ->
  (offset, len) = SliceSpec.normalize (Str.length s) start end_
  /\ (len = 0 -> Str_getslice h self args = (h, PyUnicode_FromString ""))
  /\ (len <> 0 ->
      exists h', Str_getslice h self args = (h', Return (List.length h))
                 /\ derived_view h h' self (List.length h) offset len
                 /\ within (Str.start s + offset) len (Str.start s) (Str.length s))
  /\ (b <= e ->
      exists h', Str_subscript mem h self (PySlice kstart kstop kstep)
                 = (h', Return (List.length h))
                 /\ derived_view h h' self (List.length h) b (e - b)
                 /\ within (Str.start s + b) (e - b) (Str.start s) (Str.length s)).
Proof.
  intros Hself Hlen Hargs Hstart Hend Hslice Hunpack Hadjust.
  assert (is_ssize_t start) as Hs.
  { apply (getslice_bound_range (args !! 0%nat) 0); [| assumption].
    unfold is_ssize_t, SSIZE_MIN, SSIZE_MAX. lia. }
  assert (is_ssize_t end_) as He.
  { apply (getslice_bound_range (args !! 1%nat) (to_ssize_t (Str.length s)));
      [apply to_ssize_t_range | assumption]. }
  assert ((offset, len) = SliceSpec.normalize (Str.length s) start end_) as Hnorm.
  { rewrite <- Hslice. now apply slice_small. }
  pose proof (normalize_bounds (Str.length s) start end_ (proj1 Hlen)) as Hb.
  rewrite <- Hnorm in Hb.
  pose proof (Str_getslice_run h self n s args start end_ offset len
                Hself Hargs Hstart Hend Hslice) as Hrun.
  split; [exact Hnorm |]. split; [| split].
  - intros ->. exact Hrun.
  - intros Hne. destruct (Z.eqb_spec len 0) as [? | _]; [contradiction |].
    eexists. split; [exact Hrun |]. split.
    + now apply (derived_view_incref_first h self n s).
    + unfold within. lia.
  - intros Horder.
    destruct (PySlice_AdjustIndices_bounds _ _ _ _ _ _ (proj1 Hlen) Hadjust)
      as (Hbb & Heb & _).
    eexists. split.
    + rewrite (Str_subscript_run mem h self n s kstart kstop kstep kb ke b e slicelength)
        by assumption.
      rewrite to_size_t_small
        by (unfold PY_SSIZE_T_MAX, SSIZE_MAX in Hlen; lia).
      reflexivity.
    + split; [now apply (derived_view_incref_last h self n s) |].
      unfold within. lia.
Qed.

Lemma Str_slice_derived_view_witness :
  (2, 0) = SliceSpec.normalize 10 5 2
  /\ (0 = 0 -> Str_getslice demo_heap 1 [PyLong 5; PyLong 2]
               = (demo_heap, PyUnicode_FromString ""))
  /\ (0 <> 0 ->
      exists h', Str_getslice demo_heap 1 [PyLong 5; PyLong 2]
                 = (h', Return (List.length demo_heap))
                 /\ derived_view demo_heap h' 1 (List.length demo_heap) 2 0
                 /\ within (3000 + 2) 0 3000 10)
  /\ (2 <= 7 ->
      exists h', Str_subscript demo_memory demo_heap 1 (PySlice (Some 2) (Some 7) None)
                 = (h', Return (List.length demo_heap))
                 /\ derived_view demo_heap h' 1 (List.length demo_heap) 2 (7 - 2)
                 /\ within (3000 + 2) (7 - 2) 3000 10).
Proof.
  apply (Str_slice_derived_view demo_memory demo_heap 1 1
           {| Str.parent := Some 0%nat; Str.start := 3000; Str.length := 10 |}
           [PyLong 5; PyLong 2] 5 2 2 0 (Some 2) (Some 7) None 2 7 2 7 5).
  - reflexivity.
  - cbn. unfold PY_SSIZE_T_MAX, SSIZE_MAX. lia.
  - cbn. lia.
  - reflexivity.
  - reflexivity.
  - vm_compute. reflexivity.
  - vm_compute. reflexivity.
  - vm_compute. reflexivity.
Defined.

(** C3, counterexample.  On the 10-byte view of the demonstration heap,
    [Str_getslice] with the bounds 5 and 2 returns the empty native text, so
    no view whose parent is the sliced view; and the subscript [5:2] returns
    a view whose length is [2^64 - 3], not zero. *)
Lemma slice_5_2_is_no_empty_view :
  Str_getslice demo_heap 1 [PyLong 5; PyLong 2] = (demo_heap, PyUnicode_FromString "")
  /\ ~ (exists h' r, Str_getslice demo_heap 1 [PyLong 5; PyLong 2] = (h', Return r))
  /\ (exists h', Str_subscript demo_memory demo_heap 1 (PySlice (Some 5) (Some 2) None)
                 = (h', Return 2%nat)
                 /\ Str.length (Str_at h' 2) = 2 ^ 64 - 3
                 /\ Str.length (Str_at h' 2) <> 0).
Proof.
  assert (Str_getslice demo_heap 1 [PyLong 5; PyLong 2]
          = (demo_heap, PyUnicode_FromString "")) as Hrun by (vm_compute; reflexivity).
  split; [exact Hrun |]. split.
  - intros (h' & r & Hview). rewrite Hrun in Hview. discriminate.
  - eexists. split; [vm_compute; reflexivity |].
    split; vm_compute; [reflexivity | discriminate].
Qed.

(** ** Containment of a view in what its owner exports *)

Lemma Str_at_set_body (h : heap) (r : objref) (v : Str.t) :
  (r < List.length h)%nat -> Str_at (set_body h r (PyStr v)) r = v.
Proof.
  intros Hlt. unfold Str_at, set_body. rewrite list_lookup_alter_eq.
  destruct (lookup_lt_is_Some_2 h r Hlt) as [o Ho]. rewrite Ho. reflexivity.
Qed.

(** Construction from an owner: the new range is the normalized sub-range of
    what the owner exports. *)
Lemma Str_init_within_parent h self self_obj parent parent_obj args from to pstart plen :
  h !! self = Some self_obj ->
  h !! parent = Some parent_obj ->
  PyArg_ParseTuple_Onn h args = Some (Some parent, from, to) ->
  is_ssize_t from -> is_ssize_t to ->
  export_string_like (ob_body parent_obj) = Some (pstart, plen) ->
  0 <= plen <= PY_SSIZE_T_MAX ->
  exists h' offset len,
    Str_init h self args = (h', IntReturn 0)
    /\ Str_at h' self = {| Str.parent := Some parent; Str.start := pstart + offset;
                           Str.length := len |}
    /\ (offset, len) = SliceSpec.normalize plen from to
    /\ within (pstart + offset) len pstart plen.
Proof.
  intros Hself Hparent Hparse Hfrom Hto Hexport Hlen.
  pose proof (normalize_bounds plen from to (proj1 Hlen)) as Hb.
  pose proof (slice_small plen from to Hlen Hfrom Hto) as Hslice.
  destruct (SliceSpec.normalize plen from to) as [offset len] eqn:Hnorm.
  exists (set_body (Py_INCREF h parent) self
            (PyStr {| Str.parent := Some parent; Str.start := pstart + offset;
                      Str.length := len |})), offset, len.
  split; [| split; [| split]].
  - unfold Str_init. rewrite Hparse, Hparent, Hexport.
    cbn [Str.length Str.start Str.parent]. rewrite Hslice. reflexivity.
  - apply Str_at_set_body. unfold Py_INCREF. rewrite length_alter.
    now apply (lookup_in_heap h self self_obj).
  - reflexivity.
  - unfold within. lia.
Qed.

(** C7, at the failing input.  Subscripting the 10-byte view at reference 1
    (bytes 3000 to 3009) by [5:2] stores a view that starts at 3005 and has
    length [2^64 - 3]: [PySlice_AdjustIndices] leaves the bounds at 5 and 2,
    and [stop - start] wraps around as [size_t].  That range is not within
    the range of the sliced view. *)
Theorem Str_subscript_out_of_order_escapes :
  exists h',
    Str_subscript demo_memory demo_heap 1 (PySlice (Some 5) (Some 2) None)
    = (h', Return 2%nat)
    /\ Str_at h' 2 = {| Str.parent := Some 1%nat; Str.start := 3005;
                        Str.length := 18446744073709551613 |}
    /\ ~ within (Str.start (Str_at h' 2)) (Str.length (Str_at h' 2))
                (Str.start (Str_at demo_heap 1)) (Str.length (Str_at demo_heap 1)).
Proof.
  eexists. split; [vm_compute; reflexivity |].
  split; [vm_compute; reflexivity |].
  unfold within. vm_compute. intros (_ & _ & Hend). apply Hend. reflexivity.
Qed.

(** ** Hashing *)

Lemma fold_hash_contract : hash_kernel_contract fold_hash.
Proof. intros mem1 p1 mem2 p2 len Hload. unfold fold_hash. now rewrite Hload. Qed.

(** C8. With a hash kernel that is a function of the bytes of the range,
    [Str_hash] depends on nothing but the viewed bytes: two views with the
    same bytes, whatever their parents and whatever memory they point into,
    have the same hash; and the view obtained by re-slicing a non-empty view
    over its whole range, through [Str_getslice] or through the subscript
    [:], hashes like the view itself. *)
Theorem Str_hash_of_content
    (strzl_hash_crc32_native : hash_kernel) (mem1 mem2 : memory) (v1 v2 : Str.t)
    (h : heap) (self : objref) (n : Z) :
  hash_kernel_contract strzl_hash_crc32_native ->
  0 <= Str.length v1 -> 0 <= Str.length v2 ->
  load mem1 (Str.start v1) (Str.length v1) = load mem2 (Str.start v2) (Str.length v2) ->
  h !! self = Some {| ob_refcnt := n; ob_body := PyStr v1 |} ->
  0 < Str.length v1 <= PY_SSIZE_T_MAX ->
  Str_hash strzl_hash_crc32_native mem1 v1 = Str_hash strzl_hash_crc32_native mem2 v2
  /\ (exists h', Str_getslice h self [] = (h', Return (List.length h))
                 /\ Str_hash strzl_hash_crc32_native mem1 (Str_at h' (List.length h))
                    = Str_hash strzl_hash_crc32_native mem1 v1)
  /\ (exists h', Str_subscript mem1 h self (PySlice None None None)
                 = (h', Return (List.length h))
                 /\ Str_hash strzl_hash_crc32_native mem1 (Str_at h' (List.length h))
                    = Str_hash strzl_hash_crc32_native mem1 v1).
Proof.
  intros Hkernel Hlen1 Hlen2 Hload Hself Hpos.
  assert (Str.length v1 = Str.length v2) as Hsame.
  { apply (f_equal (@List.length byte)) in Hload. rewrite !load_length in Hload. lia. }
  assert (0 <= Str.length v1 <= 2 ^ 63 - 1) as Hrange
    by (unfold PY_SSIZE_T_MAX, SSIZE_MAX in Hpos; lia).
  split; [| split].
  - unfold Str_hash. f_equal. rewrite <- Hsame in *. now apply Hkernel.
  - assert (slice (Str.length v1) 0 (to_ssize_t (Str.length v1)) = (0, Str.length v1))
      as Hslice.
    { rewrite slice_small.
      - rewrite to_ssize_t_small by lia.
        unfold SliceSpec.normalize, SliceSpec.clamp, SliceSpec.adjust. cbv zeta.
        rewrite Z.gtb_ltb.
        destruct (Z.ltb_spec (Str.length v1) 0); [lia |].
        change (0 <? 0) with false. cbv iota.
        destruct (Z.ltb_spec (Z.max 0 (Z.min (Str.length v1) (Str.length v1)))
                             (Z.max 0 (Z.min (Str.length v1) 0))); [lia |].
        f_equal; lia.
      - unfold SSIZE_MAX. lia.
      - unfold is_ssize_t, SSIZE_MIN, SSIZE_MAX. lia.
      - apply to_ssize_t_range. }
    eexists. split.
    + rewrite (Str_getslice_run h self n v1 [] 0 (to_ssize_t (Str.length v1))
                 0 (Str.length v1) Hself); try reflexivity; try assumption; [| cbn; lia].
      destruct (Z.eqb_spec (Str.length v1) 0); [lia | reflexivity].
    + destruct (derived_view_incref_first h self n v1 0 (Str.length v1)
                  (PyStr {| Str.parent := None; Str.start := NULL; Str.length := 0 |})
                  Hself) as (n' & s' & Hs' & _ & Hnew & _).
      rewrite Hself in Hs'. injection Hs' as <- <-.
      rewrite (Str_at_lookup _ _ _ _ Hnew). unfold Str_hash.
      cbn [Str.start Str.length]. now rewrite Z.add_0_r.
  - assert (PySlice_AdjustIndices (Str.length v1) 0 PY_SSIZE_T_MAX 1
            = (0, Str.length v1, Str.length v1)) as Hadjust.
    { unfold PySlice_AdjustIndices, PY_SSIZE_T_MAX, SSIZE_MAX. cbv zeta.
      change (1 <? 0) with false. change (0 <? 0) with false. cbv iota.
      rewrite !Z.geb_leb, Z.div_1_r.
      destruct (Z.leb_spec (Str.length v1) 0); [lia |].
      destruct (Z.ltb_spec (2 ^ 63 - 1) 0); [lia |].
      destruct (Z.leb_spec (Str.length v1) (2 ^ 63 - 1)); [| lia].
      destruct (Z.ltb_spec 0 (Str.length v1)); [| lia].
      repeat f_equal; lia. }
    eexists. split.
    + rewrite (Str_subscript_run mem1 h self n v1 None None None 0 PY_SSIZE_T_MAX
                 0 (Str.length v1) (Str.length v1) Hself);
        [reflexivity | unfold PY_SSIZE_T_MAX, SSIZE_MAX; lia | reflexivity | exact Hadjust].
    + destruct (derived_view_incref_last h self n v1 0 (to_size_t (Str.length v1 - 0))
                  (PyStr {| Str.parent := None; Str.start := NULL; Str.length := 0 |})
                  Hself) as (n' & s' & Hs' & _ & Hnew & _).
      rewrite Hself in Hs'. injection Hs' as <- <-.
      rewrite (Str_at_lookup _ _ _ _ Hnew). unfold Str_hash.
      cbn [Str.start Str.length].
      rewrite Z.add_0_r, Z.sub_0_r, to_size_t_small by lia. reflexivity.
Qed.

Lemma Str_hash_of_content_witness :
  Str_hash fold_hash demo_memory
    {| Str.parent := Some 0%nat; Str.start := 1000; Str.length := 11 |}
  = Str_hash fold_hash demo_memory
      {| Str.parent := None; Str.start := 4000; Str.length := 11 |}
  /\ (exists h', Str_getslice
                   [ {| ob_refcnt := 1;
                        ob_body := PyStr {| Str.parent := Some 0%nat; Str.start := 1000;
                                            Str.length := 11 |} |} ] 0 []
                 = (h', Return 1%nat)
                 /\ Str_hash fold_hash demo_memory (Str_at h' 1)
                    = Str_hash fold_hash demo_memory
                        {| Str.parent := Some 0%nat; Str.start := 1000;
                           Str.length := 11 |})
  /\ (exists h', Str_subscript demo_memory
                   [ {| ob_refcnt := 1;
                        ob_body := PyStr {| Str.parent := Some 0%nat; Str.start := 1000;
                                            Str.length := 11 |} |} ] 0
                   (PySlice None None None)
                 = (h', Return 1%nat)
                 /\ Str_hash fold_hash demo_memory (Str_at h' 1)
                    = Str_hash fold_hash demo_memory
                        {| Str.parent := Some 0%nat; Str.start := 1000;
                           Str.length := 11 |}).
Proof.
  apply (Str_hash_of_content fold_hash demo_memory demo_memory
           {| Str.parent := Some 0%nat; Str.start := 1000; Str.length := 11 |}
           {| Str.parent := None; Str.start := 4000; Str.length := 11 |}
           [ {| ob_refcnt := 1;
                ob_body := PyStr {| Str.parent := Some 0%nat; Str.start := 1000;
                                    Str.length := 11 |} |} ] 0%nat 1).
  - exact fold_hash_contract.
  - cbn. lia.
  - cbn. lia.
  - vm_compute. reflexivity.
  - reflexivity.
  - cbn. unfold PY_SSIZE_T_MAX, SSIZE_MAX. lia.
Defined.

(** ** A mapped file from open to release *)

(** Mapping an 11-byte file and viewing the bytes [[6, 11)]: the attempt
    succeeds with the file at address 4096, a view constructed over the
    mapped file with bounds 6 and 11 covers [(4102, 5)], and tearing the
    file down afterwards returns the descriptor table and the mappings to
    their initial state. *)
Example mapped_file_scenario :
  let '(os, file, result) :=
    MemoryMappedFile_init map_granted boot_os MemoryMappedFile_new
      (Some "hello.txt"%string) in
  result = IntReturn 0
  /\ file = {| MemoryMappedFile.file_descriptor := 3;
               MemoryMappedFile.start := 4096;
               MemoryMappedFile.length := 11 |}
  /\ open_fds os = [3; 0; 1; 2]
  /\ mappings os = [(4096, 11)]
  /\ (let h := [ {| ob_refcnt := 1; ob_body := PyFile file |};
                 {| ob_refcnt := 1; ob_body := PyLong 6 |};
                 {| ob_refcnt := 1; ob_body := PyLong 11 |} ] in
      let '(h, view) := Str_new h in
      let '(h, built) := Str_init h view [0%nat; 1%nat; 2%nat] in
      built = IntReturn 0
      /\ Str_at h view = {| Str.parent := Some 0%nat; Str.start := 4102;
                            Str.length := 5 |}
      /\ (ob_refcnt <$> h !! 0%nat) = Some 2)
  /\ open_fds (fst (MemoryMappedFile_dealloc os file)) = open_fds boot_os
  /\ mappings (fst (MemoryMappedFile_dealloc os file)) = mappings boot_os.
Proof. vm_compute. repeat split; reflexivity. Qed.

(** * Part III: further properties of the binding *)

(** ** More on the slice normalizer *)

Lemma normalize_in_order length start end_ :
  0 <= start -> start <= end_ -> end_ <= length ->
  SliceSpec.normalize length start end_ = (start, end_ - start).
Proof.
  intros Hs Hse He. unfold SliceSpec.normalize, SliceSpec.clamp, SliceSpec.adjust.
  cbv zeta. rewrite Z.gtb_ltb.
  destruct (Z.ltb_spec start 0); [lia |]. destruct (Z.ltb_spec end_ 0); [lia |].
  destruct (Z.ltb_spec (Z.max 0 (Z.min length end_)) (Z.max 0 (Z.min length start)));
    [lia |].
  f_equal; lia.
Qed.

(** Without bounds, that is with [0] and [PY_SSIZE_T_MAX], the whole range
    is selected. *)
Lemma slice_whole length :
  0 <= length <= PY_SSIZE_T_MAX ->
  slice length 0 PY_SSIZE_T_MAX = (0, length).
Proof.
  intros Hlen. unfold PY_SSIZE_T_MAX in *.
  rewrite slice_small by (unfold is_ssize_t, SSIZE_MIN, SSIZE_MAX in *; lia).
  unfold SliceSpec.normalize, SliceSpec.clamp, SliceSpec.adjust, SSIZE_MAX in *.
  cbv zeta. rewrite Z.gtb_ltb. change (0 <? 0) with false.
  destruct (Z.ltb_spec (2 ^ 63 - 1) 0); [lia |]. cbv iota.
  destruct (Z.ltb_spec (Z.max 0 (Z.min length (2 ^ 63 - 1))) (Z.max 0 (Z.min length 0)));
    [lia |].
  f_equal; lia.
Qed.

(** X1. Normalizing is idempotent: feeding the normalized range
    [[offset, offset + length)] back to [slice] returns it unchanged. *)
Theorem slice_idempotent (length start end_ offset len : Z) :
  0 <= length <= PY_SSIZE_T_MAX -> is_ssize_t start -> is_ssize_t end_ ->
  slice length start end_ = (offset, len) ->
  slice length offset (offset + len) = (offset, len).
Proof.
  intros Hlen Hs He Hslice. unfold PY_SSIZE_T_MAX in Hlen.
  rewrite slice_small in Hslice by assumption.
  pose proof (normalize_bounds length start end_ (proj1 Hlen)) as Hb.
  rewrite Hslice in Hb.
  rewrite slice_small
    by (unfold is_ssize_t, SSIZE_MIN, SSIZE_MAX in *; try assumption; lia).
  rewrite normalize_in_order by lia. f_equal. lia.
Qed.

Lemma slice_idempotent_witness : slice 10 2 (2 + 5) = (2, 5).
Proof.
  apply (slice_idempotent 10 (-8) 7 2 5).
  - unfold PY_SSIZE_T_MAX, SSIZE_MAX. lia.
  - unfold is_ssize_t, SSIZE_MIN, SSIZE_MAX. lia.
  - unfold is_ssize_t, SSIZE_MIN, SSIZE_MAX. lia.
  - vm_compute. reflexivity.
Defined.

(** X2. A negative bound and its alias counted from the front select the
    same range: for [0 <= i < length], [slice] treats [i - length] as [i],
    in the start and in the end position alike. *)
Theorem slice_negative_alias (length i other : Z) :
  0 <= length <= PY_SSIZE_T_MAX -> 0 <= i < length -> is_ssize_t other ->
  slice length (i - length) other = slice length i other
  /\ slice length other (i - length) = slice length other i.
Proof.
  intros Hlen Hi Ho. unfold PY_SSIZE_T_MAX in Hlen.
  assert (is_ssize_t i /\ is_ssize_t (i - length)) as [Hi1 Hi2]
    by (unfold is_ssize_t, SSIZE_MIN, SSIZE_MAX in *; lia).
  rewrite !slice_small by assumption.
  unfold SliceSpec.normalize.
  assert (SliceSpec.adjust length (i - length) = SliceSpec.adjust length i) as ->.
  { unfold SliceSpec.adjust.
    destruct (Z.ltb_spec (i - length) 0); destruct (Z.ltb_spec i 0); lia. }
  split; reflexivity.
Qed.

Lemma slice_negative_alias_witness :
  slice 10 (3 - 10) 8 = slice 10 3 8 /\ slice 10 8 (3 - 10) = slice 10 8 3.
Proof.
  apply (slice_negative_alias 10 3 8).
  - unfold PY_SSIZE_T_MAX, SSIZE_MAX. lia.
  - lia.
  - unfold is_ssize_t, SSIZE_MIN, SSIZE_MAX. lia.
Defined.

(** ** Constructing a view *)

Lemma parse_n_range h r v : parse_n h r = Some v -> is_ssize_t v.
Proof.
  unfold parse_n, is_ssize_t.
  destruct (h !! r) as [[n []] |]; try discriminate.
  destruct (Z.leb_spec SSIZE_MIN v0); destruct (Z.leb_spec v0 SSIZE_MAX);
    cbn [andb]; try discriminate.
  intros [= <-]. lia.
Qed.

Lemma PyArg_ParseTuple_Onn_range h args parent from to :
  PyArg_ParseTuple_Onn h args = Some (parent, from, to) ->
  is_ssize_t from /\ is_ssize_t to.
Proof.
  assert (is_ssize_t 0 /\ is_ssize_t PY_SSIZE_T_MAX) as [H0 Hmax]
    by (unfold is_ssize_t, PY_SSIZE_T_MAX, SSIZE_MIN, SSIZE_MAX; lia).
  unfold PyArg_ParseTuple_Onn.
  destruct args as [| a [| b [| c [| d rest]]]]; try discriminate.
  - intros [= <- <- <-]. auto.
  - intros [= <- <- <-]. auto.
  - destruct (parse_n h b) as [vb |] eqn:Hb; [| discriminate].
    intros [= <- <- <-]. split; [eapply parse_n_range; eassumption | assumption].
  - destruct (parse_n h b) as [vb |] eqn:Hb; [| discriminate].
    destruct (parse_n h c) as [vc |] eqn:Hc; [| discriminate].
    intros [= <- <- <-]. split; eapply parse_n_range; eassumption.
Qed.

Lemma Str_init_run h self parent body n args from to pstart plen offset len :
  h !! parent = Some {| ob_refcnt := n; ob_body := body |} ->
  PyArg_ParseTuple_Onn h args = Some (Some parent, from, to) ->
  export_string_like body = Some (pstart, plen) ->
  slice plen from to = (offset, len) ->
  Str_init h self args
  = (set_body (Py_INCREF h parent) self
       (PyStr {| Str.parent := Some parent; Str.start := pstart + offset;
                 Str.length := len |}),
     IntReturn 0).
Proof.
  intros Hparent Hparse Hexport Hslice. unfold Str_init.
  rewrite Hparse, Hparent. cbn [ob_body]. rewrite Hexport.
  cbn [Str.length Str.start Str.parent]. rewrite Hslice. reflexivity.
Qed.

(** X3. Constructing a view over a byte-range-like parent with bounds
    succeeds; the view covers the normalized sub-range of what the parent
    exports and records the parent as its owner, the parent gains exactly one
    reference, and no other object of the heap is touched. *)
Theorem Str_init_takes_sub_range
    (h : heap) (self parent : objref) (self_obj : PyObject) (n : Z) (body : PyBody)
    (args : list objref) (from to pstart plen : Z) :
  h !! self = Some self_obj ->
  h !! parent = Some {| ob_refcnt := n; ob_body := body |} ->
  parent <> self ->
  PyArg_ParseTuple_Onn h args = Some (Some parent, from, to) ->
  export_string_like body = Some (pstart, plen) ->
  0 <= plen <= PY_SSIZE_T_MAX ->
  let run := Str_init h self args in
  snd run = IntReturn 0
  /\ (exists offset len,
        (offset, len) = SliceSpec.normalize plen from to
        /\ Str_at (fst run) self
           = {| Str.parent := Some parent; Str.start := pstart + offset;
                Str.length := len |}
        /\ within (pstart + offset) len pstart plen)
  /\ fst run !! parent = Some {| ob_refcnt := n + 1; ob_body := body |}
  /\ (forall r : objref, r <> self -> r <> parent -> fst run !! r = h !! r).
Proof.
  intros Hself Hparent Hne Hparse Hexport Hlen run.
  destruct (PyArg_ParseTuple_Onn_range _ _ _ _ _ Hparse) as [Hfrom Hto].
  pose proof (normalize_bounds plen from to (proj1 Hlen)) as Hb.
  pose proof (slice_small plen from to Hlen Hfrom Hto) as Hslice.
  destruct (SliceSpec.normalize plen from to) as [offset len] eqn:Hnorm.
  subst run.
  rewrite (Str_init_run h self parent body n args from to pstart plen offset len)
    by assumption.
  cbn [fst snd]. split; [reflexivity |]. split; [| split].
  - exists offset, len. split; [reflexivity |]. split.
    + apply Str_at_set_body. unfold Py_INCREF. rewrite length_alter.
      now apply (lookup_in_heap h self self_obj).
    + unfold within. lia.
  - unfold set_body, Py_INCREF.
    rewrite list_lookup_alter_ne by congruence.
    rewrite list_lookup_alter_eq, Hparent. reflexivity.
  - intros r Hr Hrp. unfold set_body, Py_INCREF.
    rewrite !list_lookup_alter_ne by congruence. reflexivity.
Qed.

Lemma Str_init_takes_sub_range_witness :
  let run := Str_init bounds_heap 4 [1%nat; 2%nat; 3%nat] in
  snd run = IntReturn 0
  /\ (exists offset len,
        (offset, len) = SliceSpec.normalize 10 2 7
        /\ Str_at (fst run) 4
           = {| Str.parent := Some 1%nat; Str.start := 3000 + offset;
                Str.length := len |}
        /\ within (3000 + offset) len 3000 10)
  /\ fst run !! 1%nat
     = Some {| ob_refcnt := 1 + 1;
               ob_body := PyStr {| Str.parent := Some 0%nat; Str.start := 3000;
                                   Str.length := 10 |} |}
  /\ (forall r : objref, r <> 4%nat -> r <> 1%nat -> fst run !! r = bounds_heap !! r).
Proof.
  apply (Str_init_takes_sub_range bounds_heap 4 1
           {| ob_refcnt := 1;
              ob_body := PyStr {| Str.parent := None; Str.start := NULL;
                                  Str.length := 0 |} |}
           1 (PyStr {| Str.parent := Some 0%nat; Str.start := 3000; Str.length := 10 |})
           [1%nat; 2%nat; 3%nat] 2 7 3000 10).
  - reflexivity.
  - reflexivity.
  - discriminate.
  - vm_compute. reflexivity.
  - reflexivity.
  - unfold PY_SSIZE_T_MAX, SSIZE_MAX. lia.
Defined.

(** X4. Constructed from a parent alone, a view covers exactly the range
    the parent exports: the default bounds select everything. *)
Theorem Str_init_views_whole_parent
    (h : heap) (self parent : objref) (self_obj : PyObject) (n : Z) (body : PyBody)
    (pstart plen : Z) :
  h !! self = Some self_obj ->
  h !! parent = Some {| ob_refcnt := n; ob_body := body |} ->
  export_string_like body = Some (pstart, plen) ->
  0 <= plen <= PY_SSIZE_T_MAX ->
  snd (Str_init h self [parent]) = IntReturn 0
  /\ Str_at (fst (Str_init h self [parent])) self
     = {| Str.parent := Some parent; Str.start := pstart; Str.length := plen |}.
Proof.
  intros Hself Hparent Hexport Hlen.
  rewrite (Str_init_run h self parent body n [parent] 0 PY_SSIZE_T_MAX pstart plen
             0 plen Hparent eq_refl Hexport (slice_whole plen Hlen)).
  cbn [fst snd]. split; [reflexivity |].
  rewrite Z.add_0_r. apply Str_at_set_body. unfold Py_INCREF. rewrite length_alter.
  now apply (lookup_in_heap h self self_obj).
Qed.

Lemma Str_init_views_whole_parent_witness :
  snd (Str_init bounds_heap 4 [0%nat]) = IntReturn 0
  /\ Str_at (fst (Str_init bounds_heap 4 [0%nat])) 4
     = {| Str.parent := Some 0%nat; Str.start := 3000; Str.length := 10 |}.
Proof.
  apply (Str_init_views_whole_parent bounds_heap 4 0
           {| ob_refcnt := 1;
              ob_body := PyStr {| Str.parent := None; Str.start := NULL;
                                  Str.length := 0 |} |}
           2 (PyUnicode 3000 10) 3000 10).
  - reflexivity.
  - reflexivity.
  - reflexivity.
  - unfold PY_SSIZE_T_MAX, SSIZE_MAX. lia.
Defined.

(** X5. Constructed without a parent, a view is empty: [Str_init] succeeds,
    stores a null start and length zero, keeps whatever owner the object
    recorded before, and changes no reference count. *)
Theorem Str_init_without_parent (h : heap) (self : objref) (self_obj : PyObject) :
  h !! self = Some self_obj ->
  snd (Str_init h self []) = IntReturn 0
  /\ Str_at (fst (Str_init h self [])) self
     = {| Str.parent := Str.parent (Str_at h self); Str.start := NULL;
          Str.length := 0 |}
  /\ (forall r : objref,
        ob_refcnt <$> fst (Str_init h self []) !! r = ob_refcnt <$> h !! r).
Proof.
  intros Hself. unfold Str_init. cbn [PyArg_ParseTuple_Onn].
  cbn [Str.length Str.start Str.parent].
  replace (slice 0 0 PY_SSIZE_T_MAX) with (0, 0) by (vm_compute; reflexivity).
  cbn [fst snd]. split; [reflexivity |]. split.
  - apply Str_at_set_body. now apply (lookup_in_heap h self self_obj).
  - intros r. unfold set_body. rewrite list_lookup_alter.
    destruct (decide (self = r)) as [<- |]; [| reflexivity].
    destruct (h !! self); reflexivity.
Qed.

Lemma Str_init_without_parent_witness :
  snd (Str_init demo_heap 1 []) = IntReturn 0
  /\ Str_at (fst (Str_init demo_heap 1 [])) 1
     = {| Str.parent := Str.parent (Str_at demo_heap 1); Str.start := NULL;
          Str.length := 0 |}
  /\ (forall r : objref,
        ob_refcnt <$> fst (Str_init demo_heap 1 []) !! r = ob_refcnt <$> demo_heap !! r).
Proof.
  apply (Str_init_without_parent demo_heap 1
           {| ob_refcnt := 1;
              ob_body := PyStr {| Str.parent := Some 0%nat; Str.start := 3000;
                                  Str.length := 10 |} |}).
  reflexivity.
Defined.

(** X6. When [Str_init] fails, because the arguments do not parse or
    because the parent is not byte-range-like, the heap is left exactly as it
    was: no field of the view is written and no reference is taken. *)
Theorem Str_init_failure_leaves_heap (h : heap) (self : objref) (args : list objref) :
  snd (Str_init h self args) <> IntReturn 0 ->
  fst (Str_init h self args) = h
  /\ (snd (Str_init h self args) = IntPropagated
      \/ snd (Str_init h self args) = IntRaise PyExc_TypeError "Unsupported parent type").
Proof.
  unfold Str_init.
  destruct (PyArg_ParseTuple_Onn h args) as [[[parent from] to] |];
    [| intros _; split; [reflexivity | left; reflexivity]].
  destruct parent as [parent |].
  - destruct (export_string_like _) as [[start length] |].
    + cbn [Str.length Str.start Str.parent].
      destruct (slice length from to). cbn [fst snd]. congruence.
    + intros _. split; [reflexivity | right; reflexivity].
  - cbn [Str.length Str.start Str.parent].
    destruct (slice 0 from to). cbn [fst snd]. congruence.
Qed.

Lemma Str_init_failure_leaves_heap_witness :
  fst (Str_init bounds_heap 4 [2%nat]) = bounds_heap
  /\ (snd (Str_init bounds_heap 4 [2%nat]) = IntPropagated
      \/ snd (Str_init bounds_heap 4 [2%nat])
         = IntRaise PyExc_TypeError "Unsupported parent type").
Proof.
  apply (Str_init_failure_leaves_heap bounds_heap 4 [2%nat]).
  vm_compute. discriminate.
Defined.

(** ** More on slicing a view *)

Lemma PyEval_SliceIndex_range v : is_ssize_t (PyEval_SliceIndex v).
Proof.
  unfold PyEval_SliceIndex, is_ssize_t, PY_SSIZE_T_MIN, PY_SSIZE_T_MAX,
    SSIZE_MIN, SSIZE_MAX. lia.
Qed.

Lemma PySlice_Unpack_range kstart kstop kstep start stop step :
  PySlice_Unpack kstart kstop kstep = Some (start, stop, step) ->
  is_ssize_t start /\ is_ssize_t stop /\ step <> 0.
Proof.
  unfold PySlice_Unpack.
  assert (forall c : bool, is_ssize_t (if c then PY_SSIZE_T_MAX else 0)) as Hs.
  { intros []; unfold is_ssize_t, PY_SSIZE_T_MAX, SSIZE_MIN, SSIZE_MAX; lia. }
  assert (forall c : bool, is_ssize_t (if c then PY_SSIZE_T_MIN else PY_SSIZE_T_MAX))
    as He.
  { intros []; unfold is_ssize_t, PY_SSIZE_T_MIN, PY_SSIZE_T_MAX, SSIZE_MIN, SSIZE_MAX;
      lia. }
  destruct kstep as [v |].
  - destruct (Z.eqb_spec (PyEval_SliceIndex v) 0) as [| Hnz]; [discriminate |].
    intros [= <- <- <-].
    split; [| split].
    + destruct kstart; [apply PyEval_SliceIndex_range | apply Hs].
    + destruct kstop; [apply PyEval_SliceIndex_range | apply He].
    + unfold PY_SSIZE_T_MAX, SSIZE_MAX in *.
      destruct (Z.ltb_spec (PyEval_SliceIndex v) (- (2 ^ 63 - 1))); lia.
  - intros [= <- <- <-].
    split; [| split]; [| | lia].
    + destruct kstart; [apply PyEval_SliceIndex_range | apply (Hs false)].
    + destruct kstop; [apply PyEval_SliceIndex_range | apply (He false)].
Qed.

Lemma slicelength_nonneg x y d :
  0 < d -> 0 <= (if y <? x then (x - y - 1) / d + 1 else 0).
Proof.
  intros Hd. destruct (Z.ltb_spec y x); [| lia].
  assert (0 <= (x - y - 1) / d) by (apply Z.div_pos; lia). lia.
Qed.

(** [PySlice_AdjustIndices] never reports a negative slice length. *)
Lemma PySlice_AdjustIndices_slicelength length start stop step b e slicelength :
  step <> 0 ->
  PySlice_AdjustIndices length start stop step = (b, e, slicelength) ->
  0 <= slicelength.
Proof.
  intros Hstep. unfold PySlice_AdjustIndices. cbv zeta. intros [= <- <- <-].
  destruct (Z.ltb_spec step 0); apply slicelength_nonneg; lia.
Qed.

(** X7. [Str_getslice] and [Str_subscript] either leave the heap exactly as
    it was (on every error, on the empty-text result and on single-byte
    access) or return a reference to the one object they have added to it. *)
Theorem Str_slicing_allocates_one_or_nothing
    (mem : memory) (h : heap) (self : objref) (args : list PyBody) (key : PyBody) :
  (fst (Str_getslice h self args) = h
   /\ (forall r, snd (Str_getslice h self args) <> Return r)
   \/ snd (Str_getslice h self args) = Return (List.length h)
      /\ List.length (fst (Str_getslice h self args)) = S (List.length h))
  /\ (fst (Str_subscript mem h self key) = h
      /\ (forall r, snd (Str_subscript mem h self key) <> Return r)
      \/ snd (Str_subscript mem h self key) = Return (List.length h)
         /\ List.length (fst (Str_subscript mem h self key)) = S (List.length h)).
Proof.
  split.
  - unfold Str_getslice.
    destruct (_ <? _)%nat; [left; split; [reflexivity | discriminate] |].
    destruct (getslice_bound _ 0); [| left; split; [reflexivity | discriminate]].
    destruct (getslice_bound _ _); [| left; split; [reflexivity | discriminate]].
    destruct (slice _ _ _) as [offset len].
    destruct (len =? 0); [left; split; [reflexivity | discriminate] |].
    right. unfold tp_alloc, alloc, set_body, Py_INCREF. cbn [fst snd].
    split; [reflexivity |]. now rewrite !length_alter, last_length.
  - unfold Str_subscript.
    destruct key; try (left; split; [reflexivity | discriminate]).
    + left. split; [reflexivity |]. unfold Str_getitem.
      destruct (_ || _); discriminate.
    + destruct (PySlice_Unpack _ _ _) as [[[a b] c] |];
        [| left; split; [reflexivity | discriminate]].
      destruct (PySlice_AdjustIndices _ _ _ _) as [[b' e'] sl].
      destruct (sl <? 0); [left; split; [reflexivity | discriminate] |].
      destruct (negb _); [left; split; [reflexivity | discriminate] |].
      right. unfold tp_alloc, alloc, set_body, Py_INCREF. cbn [fst snd].
      split; [reflexivity |]. now rewrite !length_alter, last_length.
Qed.

(** X8. Subscripting by a slice whose step is anything but one never builds
    a view: a step of zero is refused by the interpreter while unpacking,
    every other step raises [IndexError], and the heap is left as it was. *)
Theorem Str_subscript_rejects_step
    (mem : memory) (h : heap) (self : objref) (kstart kstop : option Z) (v : Z) :
  v <> 1 ->
  Str_subscript mem h self (PySlice kstart kstop (Some v))
  = (h, if v =? 0 then Propagated
        else Raise PyExc_IndexError "Efficient step is not supported").
Proof.
  intros Hv. unfold Str_subscript.
  destruct (PySlice_Unpack kstart kstop (Some v)) as [[[a b] step] |] eqn:Hunpack.
  - destruct (PySlice_Unpack_range _ _ _ _ _ _ Hunpack) as (_ & _ & Hstep).
    assert (v <> 0 /\ step <> 1) as [Hv0 Hstep1].
    { unfold PySlice_Unpack, PyEval_SliceIndex, PY_SSIZE_T_MIN, PY_SSIZE_T_MAX,
        SSIZE_MIN, SSIZE_MAX in Hunpack.
      destruct (Z.eqb_spec (Z.max (- 2 ^ 63) (Z.min (2 ^ 63 - 1) v)) 0);
        [discriminate |].
      injection Hunpack as _ _ <-.
      destruct (Z.ltb_spec (Z.max (- 2 ^ 63) (Z.min (2 ^ 63 - 1) v)) (- (2 ^ 63 - 1)));
        lia. }
    destruct (PySlice_AdjustIndices _ a b step) as [[b' e'] sl] eqn:Hadjust.
    pose proof (PySlice_AdjustIndices_slicelength _ _ _ _ _ _ _ Hstep Hadjust).
    destruct (Z.ltb_spec sl 0); [lia |].
    destruct (Z.eqb_spec step 1); [contradiction |]. cbn [negb].
    destruct (Z.eqb_spec v 0); [contradiction | reflexivity].
  - assert (v = 0) as ->.
    { unfold PySlice_Unpack, PyEval_SliceIndex, PY_SSIZE_T_MIN, PY_SSIZE_T_MAX,
        SSIZE_MIN, SSIZE_MAX in Hunpack.
      destruct (Z.eqb_spec (Z.max (- 2 ^ 63) (Z.min (2 ^ 63 - 1) v)) 0);
        [lia | discriminate]. }
    reflexivity.
Qed.

Lemma Str_subscript_rejects_step_witness :
  Str_subscript demo_memory demo_heap 1 (PySlice (Some 0) (Some 10) (Some 2))
  = (demo_heap, if 2 =? 0 then Propagated
                else Raise PyExc_IndexError "Efficient step is not supported").
Proof.
  apply (Str_subscript_rejects_step demo_memory demo_heap 1 (Some 0) (Some 10) 2).
  discriminate.
Defined.

Ltac case_cmp :=
  repeat match goal with
         | |- context [?a >? ?b] => rewrite (Z.gtb_ltb a b)
         | |- context [?a >=? ?b] => rewrite (Z.geb_leb a b)
         | |- context [?a <? ?b] => destruct (Z.ltb_spec a b)
         | |- context [?a <=? ?b] => destruct (Z.leb_spec a b)
         | H : context [?a <? ?b] |- _ => destruct (Z.ltb_spec a b)
         | H : context [?a <=? ?b] |- _ => destruct (Z.leb_spec a b)
         end.

(** For a step of one, the indices [PySlice_AdjustIndices] leaves and the
    slice length it reports are the range [slice] computes. *)
Lemma PySlice_AdjustIndices_slice length a b b' e' slicelength :
  0 <= length <= SSIZE_MAX -> is_ssize_t a -> is_ssize_t b ->
  PySlice_AdjustIndices length a b 1 = (b', e', slicelength) ->
  slice length a b = (if b' <=? e' then b' else e', slicelength)
  /\ slicelength = Z.max 0 (e' - b').
Proof.
  intros Hlen Ha Hb. rewrite slice_small by assumption.
  unfold PySlice_AdjustIndices, SliceSpec.normalize, SliceSpec.clamp, SliceSpec.adjust.
  cbv zeta. change (1 <? 0) with false. cbv iota. rewrite !Z.div_1_r.
  unfold SSIZE_MAX in Hlen. intros [= <- <- <-].
  case_cmp; (split; [f_equal |]); lia.
Qed.

Lemma PyLong_AsSsize_t_small v : is_ssize_t v -> PyLong_AsSsize_t (PyLong v) = v.
Proof.
  unfold is_ssize_t, PyLong_AsSsize_t. intros Hv.
  destruct (Z.leb_spec SSIZE_MIN v); destruct (Z.leb_spec v SSIZE_MAX);
    cbn [andb]; lia.
Qed.

Lemma PyEval_SliceIndex_small v : is_ssize_t v -> PyEval_SliceIndex v = v.
Proof.
  unfold is_ssize_t, PyEval_SliceIndex, PY_SSIZE_T_MIN, PY_SSIZE_T_MAX. lia.
Qed.

(** X9. The two ways of slicing agree: for bounds that fit [Py_ssize_t] and
    select at least one byte, the subscript [self[a:b]] and the call
    [getslice(a, b)] return the same new view and leave the same heap. *)
Theorem Str_subscript_agrees_with_getslice
    (mem : memory) (h : heap) (self : objref) (n : Z) (s : Str.t)
    (a b offset len : Z) :
  h !! self = Some {| ob_refcnt := n; ob_body := PyStr s |} ->
  0 <= Str.length s <= PY_SSIZE_T_MAX ->
  is_ssize_t a -> is_ssize_t b ->
  slice (Str.length s) a b = (offset, len) ->
  len <> 0 ->
  Str_subscript mem h self (PySlice (Some a) (Some b) None)
  = Str_getslice h self [PyLong a; PyLong b].
Proof.
  intros Hself Hlen Ha Hb Hslice Hne.
  pose proof (lookup_in_heap _ _ _ Hself) as Hlt.
  destruct (PySlice_AdjustIndices (Str.length s) a b 1) as [[b' e'] sl] eqn:Hadjust.
  destruct (PySlice_AdjustIndices_slice _ _ _ _ _ _ Hlen Ha Hb Hadjust) as [Hsame Hsl].
  rewrite Hslice in Hsame. injection Hsame as Hoff Hlen'.
  assert (b' < e') as Horder by lia.
  destruct (Z.leb_spec b' e'); [| lia].
  destruct (PySlice_AdjustIndices_bounds _ _ _ _ _ _ (proj1 Hlen) Hadjust)
    as (Hb' & He' & _).
  rewrite (Str_subscript_run mem h self n s (Some a) (Some b) None a b b' e' sl
             Hself Hlen); [| | assumption].
  2:{ unfold PySlice_Unpack. change (1 <? 0) with false.
      now rewrite !PyEval_SliceIndex_small. }
  rewrite (Str_getslice_run h self n s [PyLong a; PyLong b] a b offset len Hself);
    [| cbn; lia | | | assumption].
  2:{ change ([PyLong a; PyLong b] !! 0%nat) with (Some (PyLong a)).
      unfold getslice_bound. now rewrite PyLong_AsSsize_t_small. }
  2:{ change ([PyLong a; PyLong b] !! 1%nat) with (Some (PyLong b)).
      unfold getslice_bound. now rewrite PyLong_AsSsize_t_small. }
  destruct (Z.eqb_spec len 0); [contradiction |].
  rewrite to_size_t_small
    by (unfold PY_SSIZE_T_MAX, SSIZE_MAX in Hlen; lia).
  subst offset len. replace sl with (e' - b') by lia.
  f_equal. unfold set_body, Py_INCREF.
  apply list_alter_alter_ne. lia.
Qed.

Lemma Str_subscript_agrees_with_getslice_witness :
  Str_subscript demo_memory demo_heap 1 (PySlice (Some (-8)) (Some 7) None)
  = Str_getslice demo_heap 1 [PyLong (-8); PyLong 7].
Proof.
  apply (Str_subscript_agrees_with_getslice demo_memory demo_heap 1 1
           {| Str.parent := Some 0%nat; Str.start := 3000; Str.length := 10 |}
           (-8) 7 2 5).
  - reflexivity.
  - cbn. unfold PY_SSIZE_T_MAX, SSIZE_MAX. lia.
  - unfold is_ssize_t, SSIZE_MIN, SSIZE_MAX. lia.
  - unfold is_ssize_t, SSIZE_MIN, SSIZE_MAX. lia.
  - vm_compute. reflexivity.
  - discriminate.
Defined.

Lemma Str_getslice_new_view h self n s args start end_ offset len :
  h !! self = Some {| ob_refcnt := n; ob_body := PyStr s |} ->
  (List.length args <= 2)%nat ->
  getslice_bound (args !! 0%nat) 0 = Some start ->
  getslice_bound (args !! 1%nat) (to_ssize_t (Str.length s)) = Some end_ ->
  slice (Str.length s) start end_ = (offset, len) ->
  len <> 0 ->
  snd (Str_getslice h self args) = Return (List.length h)
  /\ derived_view h (fst (Str_getslice h self args)) self (List.length h) offset len
  /\ List.length (fst (Str_getslice h self args)) = S (List.length h).
Proof.
  intros Hself Hargs Hstart Hend Hslice Hne.
  rewrite (Str_getslice_run h self n s args start end_ offset len) by assumption.
  destruct (Z.eqb_spec len 0); [contradiction |]. cbn [fst snd].
  split; [reflexivity |]. split.
  - now apply (derived_view_incref_first h self n s).
  - unfold set_body, Py_INCREF. now rewrite !length_alter, last_length.
Qed.

(** X10. A slice covers the bytes of the sliced view between the
    normalized bounds: the bytes in the range of the view [Str_getslice]
    returns are the bytes in the range of the original view with [offset]
    bytes dropped and [length] bytes kept. *)
Theorem Str_getslice_content
    (mem : memory) (h : heap) (self : objref) (n : Z) (s : Str.t)
    (args : list PyBody) (start end_ offset len : Z) :
  h !! self = Some {| ob_refcnt := n; ob_body := PyStr s |} ->
  0 <= Str.length s <= PY_SSIZE_T_MAX ->
  (List.length args <= 2)%nat ->
  getslice_bound (args !! 0%nat) 0 = Some start ->
  getslice_bound (args !! 1%nat) (to_ssize_t (Str.length s)) = Some end_ ->
  slice (Str.length s) start end_ = (offset, len) ->
  len <> 0 ->
  let view := Str_at (fst (Str_getslice h self args)) (List.length h) in
  load mem (Str.start view) (Str.length view)
  = take (Z.to_nat len)
      (drop (Z.to_nat offset) (load mem (Str.start s) (Str.length s))).
Proof.
  intros Hself Hlen Hargs Hstart Hend Hslice Hne view. subst view.
  destruct (Str_getslice_new_view h self n s args start end_ offset len)
    as (_ & (n' & s' & Hs' & _ & Hnew & _) & _); try assumption.
  rewrite Hself in Hs'. injection Hs' as <- <-.
  rewrite (Str_at_lookup _ _ _ _ Hnew). cbn [Str.start Str.length].
  assert (is_ssize_t start) as Hs.
  { apply (getslice_bound_range (args !! 0%nat) 0); [| assumption].
    unfold is_ssize_t, SSIZE_MIN, SSIZE_MAX. lia. }
  assert (is_ssize_t end_) as He.
  { apply (getslice_bound_range (args !! 1%nat) (to_ssize_t (Str.length s)));
      [apply to_ssize_t_range | assumption]. }
  assert (is_size_t (Str.length s)) as Hsize
    by (unfold is_size_t, modulus, PY_SSIZE_T_MAX, SSIZE_MAX in *; lia).
  destruct (slice_bounds _ _ _ _ _ Hsize Hs He Hslice) as (Ho & Hl & Hfit).
  now apply load_sub_range.
Qed.

Lemma Str_getslice_content_witness :
  let view := Str_at (fst (Str_getslice demo_heap 1 [PyLong 2; PyLong 7]))
                     (List.length demo_heap) in
  load demo_memory (Str.start view) (Str.length view)
  = take (Z.to_nat 5) (drop (Z.to_nat 2) (load demo_memory 3000 10)).
Proof.
  apply (Str_getslice_content demo_memory demo_heap 1 1
           {| Str.parent := Some 0%nat; Str.start := 3000; Str.length := 10 |}
           [PyLong 2; PyLong 7] 2 7 2 5).
  - reflexivity.
  - cbn. unfold PY_SSIZE_T_MAX, SSIZE_MAX. lia.
  - cbn. lia.
  - reflexivity.
  - reflexivity.
  - vm_compute. reflexivity.
  - discriminate.
Defined.

(** X11. The identity slice round-trips: on a non-empty view, [getslice()]
    without bounds and the subscript [[:]] both return a view with the start
    and the length of the view itself, so with the same bytes; on an empty
    view [getslice()] returns the empty native text. *)
Theorem Str_identity_slice
    (mem : memory) (h : heap) (self : objref) (n : Z) (s : Str.t) :
  h !! self = Some {| ob_refcnt := n; ob_body := PyStr s |} ->
  0 <= Str.length s <= PY_SSIZE_T_MAX ->
  (Str.length s <> 0 ->
   Str_at (fst (Str_getslice h self [])) (List.length h)
   = {| Str.parent := Some self; Str.start := Str.start s; Str.length := Str.length s |}
   /\ Str_at (fst (Str_subscript mem h self (PySlice None None None))) (List.length h)
      = {| Str.parent := Some self; Str.start := Str.start s;
           Str.length := Str.length s |})
  /\ (Str.length s = 0 -> Str_getslice h self [] = (h, PyUnicode_FromString "")).
Proof.
  intros Hself Hlen.
  assert (0 <= Str.length s <= 2 ^ 63 - 1) as Hrange
    by (unfold PY_SSIZE_T_MAX, SSIZE_MAX in Hlen; lia).
  assert (slice (Str.length s) 0 (to_ssize_t (Str.length s)) = (0, Str.length s))
    as Hslice.
  { rewrite to_ssize_t_small by lia.
    rewrite slice_small
      by (unfold SSIZE_MAX, is_ssize_t, SSIZE_MIN, SSIZE_MAX; lia).
    rewrite normalize_in_order by lia. f_equal. lia. }
  pose proof (Str_getslice_run h self n s [] 0 (to_ssize_t (Str.length s))
                0 (Str.length s) Hself ltac:(cbn; lia) eq_refl eq_refl Hslice) as Hrun.
  split.
  - intros Hne. split.
    + rewrite Hrun. destruct (Z.eqb_spec (Str.length s) 0); [contradiction |].
      cbn [fst].
      destruct (derived_view_incref_first h self n s 0 (Str.length s)
                  (PyStr {| Str.parent := None; Str.start := NULL; Str.length := 0 |})
                  Hself) as (n' & s' & Hs' & _ & Hnew & _).
      rewrite Hself in Hs'. injection Hs' as <- <-.
      rewrite (Str_at_lookup _ _ _ _ Hnew). now rewrite Z.add_0_r.
    + assert (PySlice_AdjustIndices (Str.length s) 0 PY_SSIZE_T_MAX 1
              = (0, Str.length s, Str.length s)) as Hadjust.
      { unfold PySlice_AdjustIndices, PY_SSIZE_T_MAX, SSIZE_MAX. cbv zeta.
        change (1 <? 0) with false. change (0 <? 0) with false. cbv iota.
        rewrite !Z.div_1_r. case_cmp; repeat f_equal; lia. }
      rewrite (Str_subscript_run mem h self n s None None None 0 PY_SSIZE_T_MAX
                 0 (Str.length s) (Str.length s) Hself Hlen eq_refl Hadjust).
      cbn [fst].
      destruct (derived_view_incref_last h self n s 0 (to_size_t (Str.length s - 0))
                  (PyStr {| Str.parent := None; Str.start := NULL; Str.length := 0 |})
                  Hself) as (n' & s' & Hs' & _ & Hnew & _).
      rewrite Hself in Hs'. injection Hs' as <- <-.
      rewrite (Str_at_lookup _ _ _ _ Hnew).
      rewrite Z.add_0_r, Z.sub_0_r, to_size_t_small by lia. reflexivity.
  - intros Hzero. rewrite Hrun, Hzero. reflexivity.
Qed.

Lemma Str_identity_slice_witness :
  (10 <> 0 ->
   Str_at (fst (Str_getslice demo_heap 1 [])) (List.length demo_heap)
   = {| Str.parent := Some 1%nat; Str.start := 3000; Str.length := 10 |}
   /\ Str_at (fst (Str_subscript demo_memory demo_heap 1 (PySlice None None None)))
             (List.length demo_heap)
      = {| Str.parent := Some 1%nat; Str.start := 3000; Str.length := 10 |})
  /\ (10 = 0 -> Str_getslice demo_heap 1 [] = (demo_heap, PyUnicode_FromString "")).
Proof.
  apply (Str_identity_slice demo_memory demo_heap 1 1
           {| Str.parent := Some 0%nat; Str.start := 3000; Str.length := 10 |}).
  - reflexivity.
  - cbn. unfold PY_SSIZE_T_MAX, SSIZE_MAX. lia.
Defined.

(** X12. Slices compose: slicing the view returned by a first slice gives a
    view whose parent is the first slice and whose range, the two offsets
    added to the start of the original view, still lies within the original
    view.  The original view holds one reference more (the first slice's) and
    the first slice one more (the second's). *)
Theorem Str_getslice_of_getslice
    (h : heap) (self : objref) (n : Z) (s : Str.t)
    (args1 args2 : list PyBody) (start1 end1 offset1 len1 start2 end2 offset2 len2 : Z) :
  h !! self = Some {| ob_refcnt := n; ob_body := PyStr s |} ->
  0 <= Str.length s <= PY_SSIZE_T_MAX ->
  (List.length args1 <= 2)%nat -> (List.length args2 <= 2)%nat ->
  getslice_bound (args1 !! 0%nat) 0 = Some start1 ->
  getslice_bound (args1 !! 1%nat) (to_ssize_t (Str.length s)) = Some end1 ->
  slice (Str.length s) start1 end1 = (offset1, len1) -> len1 <> 0 ->
  getslice_bound (args2 !! 0%nat) 0 = Some start2 ->
  getslice_bound (args2 !! 1%nat) (to_ssize_t len1) = Some end2 ->
  slice len1 start2 end2 = (offset2, len2) -> len2 <> 0 ->
  let first := List.length h in
  let h1 := fst (Str_getslice h self args1) in
  let run2 := Str_getslice h1 first args2 in
  snd run2 = Return (S first)
  /\ Str_at (fst run2) (S first)
     = {| Str.parent := Some first; Str.start := Str.start s + offset1 + offset2;
          Str.length := len2 |}
  /\ within (Str.start s + offset1 + offset2) len2 (Str.start s) (Str.length s)
  /\ fst run2 !! self = Some {| ob_refcnt := n + 1; ob_body := PyStr s |}
  /\ ob_refcnt <$> fst run2 !! first = Some 2.
Proof.
  intros Hself Hlen Hargs1 Hargs2 Hs1 He1 Hslice1 Hne1 Hs2 He2 Hslice2 Hne2
    first h1 run2.
  pose proof (lookup_in_heap _ _ _ Hself) as Hlt.
  destruct (Str_getslice_new_view h self n s args1 start1 end1 offset1 len1)
    as (_ & (n' & s' & Hs' & _ & Hnew1 & Hself1 & _) & Hlen1); try assumption.
  rewrite Hself in Hs'. injection Hs' as <- <-.
  fold h1 first in Hnew1, Hself1, Hlen1.
  assert (is_ssize_t start1 /\ is_ssize_t end1 /\ is_ssize_t start2 /\ is_ssize_t end2)
    as (Hr1 & Hr2 & Hr3 & Hr4).
  { assert (is_ssize_t 0) by (unfold is_ssize_t, SSIZE_MIN, SSIZE_MAX; lia).
    repeat split;
      (eapply getslice_bound_range; [| eassumption]);
      try assumption; apply to_ssize_t_range. }
  assert (is_size_t (Str.length s)) as Hsize
    by (unfold is_size_t, modulus, PY_SSIZE_T_MAX, SSIZE_MAX in *; lia).
  destruct (slice_bounds _ _ _ _ _ Hsize Hr1 Hr2 Hslice1) as (Ho1 & Hl1 & Hfit1).
  assert (is_size_t len1) as Hsize1
    by (unfold is_size_t, modulus, PY_SSIZE_T_MAX, SSIZE_MAX in *; lia).
  destruct (slice_bounds _ _ _ _ _ Hsize1 Hr3 Hr4 Hslice2) as (Ho2 & Hl2 & Hfit2).
  destruct (Str_getslice_new_view h1 first 1
              {| Str.parent := Some self; Str.start := Str.start s + offset1;
                 Str.length := len1 |}
              args2 start2 end2 offset2 len2)
    as (Hret & (n2 & s2 & Hs2' & _ & Hnew2 & Hfirst2 & Hframe2) & _);
    try assumption.
  rewrite Hnew1 in Hs2'. injection Hs2' as <- <-.
  fold run2 in Hret, Hnew2, Hfirst2, Hframe2.
  rewrite Hlen1 in Hret, Hnew2, Hframe2.
  split; [exact Hret |]. split; [| split; [| split]].
  - rewrite (Str_at_lookup _ _ _ _ Hnew2). reflexivity.
  - cbn [Str.start Str.length] in *. unfold within. lia.
  - rewrite Hframe2 by (unfold first; lia). exact Hself1.
  - rewrite Hfirst2. reflexivity.
Qed.

Lemma Str_getslice_of_getslice_witness :
  let first := List.length demo_heap in
  let h1 := fst (Str_getslice demo_heap 1 [PyLong 2; PyLong 9]) in
  let run2 := Str_getslice h1 first [PyLong 1; PyLong (-2)] in
  snd run2 = Return (S first)
  /\ Str_at (fst run2) (S first)
     = {| Str.parent := Some first; Str.start := 3000 + 2 + 1; Str.length := 4 |}
  /\ within (3000 + 2 + 1) 4 3000 10
  /\ fst run2 !! 1%nat
     = Some {| ob_refcnt := 1 + 1;
               ob_body := PyStr {| Str.parent := Some 0%nat; Str.start := 3000;
                                   Str.length := 10 |} |}
  /\ ob_refcnt <$> fst run2 !! first = Some 2.
Proof.
  apply (Str_getslice_of_getslice demo_heap 1 1
           {| Str.parent := Some 0%nat; Str.start := 3000; Str.length := 10 |}
           [PyLong 2; PyLong 9] [PyLong 1; PyLong (-2)] 2 9 2 7 1 (-2) 1 4).
  - reflexivity.
  - cbn. unfold PY_SSIZE_T_MAX, SSIZE_MAX. lia.
  - cbn. lia.
  - cbn. lia.
  - reflexivity.
  - reflexivity.
  - vm_compute. reflexivity.
  - discriminate.
  - reflexivity.
  - reflexivity.
  - vm_compute. reflexivity.
  - discriminate.
Defined.

(** ** Releasing a derived view *)

Lemma Str_dealloc_derived_view h h' self new offset len :
  derived_view h h' self new offset len ->
  forall q : objref, q <> new -> Str_dealloc h' new !! q = h !! q.
Proof.
  intros (n & s & Hself & Hnew_ref & Hnew & Hself' & Hframe) q Hq.
  unfold Str_dealloc. rewrite (Str_at_lookup _ _ _ _ Hnew). cbn [Str.parent].
  unfold Py_XDECREF. rewrite list_lookup_alter.
  destruct (decide (self = q)) as [<- | Hne].
  - rewrite Hself', Hself. cbn. repeat f_equal. lia.
  - apply Hframe; congruence.
Qed.

(** X13. Releasing a slice undoes the reference it took: after
    [Str_getslice] or a subscript by a slice of step one has built a view,
    [Str_dealloc] of that view leaves every object that existed before the
    slice exactly as it was then, the reference count of the sliced view
    included. *)
Theorem Str_dealloc_undoes_slice
    (mem : memory) (h : heap) (self : objref) (n : Z) (s : Str.t)
    (args : list PyBody) (start end_ offset len : Z)
    (kstart kstop kstep : option Z) (kb ke b e slicelength : Z) (q : objref) :
  h !! self = Some {| ob_refcnt := n; ob_body := PyStr s |} ->
  0 <= Str.length s <= PY_SSIZE_T_MAX ->
  (List.length args <= 2)%nat ->
  getslice_bound (args !! 0%nat) 0 = Some start ->
  getslice_bound (args !! 1%nat) (to_ssize_t (Str.length s)) = Some end_ ->
  slice (Str.length s) start end_ = (offset, len) ->
  len <> 0 ->
  PySlice_Unpack kstart kstop kstep = Some (kb, ke, 1) ->
  PySlice_AdjustIndices (Str.length s) kb ke 1 = (b, e, slicelength) ->
  (q < List.length h)%nat ->
  Str_dealloc (fst (Str_getslice h self args)) (List.length h) !! q = h !! q
  /\ Str_dealloc (fst (Str_subscript mem h self (PySlice kstart kstop kstep)))
       (List.length h) !! q = h !! q.
Proof.
  intros Hself Hlen Hargs Hstart Hend Hslice Hne Hunpack Hadjust Hq.
  split.
  - destruct (Str_getslice_new_view h self n s args start end_ offset len)
      as (_ & Hview & _); try assumption.
    apply (Str_dealloc_derived_view _ _ _ _ _ _ Hview). lia.
  - rewrite (Str_subscript_run mem h self n s kstart kstop kstep kb ke b e slicelength)
      by assumption.
    cbn [fst].
    apply (Str_dealloc_derived_view h _ self (List.length h) b (to_size_t (e - b)));
      [| lia].
    now apply (derived_view_incref_last h self n s).
Qed.

Lemma Str_dealloc_undoes_slice_witness :
  Str_dealloc (fst (Str_getslice demo_heap 1 [PyLong 2; PyLong 7]))
    (List.length demo_heap) !! 1%nat = demo_heap !! 1%nat
  /\ Str_dealloc
       (fst (Str_subscript demo_memory demo_heap 1 (PySlice (Some 2) (Some 7) None)))
       (List.length demo_heap) !! 1%nat = demo_heap !! 1%nat.
Proof.
  apply (Str_dealloc_undoes_slice demo_memory demo_heap 1 1
           {| Str.parent := Some 0%nat; Str.start := 3000; Str.length := 10 |}
           [PyLong 2; PyLong 7] 2 7 2 5 (Some 2) (Some 7) None 2 7 2 7 5 1%nat).
  - reflexivity.
  - cbn. unfold PY_SSIZE_T_MAX, SSIZE_MAX. lia.
  - cbn. lia.
  - reflexivity.
  - reflexivity.
  - vm_compute. reflexivity.
  - discriminate.
  - vm_compute. reflexivity.
  - vm_compute. reflexivity.
  - cbn. lia.
Defined.

(** X14. Releasing one of two slices of a view leaves the other one whole:
    after two slices and [Str_dealloc] of the first, the second slice still
    has its range and its parent, and the sliced view still carries the
    reference the second slice took. *)
Theorem Str_dealloc_keeps_sibling
    (h : heap) (self : objref) (n : Z) (s : Str.t)
    (args1 args2 : list PyBody) (start1 end1 offset1 len1 start2 end2 offset2 len2 : Z) :
  h !! self = Some {| ob_refcnt := n; ob_body := PyStr s |} ->
  (List.length args1 <= 2)%nat -> (List.length args2 <= 2)%nat ->
  getslice_bound (args1 !! 0%nat) 0 = Some start1 ->
  getslice_bound (args1 !! 1%nat) (to_ssize_t (Str.length s)) = Some end1 ->
  slice (Str.length s) start1 end1 = (offset1, len1) -> len1 <> 0 ->
  getslice_bound (args2 !! 0%nat) 0 = Some start2 ->
  getslice_bound (args2 !! 1%nat) (to_ssize_t (Str.length s)) = Some end2 ->
  slice (Str.length s) start2 end2 = (offset2, len2) -> len2 <> 0 ->
  let first := List.length h in
  let h1 := fst (Str_getslice h self args1) in
  let h2 := fst (Str_getslice h1 self args2) in
  let h3 := Str_dealloc h2 first in
  h3 !! self = Some {| ob_refcnt := n + 1; ob_body := PyStr s |}
  /\ h3 !! S first
     = Some {| ob_refcnt := 1;
               ob_body := PyStr {| Str.parent := Some self;
                                   Str.start := Str.start s + offset2;
                                   Str.length := len2 |} |}.
Proof.
  intros Hself Hargs1 Hargs2 Hs1 He1 Hslice1 Hne1 Hs2 He2 Hslice2 Hne2 first h1 h2 h3.
  pose proof (lookup_in_heap _ _ _ Hself) as Hlt.
  destruct (Str_getslice_new_view h self n s args1 start1 end1 offset1 len1)
    as (_ & (n' & s' & Hs' & _ & Hnew1 & Hself1 & _) & Hlen1); try assumption.
  rewrite Hself in Hs'. injection Hs' as <- <-.
  fold h1 first in Hnew1, Hself1, Hlen1.
  destruct (Str_getslice_new_view h1 self (n + 1) s args2 start2 end2 offset2 len2)
    as (_ & (n2 & s2 & Hs2' & _ & Hnew2 & Hself2 & Hframe2) & _); try assumption.
  rewrite Hself1 in Hs2'. injection Hs2' as <- <-.
  fold h2 in Hnew2, Hself2, Hframe2. rewrite Hlen1 in Hnew2, Hframe2.
  assert (h2 !! first = h1 !! first) as Hfirst
    by (apply Hframe2; unfold first; lia).
  subst h3. unfold Str_dealloc.
  rewrite Hnew1 in Hfirst. rewrite (Str_at_lookup _ _ _ _ Hfirst). cbn [Str.parent].
  unfold Py_XDECREF. split.
  - rewrite list_lookup_alter_eq, Hself2. cbn. repeat f_equal. lia.
  - rewrite list_lookup_alter_ne by (unfold first; lia). exact Hnew2.
Qed.

Lemma Str_dealloc_keeps_sibling_witness :
  let first := List.length demo_heap in
  let h1 := fst (Str_getslice demo_heap 1 [PyLong 0; PyLong 4]) in
  let h2 := fst (Str_getslice h1 1 [PyLong 6]) in
  let h3 := Str_dealloc h2 first in
  h3 !! 1%nat
  = Some {| ob_refcnt := 1 + 1;
            ob_body := PyStr {| Str.parent := Some 0%nat; Str.start := 3000;
                                Str.length := 10 |} |}
  /\ h3 !! S first
     = Some {| ob_refcnt := 1;
               ob_body := PyStr {| Str.parent := Some 1%nat; Str.start := 3000 + 6;
                                   Str.length := 4 |} |}.
Proof.
  apply (Str_dealloc_keeps_sibling demo_heap 1 1
           {| Str.parent := Some 0%nat; Str.start := 3000; Str.length := 10 |}
           [PyLong 0; PyLong 4] [PyLong 6] 0 4 0 4 6 10 6 4).
  - reflexivity.
  - cbn. lia.
  - cbn. lia.
  - reflexivity.
  - reflexivity.
  - vm_compute. reflexivity.
  - discriminate.
  - reflexivity.
  - vm_compute. reflexivity.
  - vm_compute. reflexivity.
  - discriminate.
Defined.

(** ** Reading a view *)

(** X16. On an empty view every index is out of range: [Str_getitem] raises
    [IndexError] for every [Py_ssize_t] index, whatever the start of the
    view (null included) and whatever the memory holds. *)
Theorem Str_getitem_empty_view (mem : memory) (self : Str.t) (i : Z) :
  Str.length self = 0 -> is_ssize_t i ->
  Str_getitem mem self i = Raise PyExc_IndexError "Index out of range".
Proof.
  unfold is_ssize_t, SSIZE_MIN, SSIZE_MAX. intros Hzero Hi.
  unfold Str_getitem. rewrite Hzero, Z.add_0_r.
  destruct (Z.ltb_spec i 0) as [Hneg | Hpos].
  - rewrite to_ssize_t_small by lia.
    replace (i <? 0) with true by (symmetry; apply Z.ltb_lt; lia). reflexivity.
  - assert ((i <? 0) = false) as -> by (apply Z.ltb_ge; lia).
    rewrite to_size_t_small by lia. rewrite Z.geb_leb.
    replace (0 <=? i) with true by (symmetry; apply Z.leb_le; lia). reflexivity.
Qed.

Lemma Str_getitem_empty_view_witness :
  Str_getitem demo_memory {| Str.parent := None; Str.start := NULL; Str.length := 0 |} 0
  = Raise PyExc_IndexError "Index out of range".
Proof.
  apply (Str_getitem_empty_view demo_memory
           {| Str.parent := None; Str.start := NULL; Str.length := 0 |} 0).
  - reflexivity.
  - unfold is_ssize_t, SSIZE_MIN, SSIZE_MAX. lia.
Defined.

(** ** Searching *)

(** X18. Containment is the unbounded module-level search: for a view and
    a byte-range-like needle, [find(view, needle)] reports some position
    [p], and [needle in view] is [1] unless [p] is the length of the view.
    For a needle that is not byte-range-like both raise [TypeError]. *)
Theorem Str_contains_agrees_with_find
    (strzl_neon_find_substr : find_kernel) (mem : memory) (self : Str.t)
    (arg stranger : PyBody) (ptr len : Z) :
  0 <= Str.length self <= PY_SSIZE_T_MAX ->
  export_string_like arg = Some (ptr, len) ->
  export_string_like stranger = None ->
  (exists p : Z,
     str_find_vectorcall strzl_neon_find_substr mem [PyStr self; arg]
     = PyLong_FromSize_t p
     /\ Str_contains strzl_neon_find_substr mem self arg
        = IntReturn (if p =? Str.length self then 0 else 1))
  /\ str_find_vectorcall strzl_neon_find_substr mem [PyStr self; stranger]
     = Raise PyExc_TypeError "Second argument (needle) must be string-like"
  /\ Str_contains strzl_neon_find_substr mem self stranger
     = IntRaise PyExc_TypeError "Unsupported argument type".
Proof.
  intros Hlen Harg Hstranger. split; [| split].
  - eexists. unfold str_find_vectorcall, Str_contains.
    cbn [List.length nth export_string_like]. rewrite Harg.
    change (Z.of_nat 2 <? 2) with false. change (Z.of_nat 2 >? 4) with false.
    change (Z.of_nat 2 >? 2) with false. change (Z.of_nat 2 >? 3) with false.
    cbn [orb]. rewrite (slice_whole _ Hlen). rewrite Z.add_0_r.
    split; reflexivity.
  - unfold str_find_vectorcall. cbn [List.length nth export_string_like].
    rewrite Hstranger. reflexivity.
  - unfold Str_contains. rewrite Hstranger. reflexivity.
Qed.

Lemma Str_contains_agrees_with_find_witness :
  (exists p : Z,
     str_find_vectorcall naive_find_substr demo_memory
       [PyStr {| Str.parent := None; Str.start := 1000; Str.length := 11 |};
        PyUnicode 2000 3]
     = PyLong_FromSize_t p
     /\ Str_contains naive_find_substr demo_memory
          {| Str.parent := None; Str.start := 1000; Str.length := 11 |} (PyUnicode 2000 3)
        = IntReturn (if p =? 11 then 0 else 1))
  /\ str_find_vectorcall naive_find_substr demo_memory
       [PyStr {| Str.parent := None; Str.start := 1000; Str.length := 11 |}; PyNone]
     = Raise PyExc_TypeError "Second argument (needle) must be string-like"
  /\ Str_contains naive_find_substr demo_memory
       {| Str.parent := None; Str.start := 1000; Str.length := 11 |} PyNone
     = IntRaise PyExc_TypeError "Unsupported argument type".
Proof.
  apply (Str_contains_agrees_with_find naive_find_substr demo_memory
           {| Str.parent := None; Str.start := 1000; Str.length := 11 |}
           (PyUnicode 2000 3) PyNone 2000 3).
  - cbn. unfold PY_SSIZE_T_MAX, SSIZE_MAX. lia.
  - reflexivity.
  - reflexivity.
Defined.

(** X19. Bounds are clamped, never refused: on two byte-range-like
    arguments and bounds that are integers fitting [Py_ssize_t] (so that
    [PyLong_AsSsize_t] sets no exception), however far outside the haystack
    they lie, the module-level search returns a position, and with a kernel
    that keeps to its contract that position is never beyond the length of
    the haystack. *)
Theorem str_find_vectorcall_within_haystack
    (strzl_neon_find_substr : find_kernel) (mem : memory) (args : list PyBody)
    (haystack_ptr0 haystack_len0 needle_ptr0 needle_len0 : Z) :
  find_kernel_contract strzl_neon_find_substr ->
  (2 <= List.length args <= 4)%nat ->
  export_string_like (nth 0 args PyOther) = Some (haystack_ptr0, haystack_len0) ->
  is_size_t haystack_len0 ->
  export_string_like (nth 1 args PyOther) = Some (needle_ptr0, needle_len0) ->
  (forall i : nat, (2 <= i < List.length args)%nat ->
                   PyLong_AsSsize_t_error (nth i args PyOther) = false) ->
  exists p : Z,
    str_find_vectorcall strzl_neon_find_substr mem args = PyLong_FromSize_t p
    /\ 0 <= p <= haystack_len0.
Proof.
  intros Hkernel Hnargs Hhaystack Hsize Hneedle _.
  unfold str_find_vectorcall.
  destruct (Z.ltb_spec (Z.of_nat (List.length args)) 2); [lia |].
  rewrite (Z.gtb_ltb _ 4).
  destruct (Z.ltb_spec 4 (Z.of_nat (List.length args))); [lia |].
  cbn [orb]. rewrite Hhaystack, Hneedle.
  destruct (slice haystack_len0 _ _) as [offset len] eqn:Hslice.
  apply (slice_bounds _ _ _ _ _ Hsize) in Hslice.
  - destruct Hslice as (Hoff & Hlen & Hfit).
    eexists. split; [reflexivity |].
    pose proof (Hkernel mem
                  {| haystack_ptr := haystack_ptr0 + offset; haystack_len := len |}
                  {| needle_ptr := needle_ptr0; needle_len := needle_len0;
                     anomaly_offset := 0 |} Hlen) as Hp.
    cbn [haystack_len] in Hp. lia.
  - destruct (_ >? 2); [apply PyLong_AsSsize_t_range |].
    unfold is_ssize_t, SSIZE_MIN, SSIZE_MAX. lia.
  - destruct (_ >? 3); [apply PyLong_AsSsize_t_range |].
    unfold is_ssize_t, PY_SSIZE_T_MAX, SSIZE_MIN, SSIZE_MAX. lia.
Qed.

Lemma str_find_vectorcall_within_haystack_witness :
  exists p : Z,
    str_find_vectorcall naive_find_substr demo_memory
      [PyUnicode 1000 11; PyUnicode 2000 3; PyLong (-100); PyLong 1000]
    = PyLong_FromSize_t p
    /\ 0 <= p <= 11.
Proof.
  apply (str_find_vectorcall_within_haystack naive_find_substr demo_memory
           [PyUnicode 1000 11; PyUnicode 2000 3; PyLong (-100); PyLong 1000]
           1000 11 2000 3).
  - exact naive_find_substr_contract.
  - cbn. lia.
  - reflexivity.
  - unfold is_size_t, modulus. lia.
  - reflexivity.
  - intros i Hi. cbn [List.length] in Hi.
    destruct i as [| [| [| [| i]]]]; try lia; reflexivity.
Defined.

(** ** The order of views *)

Lemma lex_compare_antisym (a : list byte) : forall b,
  lex_compare b a = CompOpp (lex_compare a b).
Proof.
  induction a as [| x a IH]; intros [| y b]; cbn [lex_compare CompOpp]; try reflexivity.
  rewrite (N.compare_antisym (Byte.to_N x) (Byte.to_N y)).
  destruct (Byte.to_N x ?= Byte.to_N y)%N; cbn [CompOpp]; [apply IH | |]; reflexivity.
Qed.

Lemma lex_compare_trans_lt (a : list byte) : forall b c,
  lex_compare a b = Lt -> lex_compare b c = Lt -> lex_compare a c = Lt.
Proof.
  induction a as [| x a IH]; intros [| y b] [| z c]; cbn [lex_compare];
    try discriminate; try reflexivity.
  destruct (N.compare_spec (Byte.to_N x) (Byte.to_N y)) as [Hxy | Hxy | Hxy];
    destruct (N.compare_spec (Byte.to_N y) (Byte.to_N z)) as [Hyz | Hyz | Hyz];
    try discriminate; intros Hab Hbc.
  - rewrite Hxy, Hyz, N.compare_refl. now apply (IH b c).
  - rewrite Hxy. now rewrite (proj2 (N.compare_lt_iff _ _) Hyz).
  - rewrite <- Hyz. now rewrite (proj2 (N.compare_lt_iff _ _) Hxy).
  - assert (Byte.to_N x < Byte.to_N z)%N as Hxz by lia.
    now rewrite (proj2 (N.compare_lt_iff _ _) Hxz).
Qed.

(** X20. Swapping the operands mirrors the comparison: [a < b] answers as
    [b > a], [a <= b] as [b >= a], and [==] and [!=] do not depend on the
    order of the operands. *)
Theorem Str_richcompare_mirror
    (mem : memory) (self other : PyBody) (a_start a_length b_start b_length : Z) :
  export_string_like self = Some (a_start, a_length) ->
  export_string_like other = Some (b_start, b_length) ->
  0 <= a_length -> 0 <= b_length ->
  Str_richcompare mem self other Py_LT = Str_richcompare mem other self Py_GT
  /\ Str_richcompare mem self other Py_LE = Str_richcompare mem other self Py_GE
  /\ Str_richcompare mem self other Py_EQ = Str_richcompare mem other self Py_EQ
  /\ Str_richcompare mem self other Py_NE = Str_richcompare mem other self Py_NE.
Proof.
  intros Hself Hother Ha Hb.
  rewrite !(Str_richcompare_test mem self other _ _ _ _ _ Hself Hother Ha Hb).
  rewrite !(Str_richcompare_test mem other self _ _ _ _ _ Hother Hself Hb Ha).
  rewrite (lex_compare_antisym (load mem a_start a_length) (load mem b_start b_length)).
  destruct (lex_compare (load mem a_start a_length) (load mem b_start b_length));
    repeat split; reflexivity.
Qed.

Lemma Str_richcompare_mirror_witness :
  Str_richcompare demo_memory (PyUnicode 1000 11) (PyUnicode 2000 3) Py_LT
  = Str_richcompare demo_memory (PyUnicode 2000 3) (PyUnicode 1000 11) Py_GT
  /\ Str_richcompare demo_memory (PyUnicode 1000 11) (PyUnicode 2000 3) Py_LE
     = Str_richcompare demo_memory (PyUnicode 2000 3) (PyUnicode 1000 11) Py_GE
  /\ Str_richcompare demo_memory (PyUnicode 1000 11) (PyUnicode 2000 3) Py_EQ
     = Str_richcompare demo_memory (PyUnicode 2000 3) (PyUnicode 1000 11) Py_EQ
  /\ Str_richcompare demo_memory (PyUnicode 1000 11) (PyUnicode 2000 3) Py_NE
     = Str_richcompare demo_memory (PyUnicode 2000 3) (PyUnicode 1000 11) Py_NE.
Proof.
  apply (Str_richcompare_mirror demo_memory (PyUnicode 1000 11) (PyUnicode 2000 3)
           1000 11 2000 3).
  - reflexivity.
  - reflexivity.
  - lia.
  - lia.
Defined.

(** X21. [<] is transitive: if [a < b] and [b < c] both answer true, so
    does [a < c]. *)
Theorem Str_richcompare_lt_transitive
    (mem : memory) (a b c : PyBody)
    (a_start a_length b_start b_length c_start c_length : Z) :
  export_string_like a = Some (a_start, a_length) ->
  export_string_like b = Some (b_start, b_length) ->
  export_string_like c = Some (c_start, c_length) ->
  0 <= a_length -> 0 <= b_length -> 0 <= c_length ->
  Str_richcompare mem a b Py_LT = PyBool_FromLong true ->
  Str_richcompare mem b c Py_LT = PyBool_FromLong true ->
  Str_richcompare mem a c Py_LT = PyBool_FromLong true.
Proof.
  intros Ha Hb Hc Hla Hlb Hlc.
  rewrite (Str_richcompare_test mem a b _ _ _ _ _ Ha Hb Hla Hlb).
  rewrite (Str_richcompare_test mem b c _ _ _ _ _ Hb Hc Hlb Hlc).
  rewrite (Str_richcompare_test mem a c _ _ _ _ _ Ha Hc Hla Hlc).
  cbn [ordering_test Z.eqb Py_LT].
  destruct (lex_compare (load mem a_start a_length) (load mem b_start b_length))
    eqn:Hab; try discriminate.
  destruct (lex_compare (load mem b_start b_length) (load mem c_start c_length))
    eqn:Hbc; try discriminate.
  intros _ _. now rewrite (lex_compare_trans_lt _ _ _ Hab Hbc).
Qed.

Lemma Str_richcompare_lt_transitive_witness :
  Str_richcompare demo_memory (PyUnicode 3000 10) (PyUnicode 1000 11) Py_LT
  = PyBool_FromLong true.
Proof.
  apply (Str_richcompare_lt_transitive demo_memory
           (PyUnicode 3000 10) (PyUnicode 3000 11) (PyUnicode 1000 11)
           3000 10 3000 11 1000 11).
  - reflexivity.
  - reflexivity.
  - reflexivity.
  - lia.
  - lia.
  - lia.
  - vm_compute. reflexivity.
  - vm_compute. reflexivity.
Defined.

(** X22. The six operators are coherent: of [<], [==] and [>] exactly one
    answers true; [<=] is [<] or [==], [>=] is [>] or [==], and [!=] is the
    negation of [==]. *)
Theorem Str_richcompare_operators_coherent
    (mem : memory) (self other : PyBody) (a_start a_length b_start b_length : Z) :
  export_string_like self = Some (a_start, a_length) ->
  export_string_like other = Some (b_start, b_length) ->
  0 <= a_length -> 0 <= b_length ->
  exists lt eq gt : bool,
    Str_richcompare mem self other Py_LT = PyBool_FromLong lt
    /\ Str_richcompare mem self other Py_EQ = PyBool_FromLong eq
    /\ Str_richcompare mem self other Py_GT = PyBool_FromLong gt
    /\ Str_richcompare mem self other Py_LE = PyBool_FromLong (lt || eq)
    /\ Str_richcompare mem self other Py_GE = PyBool_FromLong (gt || eq)
    /\ Str_richcompare mem self other Py_NE = PyBool_FromLong (negb eq)
    /\ ((lt, eq, gt) = (true, false, false)
        \/ (lt, eq, gt) = (false, true, false)
        \/ (lt, eq, gt) = (false, false, true)).
Proof.
  intros Hself Hother Ha Hb.
  rewrite !(Str_richcompare_test mem self other _ _ _ _ _ Hself Hother Ha Hb).
  destruct (lex_compare (load mem a_start a_length) (load mem b_start b_length)).
  - exists false, true, false. cbn. repeat split; auto.
  - exists true, false, false. cbn. repeat split; auto.
  - exists false, false, true. cbn. repeat split; auto.
Qed.

Lemma Str_richcompare_operators_coherent_witness :
  exists lt eq gt : bool,
    Str_richcompare demo_memory (PyUnicode 1000 11) (PyUnicode 2000 3) Py_LT
    = PyBool_FromLong lt
    /\ Str_richcompare demo_memory (PyUnicode 1000 11) (PyUnicode 2000 3) Py_EQ
       = PyBool_FromLong eq
    /\ Str_richcompare demo_memory (PyUnicode 1000 11) (PyUnicode 2000 3) Py_GT
       = PyBool_FromLong gt
    /\ Str_richcompare demo_memory (PyUnicode 1000 11) (PyUnicode 2000 3) Py_LE
       = PyBool_FromLong (lt || eq)
    /\ Str_richcompare demo_memory (PyUnicode 1000 11) (PyUnicode 2000 3) Py_GE
       = PyBool_FromLong (gt || eq)
    /\ Str_richcompare demo_memory (PyUnicode 1000 11) (PyUnicode 2000 3) Py_NE
       = PyBool_FromLong (negb eq)
    /\ ((lt, eq, gt) = (true, false, false)
        \/ (lt, eq, gt) = (false, true, false)
        \/ (lt, eq, gt) = (false, false, true)).
Proof.
  apply (Str_richcompare_operators_coherent demo_memory
           (PyUnicode 1000 11) (PyUnicode 2000 3) 1000 11 2000 3).
  - reflexivity.
  - reflexivity.
  - lia.
  - lia.
Defined.

(** X23. Hashing respects equality: with a hash kernel that is a function
    of the bytes, two views that compare equal with [==] have the same
    hash. *)
Theorem Str_hash_respects_eq
    (strzl_hash_crc32_native : hash_kernel) (mem : memory) (v1 v2 : Str.t) :
  hash_kernel_contract strzl_hash_crc32_native ->
  0 <= Str.length v1 -> 0 <= Str.length v2 ->
  Str_richcompare mem (PyStr v1) (PyStr v2) Py_EQ = PyBool_FromLong true ->
  Str_hash strzl_hash_crc32_native mem v1 = Str_hash strzl_hash_crc32_native mem v2.
Proof.
  intros Hkernel Hlen1 Hlen2.
  rewrite (Str_richcompare_test mem (PyStr v1) (PyStr v2) Py_EQ
             (Str.start v1) (Str.length v1) (Str.start v2) (Str.length v2)
             eq_refl eq_refl Hlen1 Hlen2).
  cbn [ordering_test Z.eqb Py_EQ Py_LT Py_LE].
  destruct (lex_compare _ _) eqn:Hcmp; try discriminate. intros _.
  apply lex_compare_eq in Hcmp.
  assert (Str.length v1 = Str.length v2) as Hsame.
  { apply (f_equal (@List.length byte)) in Hcmp. rewrite !load_length in Hcmp. lia. }
  unfold Str_hash. f_equal. rewrite <- Hsame in *. now apply Hkernel.
Qed.

Lemma Str_hash_respects_eq_witness :
  Str_hash fold_hash demo_memory
    {| Str.parent := Some 0%nat; Str.start := 1000; Str.length := 11 |}
  = Str_hash fold_hash demo_memory
      {| Str.parent := None; Str.start := 4000; Str.length := 11 |}.
Proof.
  apply (Str_hash_respects_eq fold_hash demo_memory
           {| Str.parent := Some 0%nat; Str.start := 1000; Str.length := 11 |}
           {| Str.parent := None; Str.start := 4000; Str.length := 11 |}).
  - exact fold_hash_contract.
  - cbn. lia.
  - cbn. lia.
  - vm_compute. reflexivity.
Defined.

(** ** The life of a mapped file *)

Lemma posix_init_success env os self path size addr :
  0 <= open_result env ->
  fstat_result env = Some size ->
  mmap_result env = Some addr ->
  addr <> MAP_FAILED ->
  MemoryMappedFile_init env os self (Some path)
  = ({| open_fds := open_result env :: open_fds os;
        mappings := (addr, size) :: mappings os;
        calls := calls os ++ [call_open path (open_result env);
                              call_fstat (open_result env) true;
                              call_mmap size (open_result env) addr] |},
     {| MemoryMappedFile.file_descriptor := open_result env;
        MemoryMappedFile.start := addr;
        MemoryMappedFile.length := to_size_t size |},
     IntReturn 0).
Proof.
  intros Hfd Hstat Hmap Haddr.
  unfold MemoryMappedFile_init, sys_open, sys_fstat, sys_mmap, is_open.
  destruct (Z.ltb_spec (open_result env) 0) as [? | _]; [lia |].
  destruct (Z.ltb_spec (open_result env) 0) as [? | _]; [lia |].
  cbn [fst snd open_fds mappings calls MemoryMappedFile.file_descriptor].
  rewrite existsb_head, Hstat.
  cbn [fst snd open_fds mappings calls MemoryMappedFile.file_descriptor].
  rewrite Hmap.
  destruct (Z.eqb_spec addr MAP_FAILED); [contradiction |].
  rewrite <- !app_assoc. reflexivity.
Qed.

Lemma remove_mapping (m : Z * Z) (ms : list (Z * Z)) :
  ~ In m ms ->
  List.remove (fun x y : Z * Z => decide (x = y)) m (m :: ms) = ms.
Proof.
  intros Hnot. cbn [List.remove].
  destruct (decide (m = m)); [| congruence]. now apply notin_remove.
Qed.

(** X24. Mapping a file and tearing it down again is a round trip for the
    system: after a successful [MemoryMappedFile_init] (on a descriptor other
    than 0) the object holds the descriptor, the address and the size, and
    [MemoryMappedFile_dealloc] then returns the descriptor table and the
    mappings to what they were before, by one [munmap] and one [close]. *)
Theorem posix_map_then_release
    (env : os_outcome) (os : os_state) (self : MemoryMappedFile.t) (path : string)
    (size addr : Z) :
  fresh_descriptor env os ->
  0 < open_result env ->
  fstat_result env = Some size -> 0 <= size < 2 ^ 64 ->
  mmap_result env = Some addr -> addr <> MAP_FAILED -> addr <> NULL ->
  ~ In (addr, size) (mappings os) ->
  let run := MemoryMappedFile_init env os self (Some path) in
  let released := MemoryMappedFile_dealloc (fst (fst run)) (snd (fst run)) in
  snd run = IntReturn 0
  /\ snd (fst run) = {| MemoryMappedFile.file_descriptor := open_result env;
                        MemoryMappedFile.start := addr;
                        MemoryMappedFile.length := size |}
  /\ open_fds (fst released) = open_fds os
  /\ mappings (fst released) = mappings os
  /\ calls (fst released)
     = calls (fst (fst run)) ++ [call_munmap addr size; call_close (open_result env)].
Proof.
  intros [_ Hfresh] Hfd Hstat Hsize Hmap Haddr Hnull Hnew run released.
  subst released run.
  rewrite (posix_init_success env os self path size addr) by (try assumption; lia).
  cbn [fst snd]. rewrite to_size_t_small by assumption.
  split; [reflexivity |]. split; [reflexivity |].
  unfold MemoryMappedFile_dealloc, sys_munmap, sys_close.
  cbn [MemoryMappedFile.start MemoryMappedFile.length MemoryMappedFile.file_descriptor].
  destruct (Z.eqb_spec addr NULL); [contradiction |]. cbn [negb].
  cbn [MemoryMappedFile.start MemoryMappedFile.length MemoryMappedFile.file_descriptor].
  destruct (Z.eqb_spec (open_result env) 0); [lia |]. cbn [negb fst open_fds mappings calls].
  rewrite remove_head, (remove_not_open _ _ (Hfresh ltac:(lia))).
  rewrite (remove_mapping _ _ Hnew), <- !app_assoc.
  repeat split; reflexivity.
Qed.

Lemma posix_map_then_release_witness :
  let run := MemoryMappedFile_init map_granted boot_os MemoryMappedFile_new
               (Some "hello.txt"%string) in
  let released := MemoryMappedFile_dealloc (fst (fst run)) (snd (fst run)) in
  snd run = IntReturn 0
  /\ snd (fst run) = {| MemoryMappedFile.file_descriptor := open_result map_granted;
                        MemoryMappedFile.start := 4096;
                        MemoryMappedFile.length := 11 |}
  /\ open_fds (fst released) = open_fds boot_os
  /\ mappings (fst released) = mappings boot_os
  /\ calls (fst released)
     = calls (fst (fst run))
       ++ [call_munmap 4096 11; call_close (open_result map_granted)].
Proof.
  apply (posix_map_then_release map_granted boot_os MemoryMappedFile_new "hello.txt"
           11 4096).
  - split; [reflexivity | intros _; reflexivity].
  - cbn. lia.
  - reflexivity.
  - lia.
  - reflexivity.
  - discriminate.
  - discriminate.
  - cbn. tauto.
Defined.

(** X25. A file that opens as descriptor 0 is never closed: the teardown
    takes a descriptor of 0 for "no descriptor", so after a successful
    [MemoryMappedFile_init] on descriptor 0 [MemoryMappedFile_dealloc] unmaps
    the file, issues no [close], and leaves descriptor 0 open. *)
Theorem posix_descriptor_zero_stays_open
    (env : os_outcome) (os : os_state) (self : MemoryMappedFile.t) (path : string)
    (size addr : Z) :
  open_result env = 0 ->
  fstat_result env = Some size ->
  mmap_result env = Some addr -> addr <> MAP_FAILED -> addr <> NULL ->
  let run := MemoryMappedFile_init env os self (Some path) in
  let released := MemoryMappedFile_dealloc (fst (fst run)) (snd (fst run)) in
  snd run = IntReturn 0
  /\ is_open (fst released) 0 = true
  /\ calls (fst released)
     = calls (fst (fst run)) ++ [call_munmap addr (to_size_t size)].
Proof.
  intros Hfd Hstat Hmap Haddr Hnull run released. subst released run.
  rewrite (posix_init_success env os self path size addr) by (try assumption; lia).
  cbn [fst snd]. split; [reflexivity |].
  unfold MemoryMappedFile_dealloc, sys_munmap, is_open.
  cbn [MemoryMappedFile.start MemoryMappedFile.length MemoryMappedFile.file_descriptor].
  destruct (Z.eqb_spec addr NULL); [contradiction |]. cbn [negb].
  cbn [MemoryMappedFile.start MemoryMappedFile.length MemoryMappedFile.file_descriptor].
  rewrite Hfd. change (negb (0 =? 0)) with false. cbv iota.
  cbn [fst open_fds calls]. split; [apply existsb_head | reflexivity].
Qed.

Lemma posix_descriptor_zero_stays_open_witness :
  let env := {| open_result := 0; fstat_result := Some 11; mmap_result := Some 4096 |} in
  let os := {| open_fds := [1; 2]; mappings := []; calls := [] |} in
  let run := MemoryMappedFile_init env os MemoryMappedFile_new (Some "hello.txt"%string) in
  let released := MemoryMappedFile_dealloc (fst (fst run)) (snd (fst run)) in
  snd run = IntReturn 0
  /\ is_open (fst released) 0 = true
  /\ calls (fst released) = calls (fst (fst run)) ++ [call_munmap 4096 (to_size_t 11)].
Proof.
  apply (posix_descriptor_zero_stays_open
           {| open_result := 0; fstat_result := Some 11; mmap_result := Some 4096 |}
           {| open_fds := [1; 2]; mappings := []; calls := [] |}
           MemoryMappedFile_new "hello.txt" 11 4096).
  - reflexivity.
  - reflexivity.
  - reflexivity.
  - discriminate.
  - discriminate.
Defined.

Lemma posix_init_failure_fields env os self path :
  snd (MemoryMappedFile_init env os self (Some path)) <> IntReturn 0 ->
  snd (fst (MemoryMappedFile_init env os self (Some path)))
  = {| MemoryMappedFile.file_descriptor := 0;
       MemoryMappedFile.start := MemoryMappedFile.start self;
       MemoryMappedFile.length := MemoryMappedFile.length self |}.
Proof.
  unfold MemoryMappedFile_init.
  destruct (sys_open env os path) as [os1 fd].
  cbn [MemoryMappedFile.file_descriptor MemoryMappedFile.start MemoryMappedFile.length].
  destruct (sys_fstat env os1 fd) as [os2 [st_size |]]; [| reflexivity].
  destruct (sys_mmap env os2 st_size fd) as [os3 map].
  destruct (map =? MAP_FAILED); [reflexivity |].
  cbn [fst snd]. congruence.
Qed.

(** X26. A failed attempt leaves nothing for the teardown to release: when
    [MemoryMappedFile_init] fails on an object that held no mapping,
    [MemoryMappedFile_dealloc] of that object makes no system call at all, so
    the descriptor the failure path has closed is not closed a second time. *)
Theorem posix_failed_init_then_release
    (env : os_outcome) (os : os_state) (self : MemoryMappedFile.t) (path : string) :
  MemoryMappedFile.start self = NULL ->
  snd (MemoryMappedFile_init env os self (Some path)) <> IntReturn 0 ->
  let run := MemoryMappedFile_init env os self (Some path) in
  MemoryMappedFile_dealloc (fst (fst run)) (snd (fst run)) = fst run.
Proof.
  intros Hstart Hfail run. subst run.
  pose proof (posix_init_failure_fields env os self path Hfail) as Hfields.
  destruct (MemoryMappedFile_init env os self (Some path)) as [[os1 self1] r].
  cbn [fst snd] in *. subst self1.
  apply posix_dealloc_cleared; [exact Hstart | reflexivity].
Qed.

Lemma posix_failed_init_then_release_witness :
  let run := MemoryMappedFile_init map_refused boot_os MemoryMappedFile_new
               (Some "notes.txt"%string) in
  MemoryMappedFile_dealloc (fst (fst run)) (snd (fst run)) = fst run.
Proof.
  apply (posix_failed_init_then_release map_refused boot_os MemoryMappedFile_new
           "notes.txt").
  - reflexivity.
  - vm_compute. discriminate.
Defined.

Lemma win32_init_success env os self path :
  Win32.CreateFile_result env <> Win32.INVALID_HANDLE_VALUE ->
  Win32.CreateFileMapping_result env <> 0 ->
  Win32.MapViewOfFile_result env <> 0 ->
  Win32.MemoryMappedFile_init env os self (Some path)
  = ({| Win32.handles := Win32.CreateFileMapping_result env
                         :: Win32.CreateFile_result env :: Win32.handles os;
        Win32.views := Win32.MapViewOfFile_result env :: Win32.views os;
        Win32.calls :=
          Win32.calls os
          ++ [Win32.call_CreateFile path (Win32.CreateFile_result env);
              Win32.call_CreateFileMapping (Win32.CreateFile_result env)
                (Win32.CreateFileMapping_result env);
              Win32.call_MapViewOfFile (Win32.CreateFileMapping_result env)
                (Win32.MapViewOfFile_result env);
              Win32.call_GetFileSize (Win32.CreateFile_result env)] |},
     {| Win32.MemoryMappedFile.file_handle := Win32.CreateFile_result env;
        Win32.MemoryMappedFile.mapping_handle := Win32.CreateFileMapping_result env;
        Win32.MemoryMappedFile.start := Win32.MapViewOfFile_result env;
        Win32.MemoryMappedFile.length := to_size_t (Win32.GetFileSize_result env) |},
     IntReturn 0).
Proof.
  intros Hfile Hmapping Hview.
  unfold Win32.MemoryMappedFile_init, Win32.CreateFile, Win32.CreateFileMapping,
    Win32.MapViewOfFile, Win32.GetFileSize, Win32.is_open.
  destruct (Z.eqb_spec (Win32.CreateFile_result env) Win32.INVALID_HANDLE_VALUE);
    [contradiction |].
  cbn [fst snd Win32.handles Win32.views Win32.calls]. rewrite existsb_head.
  destruct (Z.eqb_spec (Win32.CreateFileMapping_result env) 0); [contradiction |].
  cbn [fst snd Win32.handles Win32.views Win32.calls]. rewrite existsb_head.
  destruct (Z.eqb_spec (Win32.MapViewOfFile_result env) 0); [contradiction |].
  cbn [fst snd Win32.handles Win32.views Win32.calls].
  rewrite <- !app_assoc. reflexivity.
Qed.

(** X27. On the Windows build too, mapping a file and tearing it down is a
    round trip: after a successful [MemoryMappedFile_init] the teardown
    unmaps the view and closes the mapping handle and the file handle, once
    each and in that order, and the open handles and views are those from
    before the attempt. *)
Theorem win32_map_then_release
    (env : Win32.os_outcome) (os : Win32.os_state) (self : Win32.MemoryMappedFile.t)
    (path : string) :
  fresh_handles env os ->
  Win32.CreateFile_result env <> Win32.INVALID_HANDLE_VALUE ->
  Win32.CreateFile_result env <> NULL ->
  Win32.CreateFileMapping_result env <> 0 ->
  Win32.MapViewOfFile_result env <> 0 ->
  ~ In (Win32.MapViewOfFile_result env) (Win32.views os) ->
  let run := Win32.MemoryMappedFile_init env os self (Some path) in
  let released := Win32.MemoryMappedFile_dealloc (fst (fst run)) (snd (fst run)) in
  snd run = IntReturn 0
  /\ Win32.handles (fst released) = Win32.handles os
  /\ Win32.views (fst released) = Win32.views os
  /\ Win32.calls (fst released)
     = Win32.calls (fst (fst run))
       ++ [Win32.call_UnmapViewOfFile (Win32.MapViewOfFile_result env);
           Win32.call_CloseHandle (Win32.CreateFileMapping_result env);
           Win32.call_CloseHandle (Win32.CreateFile_result env)].
Proof.
  intros (Hfile & Hmapping & Hdistinct) Hvalid Hnonnull Hmh Hview Hnew run released.
  subst released run.
  rewrite (win32_init_success env os self path) by assumption.
  cbn [fst snd]. split; [reflexivity |].
  unfold Win32.MemoryMappedFile_dealloc, Win32.UnmapViewOfFile, Win32.CloseHandle.
  cbn [Win32.MemoryMappedFile.start Win32.MemoryMappedFile.mapping_handle
       Win32.MemoryMappedFile.file_handle Win32.MemoryMappedFile.length].
  destruct (Z.eqb_spec (Win32.MapViewOfFile_result env) NULL); [contradiction |].
  cbn [negb Win32.MemoryMappedFile.start Win32.MemoryMappedFile.mapping_handle
       Win32.MemoryMappedFile.file_handle Win32.MemoryMappedFile.length].
  destruct (Z.eqb_spec (Win32.CreateFileMapping_result env) NULL); [contradiction |].
  cbn [negb Win32.MemoryMappedFile.start Win32.MemoryMappedFile.mapping_handle
       Win32.MemoryMappedFile.file_handle Win32.MemoryMappedFile.length].
  destruct (Z.eqb_spec (Win32.CreateFile_result env) NULL); [contradiction |].
  cbn [negb fst Win32.handles Win32.views Win32.calls].
  rewrite remove_head, (remove_other (Win32.CreateFileMapping_result env)) by congruence.
  unfold Win32.is_open in Hfile, Hmapping.
  rewrite (remove_not_open _ _ Hmapping), remove_head, (remove_not_open _ _ Hfile).
  rewrite remove_head, (notin_remove Z.eq_dec _ _ Hnew), <- !app_assoc.
  repeat split; reflexivity.
Qed.

Lemma win32_map_then_release_witness :
  let env := {| Win32.CreateFile_result := 12; Win32.CreateFileMapping_result := 16;
                Win32.MapViewOfFile_result := 4096; Win32.GetFileSize_result := 11 |} in
  let run := Win32.MemoryMappedFile_init env boot_win32 win32_new
               (Some "hello.txt"%string) in
  let released := Win32.MemoryMappedFile_dealloc (fst (fst run)) (snd (fst run)) in
  snd run = IntReturn 0
  /\ Win32.handles (fst released) = Win32.handles boot_win32
  /\ Win32.views (fst released) = Win32.views boot_win32
  /\ Win32.calls (fst released)
     = Win32.calls (fst (fst run))
       ++ [Win32.call_UnmapViewOfFile (Win32.MapViewOfFile_result env);
           Win32.call_CloseHandle (Win32.CreateFileMapping_result env);
           Win32.call_CloseHandle (Win32.CreateFile_result env)].
Proof.
  apply (win32_map_then_release
           {| Win32.CreateFile_result := 12; Win32.CreateFileMapping_result := 16;
              Win32.MapViewOfFile_result := 4096; Win32.GetFileSize_result := 11 |}
           boot_win32 win32_new "hello.txt").
  - split; [reflexivity | split; [reflexivity | vm_compute; discriminate]].
  - vm_compute. discriminate.
  - vm_compute. discriminate.
  - vm_compute. discriminate.
  - vm_compute. discriminate.
  - cbn. tauto.
Defined.

Lemma win32_init_failure_fields env os self path :
  snd (Win32.MemoryMappedFile_init env os self (Some path)) <> IntReturn 0 ->
  snd (fst (Win32.MemoryMappedFile_init env os self (Some path)))
  = if Win32.CreateFile_result env =? Win32.INVALID_HANDLE_VALUE
    then {| Win32.MemoryMappedFile.file_handle := Win32.INVALID_HANDLE_VALUE;
            Win32.MemoryMappedFile.mapping_handle :=
              Win32.MemoryMappedFile.mapping_handle self;
            Win32.MemoryMappedFile.start := Win32.MemoryMappedFile.start self;
            Win32.MemoryMappedFile.length := Win32.MemoryMappedFile.length self |}
    else {| Win32.MemoryMappedFile.file_handle := NULL;
            Win32.MemoryMappedFile.mapping_handle := NULL;
            Win32.MemoryMappedFile.start := Win32.MemoryMappedFile.start self;
            Win32.MemoryMappedFile.length := Win32.MemoryMappedFile.length self |}.
Proof.
  unfold Win32.MemoryMappedFile_init, Win32.CreateFile.
  destruct (Z.eqb_spec (Win32.CreateFile_result env) Win32.INVALID_HANDLE_VALUE)
    as [Hinvalid | Hvalid].
  - intros _. cbn [fst snd]. now rewrite Hinvalid.
  - destruct (Win32.CreateFileMapping env _ (Win32.CreateFile_result env))
      as [os2 mh].
    destruct (Z.eqb_spec mh 0) as [-> | Hmh]; [intros _; reflexivity |].
    destruct (Win32.MapViewOfFile env os2 mh) as [os3 view].
    destruct (view =? 0); [intros _; reflexivity |].
    destruct (Win32.GetFileSize env os3 (Win32.CreateFile_result env)) as [os4 size].
    cbn [fst snd]. congruence.
Qed.

(** X28. On the Windows build a failed attempt leaves one stray release:
    when [CreateFile] itself fails, [MemoryMappedFile_init] keeps
    [INVALID_HANDLE_VALUE] in the handle field, and the teardown of that
    object calls [CloseHandle] on it; after every other failure the teardown
    makes no call. *)
Theorem win32_failed_init_then_release
    (env : Win32.os_outcome) (os : Win32.os_state) (self : Win32.MemoryMappedFile.t)
    (path : string) :
  Win32.MemoryMappedFile.start self = NULL ->
  Win32.MemoryMappedFile.mapping_handle self = NULL ->
  snd (Win32.MemoryMappedFile_init env os self (Some path)) <> IntReturn 0 ->
  let run := Win32.MemoryMappedFile_init env os self (Some path) in
  Win32.calls (fst (Win32.MemoryMappedFile_dealloc (fst (fst run)) (snd (fst run))))
  = Win32.calls (fst (fst run))
    ++ (if Win32.CreateFile_result env =? Win32.INVALID_HANDLE_VALUE
        then [Win32.call_CloseHandle Win32.INVALID_HANDLE_VALUE]
        else []).
Proof.
  intros Hstart Hmapping Hfail run. subst run.
  rewrite win32_dealloc_calls. f_equal.
  rewrite (win32_init_failure_fields env os self path Hfail).
  unfold win32_release_calls.
  destruct (Win32.CreateFile_result env =? Win32.INVALID_HANDLE_VALUE);
    cbn [Win32.MemoryMappedFile.start Win32.MemoryMappedFile.mapping_handle
         Win32.MemoryMappedFile.file_handle];
    rewrite ?Hstart, ?Hmapping; reflexivity.
Qed.

Lemma win32_failed_init_then_release_witness :
  let env := {| Win32.CreateFile_result := Win32.INVALID_HANDLE_VALUE;
                Win32.CreateFileMapping_result := 16;
                Win32.MapViewOfFile_result := 4096; Win32.GetFileSize_result := 11 |} in
  let run := Win32.MemoryMappedFile_init env boot_win32 win32_new
               (Some "missing.txt"%string) in
  Win32.calls (fst (Win32.MemoryMappedFile_dealloc (fst (fst run)) (snd (fst run))))
  = Win32.calls (fst (fst run))
    ++ (if Win32.CreateFile_result env =? Win32.INVALID_HANDLE_VALUE
        then [Win32.call_CloseHandle Win32.INVALID_HANDLE_VALUE]
        else []).
Proof.
  apply (win32_failed_init_then_release
           {| Win32.CreateFile_result := Win32.INVALID_HANDLE_VALUE;
              Win32.CreateFileMapping_result := 16;
              Win32.MapViewOfFile_result := 4096; Win32.GetFileSize_result := 11 |}
           boot_win32 win32_new "missing.txt").
  - reflexivity.
  - reflexivity.
  - vm_compute. discriminate.
Defined.
